(** * The request layer of node-omron-envsensor (lib/envsensor-device.js)

    A shallow embedding of [EnvsensorDevice]: the characteristic table built
    by [_init], the retrying [_read] / [_write] engine, the merge-on-write
    [_setValue], and the paged retrieval of recorded data
    ([getRecordedDataList] and its helpers); then the methods built on
    them (device information, basic configurations, recording, clock and
    LED, monitoring) and the scanner [Envsensor] (lib/envsensor.js).

    Promises are run to completion against a scripted transport: every
    characteristic carries the list of replies its [read] and [write] stubs
    will give, one per call.  A promise is a function from the device state
    to its settlement and the device state it leaves behind. *)

From Stdlib Require Import ZArith String Ascii List Lia.
From Stdlib Require DecimalString HexadecimalString DecimalZ DecimalFacts.
From stdpp Require Import gmap strings list.

Local Set Warnings "-register-all".
Local Open Scope Z_scope.

(** ** JavaScript values *)

Module JS.

(** The values that travel through the request layer.  Numbers are the
    integers the layer computes with (pages, rows, flags, unix times,
    intervals) plus [NaN]; an array is an object keyed by its indices; an
    object is read by its own properties, each name held once. *)
Inductive value : Type :=
| VUndefined
| VNull
| VBool (b : bool)
| VNum (n : Z)
| VNaN
| VStr (s : string)
| VObj (fields : list (string * value)).

(** [new Error(message)]; [TypeError] is what the runtime itself throws. *)
Inductive error : Type :=
| Error (message : string)
| TypeError.

(** [if (v)] *)
Definition truthy (v : value) : bool :=
  match v with
  | VUndefined | VNull | VNaN => false
  | VBool b => b
  | VNum n => negb (n =? 0)
  | VStr s => negb (String.eqb s "")
  | VObj _ => true
  end.

(** [typeof (v) === 'object'] *)
Definition typeof_object (v : value) : bool :=
  match v with
  | VNull | VObj _ => true
  | _ => false
  end.

(** Decimal rendering of an integer, [Number.prototype.toString()]. *)
Definition dec (n : Z) : string :=
  DecimalString.NilZero.string_of_int (Z.to_int n).

(** [Number.prototype.toString(16)] *)
Definition hex (n : Z) : string :=
  HexadecimalString.NilZero.string_of_int (Z.to_hex_int n).

Fixpoint assoc (k : string) (l : list (string * value)) : option value :=
  match l with
  | [] => None
  | (k', v) :: l' => if String.eqb k k' then Some v else assoc k l'
  end.

(** Assignment to a property of an object: an existing key keeps its place,
    a new key goes last. *)
Fixpoint assoc_set (k : string) (v : value) (l : list (string * value))
  : list (string * value) :=
  match l with
  | [] => [(k, v)]
  | (k', v') :: l' =>
      if String.eqb k k' then (k, v) :: l' else (k', v') :: assoc_set k v l'
  end.

(** The index a property name denotes on a string primitive. *)
Definition index_of (k : string) (len : nat) : option nat :=
  List.find (fun i => String.eqb k (dec (Z.of_nat i))) (seq 0 len).

(** [v[k]] for a [v] that is neither [undefined] nor [null]. *)
Definition get_prop (v : value) (k : string) : value :=
  match v with
  | VObj fields => default VUndefined (assoc k fields)
  | VStr s =>
      match index_of k (String.length s) with
      | Some i => VStr (substring i 1 s)
      | None => if String.eqb k "length"
                then VNum (Z.of_nat (String.length s)) else VUndefined
      end
  | _ => VUndefined
  end.

(** [v[k] = x] in strict mode: a primitive receiver throws. *)
Definition set_prop (v : value) (k : string) (x : value) : option value :=
  match v with
  | VObj fields => Some (VObj (assoc_set k x fields))
  | _ => None
  end.

(** [Object.keys(v)]; [None] is the [TypeError] for [undefined] and [null]. *)
Definition own_keys (v : value) : option (list string) :=
  match v with
  | VUndefined | VNull => None
  | VObj fields => Some (map fst fields)
  | VStr s => Some (map (fun i => dec (Z.of_nat i)) (seq 0 (String.length s)))
  | _ => Some []
  end.

(** [ToNumber]; [None] is [NaN].  A string operand is read as [NaN]: the
    fields converted here are decoded from bytes as numbers. *)
Definition to_number (v : value) : option Z :=
  match v with
  | VNull => Some 0
  | VBool b => Some (if b then 1 else 0)
  | VNum n => Some n
  | _ => None
  end.

(** [String(v)] as string concatenation applies it. *)
Definition to_string (v : value) : string :=
  match v with
  | VUndefined => "undefined"
  | VNull => "null"
  | VBool b => if b then "true" else "false"
  | VNum n => dec n
  | VNaN => "NaN"
  | VStr s => s
  | VObj _ => "[object Object]"
  end.

Definition is_stringish (v : value) : bool :=
  match v with
  | VStr _ | VObj _ => true
  | _ => false
  end.

(** [a + b] *)
Definition add (a b : value) : value :=
  if is_stringish a || is_stringish b
  then VStr (to_string a +:+ to_string b)
  else match to_number a, to_number b with
       | Some x, Some y => VNum (x + y)
       | _, _ => VNaN
       end.

(** [v > n] for a number literal [n] *)
Definition gt (v : value) (n : Z) : bool :=
  match to_number v with
  | Some x => n <? x
  | None => false
  end.

(** [v === n] for a number [n] *)
Definition strict_eq_num (v : value) (n : Z) : bool :=
  match v with
  | VNum x => x =? n
  | _ => false
  end.

(** [v === b] for a boolean literal [b] *)
Definition strict_eq_bool (v : value) (b : bool) : bool :=
  match v with
  | VBool x => Bool.eqb x b
  | _ => false
  end.

Definition lower_ascii (c : ascii) : ascii :=
  let n := nat_of_ascii c in
  if ((65 <=? n) && (n <=? 90))%nat then ascii_of_nat (n + 32) else c.

(** [String.prototype.toLocaleLowerCase()] on ASCII identifiers. *)
Fixpoint toLocaleLowerCase (s : string) : string :=
  match s with
  | EmptyString => EmptyString
  | String c s' => String (lower_ascii c) (toLocaleLowerCase s')
  end.

Definition upper_ascii (c : ascii) : ascii :=
  let n := nat_of_ascii c in
  if ((97 <=? n) && (n <=? 122))%nat then ascii_of_nat (n - 32) else c.

Fixpoint toUpperCase (s : string) : string :=
  match s with
  | EmptyString => EmptyString
  | String c s' => String (upper_ascii c) (toUpperCase s')
  end.

(** [s.slice(-2)] *)
Definition slice_last2 (s : string) : string :=
  substring (String.length s - 2) 2 s.

(** The property names an object inherits from [Object.prototype]: on an
    object that has no such property of its own, [o[k]] is the inherited
    member and [k in o] holds. *)
Definition inherited (k : string) : bool :=
  existsb (String.eqb k)
    ["constructor"; "__defineGetter__"; "__defineSetter__"; "hasOwnProperty";
     "__lookupGetter__"; "__lookupSetter__"; "isPrototypeOf";
     "propertyIsEnumerable"; "toString"; "valueOf"; "__proto__";
     "toLocaleString"].

End JS.

(** ** The transport: characteristics of the noble peripheral *)

Module Noble.

Definition buffer := list Byte.byte.

(** What one call of a transport primitive does: it never calls back, it
    calls back with an error, or it calls back with its result.  A call that
    calls back does so while the timer of its attempt is still running. *)
Inductive reply (A : Type) : Type :=
| Stall
| Fail (e : JS.error)
| Answer (a : A).
Arguments Stall {A}.
Arguments Fail {A} e.
Arguments Answer {A} a.

(** A discovered characteristic, with the replies its stubs still hold.
    A stub whose script is used up stalls. *)
Record characteristic : Type := {
  uuid : string;
  name : option string;
  read_stub : list (reply buffer);
  write_stub : list (reply unit)
}.

Record service : Type := {
  s_uuid : string;
  s_name : option string
}.

(** A call of a transport primitive, as the peripheral sees it. *)
Inductive event : Type :=
| EvRead (char_uuid : string)
| EvWrite (char_uuid : string) (buf : buffer) (without_response : bool).

Definition is_write (e : event) : bool :=
  match e with
  | EvRead _ => false
  | EvWrite _ _ _ => true
  end.

Definition touches (k : string) (e : event) : bool :=
  match e with
  | EvRead k' => String.eqb k k'
  | EvWrite k' _ _ => String.eqb k k'
  end.

End Noble.

Import JS Noble.

(** ** The device object *)

(** The state of an [EnvsensorDevice] together with its peripheral: the
    tables filled by [_init], read by own key, the transport calls issued so
    far (oldest first) and the milliseconds spent in timers. *)
Record device : Type := {
  _services : gmap string service;
  _chars : gmap string characteristic;
  trace : list event;
  clock : Z
}.

Definition _RESPONSE_TIMEOUT_MSEC : Z := 5000.
Definition _REQUEST_RETRY_MAX : nat := 3.

Definition _SERVICE_NAMES : gmap string string :=
  list_to_map [
    ("3000", "Sensor Service");
    ("3010", "Setting Service");
    ("3030", "Control Service");
    ("3040", "Parameter Service");
    ("3050", "DFU Service")].

Definition _CHAR_NAMES : gmap string string :=
  list_to_map [
    ("3001", "Latest data");
    ("3002", "Latest page");
    ("3003", "Request page");
    ("3004", "Response flag");
    ("3005", "Response data");
    ("3006", "Event flag");
    ("3011", "Measurement interval");
    ("3012", "");
    ("3013", "Temperature");
    ("3014", "Relative humidity");
    ("3015", "Ambient light");
    ("3016", "UV Index");
    ("3017", "Pressure");
    ("3018", "Sound noise");
    ("3019", "Discomfort index");
    ("301a", "Heat stroke");
    ("3031", "Time information");
    ("3032", "LED on duration");
    ("3033", "Error status");
    ("3034", "Trigger");
    ("3041", "UUIDs");
    ("3042", "ADV setting");
    ("3053", "DFU Revision")].

(** [[a-f\d]] *)
Definition is_lower_hex (c : ascii) : bool :=
  let n := nat_of_ascii c in
  (((48 <=? n) && (n <=? 57)) || ((97 <=? n) && (n <=? 102)))%nat.

Fixpoint string_forallb (f : ascii -> bool) (s : string) : bool :=
  match s with
  | EmptyString => true
  | String c s' => f c && string_forallb f s'
  end.

(** [s.match(/^0c4c([a-f\d]{4})770046f4aa96d5e974e32a54$/)], giving the
    captured group [RegExp.$1] on a match. *)
Definition match_BASE_UUID_RE (s : string) : option string :=
  let seg := substring 4 4 s in
  if String.eqb (substring 0 4 s) "0c4c"
     && (String.length seg =? 4)%nat
     && string_forallb is_lower_hex seg
     && String.eqb (substring 8 (String.length s - 8) s)
                   "770046f4aa96d5e974e32a54"
  then Some seg else None.

(** The key a discovered service or characteristic is filed under. *)
Definition table_key (u : string) : string :=
  match match_BASE_UUID_RE u with
  | Some seg => seg
  | None => u
  end.

(** [if (!x.name) { if (NAMES[uuid]) { x.name = NAMES[uuid]; } }] *)
Definition default_name (names : gmap string string) (key : string)
    (nm : option string) : option string :=
  match nm with
  | Some n => if String.eqb n "" then
                match names !! key with
                | Some n' => if String.eqb n' "" then nm else Some n'
                | None => nm
                end
              else nm
  | None => match names !! key with
            | Some n' => if String.eqb n' "" then None else Some n'
            | None => None
            end
  end.

Definition init_service (tbl : gmap string service) (s : service)
  : gmap string service :=
  let key := table_key (s_uuid s) in
  <[ key := {| s_uuid := s_uuid s;
               s_name := default_name _SERVICE_NAMES key (s_name s) |} ]> tbl.

Definition init_char (tbl : gmap string characteristic) (c : characteristic)
  : gmap string characteristic :=
  let key := table_key (uuid c) in
  <[ key := {| uuid := uuid c;
               name := default_name _CHAR_NAMES key (name c);
               read_stub := read_stub c;
               write_stub := write_stub c |} ]> tbl.

(** The success branch of [_init]: both [forEach] loops over what
    [discoverAllServicesAndCharacteristics] reported. *)
Definition _init (service_list : list service)
    (char_list : list characteristic) (d : device) : device :=
  {| _services := fold_left init_service service_list (_services d);
     _chars := fold_left init_char char_list (_chars d);
     trace := trace d;
     clock := clock d |}.

(** A fresh [EnvsensorDevice] after [connect()] found [char_list]. *)
Definition connected (service_list : list service)
    (char_list : list characteristic) : device :=
  _init service_list char_list
    {| _services := ∅; _chars := ∅; trace := []; clock := 0 |}.

Definition log (e : event) (d : device) : device :=
  {| _services := _services d; _chars := _chars d;
     trace := trace d ++ [e]; clock := clock d |}.

(** A timer of [msec] milliseconds runs out. *)
Definition elapse (msec : Z) (d : device) : device :=
  {| _services := _services d; _chars := _chars d;
     trace := trace d; clock := clock d + msec |}.

Definition put_char (k : string) (c : characteristic) (d : device) : device :=
  {| _services := _services d; _chars := <[ k := c ]> (_chars d);
     trace := trace d; clock := clock d |}.

(** [char.read(callback)] on the characteristic filed under [k]. *)
Definition char_read (k : string) (d : device) : reply buffer * device :=
  let d' := log (EvRead k) d in
  match _chars d !! k with
  | Some c =>
      match read_stub c with
      | r :: rest =>
          (r, put_char k {| uuid := uuid c; name := name c;
                            read_stub := rest;
                            write_stub := write_stub c |} d')
      | [] => (Stall, d')
      end
  | None => (Stall, d')
  end.

(** [char.write(buf, without_response, callback)] *)
Definition char_write (k : string) (buf : buffer) (without_response : bool)
    (d : device) : reply unit * device :=
  let d' := log (EvWrite k buf without_response) d in
  match _chars d !! k with
  | Some c =>
      match write_stub c with
      | r :: rest =>
          (r, put_char k {| uuid := uuid c; name := name c;
                            read_stub := read_stub c;
                            write_stub := rest |} d')
      | [] => (Stall, d')
      end
  | None => (Stall, d')
  end.

(** The replies the stubs of the characteristic filed under [k] still hold. *)
Definition read_script (k : string) (d : device) : list (reply buffer) :=
  match _chars d !! k with
  | Some c => read_stub c
  | None => []
  end.

Definition write_script (k : string) (d : device) : list (reply unit) :=
  match _chars d !! k with
  | Some c => write_stub c
  | None => []
  end.

(** [this._chars[k]] is set. *)
Definition known (k : string) (d : device) : Prop := is_Some (_chars d !! k).

(** ** Promises *)

Inductive outcome (A : Type) : Type :=
| Resolved (a : A)
| Rejected (e : error).
Arguments Resolved {A} a.
Arguments Rejected {A} e.

(** A promise run to its settlement. *)
Definition promise (A : Type) : Type := device -> outcome A * device.

Definition resolve {A} (a : A) : promise A := fun d => (Resolved a, d).
Definition reject {A} (e : error) : promise A := fun d => (Rejected e, d).

(** [p.then(f)]: a rejection skips to the [catch] at the end of the chain. *)
Definition and_then {A B} (p : promise A) (f : A -> promise B) : promise B :=
  fun d =>
    match p d with
    | (Resolved a, d') => f a d'
    | (Rejected e, d') => (Rejected e, d')
    end.

Notation "'let*' x ':=' p 'in' q" := (and_then p (fun x => q))
  (at level 10, x name, p at level 100, q at level 200).

(** [setTimeout(resolve, msec)] *)
Definition _wait (msec : Z) : promise unit :=
  fun d => (Resolved tt, elapse msec d).

(** ** Calendar fields of [Date] *)

Module Date.

(** The largest time value of a valid [Date]. *)
Definition max_time : Z := 8640000000000000.

Definition msPerDay : Z := 86400000.

(** Year, month (1 to 12) and day of the month of the day that lies [z]
    days after 1970-01-01 in the Gregorian calendar. *)
Definition civil (z : Z) : Z * Z * Z :=
  let z := z + 719468 in
  let era := z / 146097 in
  let doe := z - era * 146097 in
  let yoe := (doe - doe / 1460 + doe / 36524 - doe / 146096) / 365 in
  let doy := doe - (365 * yoe + yoe / 4 - yoe / 100) in
  let mp := (5 * doy + 2) / 153 in
  let d := doy - (153 * mp + 2) / 5 + 1 in
  let m := if mp <? 10 then mp + 3 else mp - 9 in
  let y := yoe + era * 400 + (if m <=? 2 then 1 else 0) in
  (y, m, d).

(** The getters, on a local time value in milliseconds. *)
Definition getFullYear (t : Z) : Z := fst (fst (civil (t / msPerDay))).
Definition getMonth (t : Z) : Z := snd (fst (civil (t / msPerDay))) - 1.
Definition getDate (t : Z) : Z := snd (civil (t / msPerDay)).
Definition getHours (t : Z) : Z := (t mod msPerDay) / 3600000.
Definition getMinutes (t : Z) : Z := ((t mod msPerDay) / 60000) mod 60.
Definition getSeconds (t : Z) : Z := ((t mod msPerDay) / 1000) mod 60.

End Date.

(** ** Date and time of day in the form of ISO 8601 *)

(** The reading of a string of the form [YYYY-MM-DDThh:mm:ss] followed by
    [Z] or by an offset [+hh:mm] or [-hh:mm] from UTC: the calendar date
    must be one of the Gregorian calendar, the time one of the day.
    [instant] gives the seconds since 1970-01-01T00:00:00Z of the instant
    the string names, and the minutes its local time is ahead of UTC.  The
    days are counted from the lengths of the months and the leap years, not
    with [Date.civil]. *)

Module ISO8601.

Definition digit (c : ascii) : option Z :=
  let n := Z.of_nat (nat_of_ascii c) in
  if (48 <=? n) && (n <=? 57) then Some (n - 48) else None.

Definition digits2 (a b : ascii) : option Z :=
  match digit a, digit b with
  | Some x, Some y => Some (10 * x + y)
  | _, _ => None
  end.

Definition digits4 (a b c d : ascii) : option Z :=
  match digits2 a b, digits2 c d with
  | Some x, Some y => Some (100 * x + y)
  | _, _ => None
  end.

(** The leap years of the Gregorian calendar. *)
Definition leap (y : Z) : bool :=
  (y mod 4 =? 0) && (negb (y mod 100 =? 0) || (y mod 400 =? 0)).

Definition month_lengths (y : Z) : list Z :=
  [31; if leap y then 29 else 28; 31; 30; 31; 30; 31; 31; 30; 31; 30; 31].

Definition leap_days_before (y : Z) : Z :=
  (y - 1) / 4 - (y - 1) / 100 + (y - 1) / 400.

Definition days_before_year (y : Z) : Z :=
  365 * (y - 1970) + (leap_days_before y - leap_days_before 1970).

Definition days_before_month (y m : Z) : Z :=
  fold_right Z.add 0 (take (Z.to_nat (m - 1)) (month_lengths y)).

(** The days from 1970-01-01 to the day [d] of month [m] of year [y]. *)
Definition day_number (y m d : Z) : Z :=
  days_before_year y + days_before_month y m + (d - 1).

Definition valid_date (y m d : Z) : bool :=
  (1 <=? m) && (m <=? 12) && (1 <=? d)
  && (d <=? default 0 (month_lengths y !! Z.to_nat (m - 1))).

(** The minutes ahead of UTC a zone designator stands for. *)
Definition zone (l : list ascii) : option Z :=
  match l with
  | [z] => if Ascii.eqb z "Z" then Some 0 else None
  | [sg; a; b; c; e; f] =>
      match digits2 a b, digits2 e f with
      | Some h, Some m =>
          if Ascii.eqb c ":" && (h <? 24) && (m <? 60) then
            if Ascii.eqb sg "+" then Some (h * 60 + m)
            else if Ascii.eqb sg "-" then Some (- (h * 60 + m))
            else None
          else None
      | _, _ => None
      end
  | _ => None
  end.

Definition instant (s : string) : option (Z * Z) :=
  match list_ascii_of_string s with
  | y1 :: y2 :: y3 :: y4 :: c1 :: m1 :: m2 :: c2 :: d1 :: d2 :: c3
    :: h1 :: h2 :: c4 :: n1 :: n2 :: c5 :: s1 :: s2 :: z =>
      match digits4 y1 y2 y3 y4, digits2 m1 m2, digits2 d1 d2,
            digits2 h1 h2, digits2 n1 n2, digits2 s1 s2, zone z with
      | Some y, Some m, Some d, Some h, Some n, Some s, Some off =>
          if Ascii.eqb c1 "-" && Ascii.eqb c2 "-" && Ascii.eqb c3 "T"
             && Ascii.eqb c4 ":" && Ascii.eqb c5 ":"
             && valid_date y m d && (h <? 24) && (n <? 60) && (s <? 60)
          then Some (day_number y m d * 86400 + h * 3600 + n * 60 + s
                     - off * 60, off)
          else None
      | _, _, _, _, _, _, _ => None
      end
  | _ => None
  end.

End ISO8601.

(** [f] holds of the [n] integers from [lo] on. *)
Definition range_all (f : Z -> bool) (lo : Z) (n : positive) : bool :=
  snd (Pos.iter (fun st => (fst st + 1, snd st && f (fst st))) (lo, true) n).

(** [Date.civil] of day [z] is a date of the calendar whose day number is
    [z], in a year of four digits. *)
Definition check_day (z : Z) : bool :=
  let '(y, m, d) := Date.civil z in
  (ISO8601.day_number y m d =? z) && ISO8601.valid_date y m d
  && (1969 <=? y) && (y <=? 2242).

(** The decimal rendering of [y] reads back as [y]. *)
Definition check_year (y : Z) : bool :=
  match dec y with
  | String a (String b (String c (String d EmptyString))) =>
      match ISO8601.digits4 a b c d with
      | Some y' => y' =? y
      | None => false
      end
  | _ => false
  end.

(** ** The methods of [EnvsensorDevice] *)

(** What [EnvsensorChars.createWriteBuffer] hands back: nothing, an object
    with an [error], or an object with the [buffer] to send. *)
Inductive write_buffer : Type :=
| NoWriteBuffer
| WriteError (e : error)
| WriteBuffer (buf : buffer).

(** The object [getRecordedDataList] resolves with. *)
Record recorded : Type := {
  page : value;
  measurementInterval : value;
  dataList : list value
}.

(** A promise whose body loops: [None] when the loop was cut short. *)
Definition looping (A : Type) : Type := device -> option (outcome A * device).

(** ** A stand-in codec and scripted peripherals for the examples *)

Module EnvsensorChars.

Definition u8 (b : Byte.byte) : Z := Z.of_N (Byte.to_N b).
Definition u16le (b0 b1 : Byte.byte) : Z := Z.lor (u8 b0) (Z.shiftl (u8 b1) 8).
Definition u32le (b0 b1 b2 b3 : Byte.byte) : Z :=
  Z.lor (u16le b0 b1) (Z.shiftl (u16le b2 b3) 16).
Definition s8 (b : Byte.byte) : Z :=
  if 127 <? u8 b then u8 b - 256 else u8 b.

Definition byte_of (z : Z) : Byte.byte :=
  default Byte.x00 (Byte.of_N (Z.to_N (Z.land z 255))).

(** Modelled from the spec: the codec module (envsensor-chars.js) is not
    among the sources.  This decoder covers the attributes the request layer
    itself reads, with unsigned little-endian integer fields (unix time on 32
    bits, measurement interval and page on 16 bits, row and flags on one
    byte); the sensor readings of a row, which are scaled to fractions, are
    left out.  A buffer of the wrong length decodes to [null]. *)
Definition parseResponse (char_uuid : string) (buf : buffer) : value :=
  if String.eqb char_uuid "3002" then
    match buf with
    | [t0; t1; t2; t3; i0; i1; p0; p1; r] =>
        VObj [("unixTime", VNum (u32le t0 t1 t2 t3));
              ("measurementInterval", VNum (u16le i0 i1));
              ("page", VNum (u16le p0 p1));
              ("row", VNum (u8 r))]
    | _ => VNull
    end
  else if String.eqb char_uuid "3003" then
    match buf with
    | [p0; p1; r] => VObj [("page", VNum (u16le p0 p1)); ("row", VNum (u8 r))]
    | _ => VNull
    end
  else if String.eqb char_uuid "3004" then
    match buf with
    | [f; t0; t1; t2; t3] =>
        VObj [("updateFlag", VNum (u8 f));
              ("unixTime", VNum (u32le t0 t1 t2 t3))]
    | _ => VNull
    end
  else if String.eqb char_uuid "3005" then
    match buf with
    | r :: rest =>
        if (length rest =? 18)%nat then VObj [("row", VNum (u8 r))] else VNull
    | [] => VNull
    end
  else if String.eqb char_uuid "3011" then
    match buf with
    | [i0; i1] => VObj [("measurementInterval", VNum (u16le i0 i1))]
    | _ => VNull
    end
  else if String.eqb char_uuid "3031" then
    match buf with
    | [t0; t1; t2; t3] => VObj [("unixTime", VNum (u32le t0 t1 t2 t3))]
    | _ => VNull
    end
  else if String.eqb char_uuid "3042" then
    match buf with
    | [a0; a1; n0; n1; t0; t1; s0; s1; m; x] =>
        VObj [("indInterval", VNum (u16le a0 a1));
              ("nonconIndInterval", VNum (u16le n0 n1));
              ("transmissionPeriod", VNum (u16le t0 t1));
              ("silentPeriod", VNum (u16le s0 s1));
              ("beaconMode", VNum (u8 m));
              ("txPowerLevel", VNum (s8 x))]
    | _ => VNull
    end
  else VNull.

(** Modelled from the spec: the encoder of the same absent module, for the
    request page (page 0 to 2047, row 0 to 12) and the measurement interval
    (1 to 3600 seconds); a value outside its range is refused with an error
    naming the field, and the other attributes have no write buffer. *)
Definition createWriteBuffer (char_uuid : string) (data : value)
  : write_buffer :=
  if String.eqb char_uuid "3003" then
    match get_prop data "page", get_prop data "row" with
    | VNum pg, VNum rw =>
        if (pg <? 0) || (2047 <? pg) then
          WriteError (Error "The `page` must be an integer in the range of 0 to 2047.")
        else if (rw <? 0) || (12 <? rw) then
          WriteError (Error "The `row` must be an integer in the range of 0 to 12.")
        else WriteBuffer [byte_of pg; byte_of (Z.shiftr pg 8); byte_of rw]
    | VNum _, _ =>
        WriteError (Error "The `row` must be an integer in the range of 0 to 12.")
    | _, _ =>
        WriteError (Error "The `page` must be an integer in the range of 0 to 2047.")
    end
  else if String.eqb char_uuid "3011" then
    match get_prop data "measurementInterval" with
    | VNum i =>
        if (i <? 1) || (3600 <? i) then
          WriteError (Error "The `measurementInterval` must be an integer in the range of 1 to 3600.")
        else WriteBuffer [byte_of i; byte_of (Z.shiftr i 8)]
    | _ =>
        WriteError (Error "The `measurementInterval` must be an integer in the range of 1 to 3600.")
    end
  else NoWriteBuffer.

End EnvsensorChars.

Module Demo.

Definition long_uuid (seg : string) : string :=
  "0c4c" +:+ seg +:+ "770046f4aa96d5e974e32a54".

Definition stub (seg : string) (reads : list (reply buffer))
    (writes : list (reply unit)) : characteristic :=
  {| uuid := long_uuid seg; name := None;
     read_stub := reads; write_stub := writes |}.

Definition bytes (l : list Z) : buffer := map EnvsensorChars.byte_of l.

Definition le16 (z : Z) : list Z := [Z.land z 255; Z.shiftr z 8].
Definition le32 (z : Z) : list Z :=
  le16 (Z.land z 65535) ++ le16 (Z.shiftr z 16).

(** A host nine hours east of Greenwich, and one on UTC. *)
Definition tokyo (t : Z) : Z := -540.
Definition utc (t : Z) : Z := 0.

(** 2018-06-02T00:00:00Z *)
Definition anchor : Z := 1527897600.

Definition adv_setting (mode : Z) : buffer :=
  bytes (le16 1285 ++ le16 100 ++ le16 10 ++ le16 50 ++ [mode; 0]).
Definition time_information (t : Z) : buffer := bytes (le32 t).
Definition latest_page (t interval pg rw : Z) : buffer :=
  bytes (le32 t ++ le16 interval ++ le16 pg ++ [rw]).
Definition request_page (pg rw : Z) : buffer := bytes (le16 pg ++ [rw]).
Definition response_flag (flag t : Z) : buffer := bytes (flag :: le32 t).
Definition response_data (rw : Z) : buffer :=
  bytes (rw :: repeat 0 18).

(** Rows 12, 11, ..., 0 of a full page, then the row index 13. *)
Definition full_page : list (reply buffer) :=
  map (fun rw => Answer (response_data rw))
      [12; 11; 10; 9; 8; 7; 6; 5; 4; 3; 2; 1; 0; 13].

(** A recording sensor (beacon mode 8) whose latest page is page 5, row 4,
    measuring every 300 seconds. *)
Definition recorder (rows : list (reply buffer)) : device :=
  connected []
    [ stub "3042" [Answer (adv_setting 8)] [];
      stub "3031" [Answer (time_information (anchor + 3900))] [];
      stub "3002" [Answer (latest_page anchor 300 5 4);
                   Answer (latest_page anchor 300 5 4)] [];
      stub "3003" [Answer (request_page 0 0)] [Answer tt];
      stub "3004" [Answer (response_flag 1 anchor)] [];
      stub "3005" rows [] ].

(** The same sensor with recording switched off (beacon mode 2). *)
Definition idle_sensor : device :=
  connected []
    [ stub "3042" [Answer (adv_setting 2)] [];
      stub "3031" [Answer (time_information 0)] [];
      stub "3002" [Answer (latest_page 0 300 0 0)] [];
      stub "3003" [Answer (request_page 0 0)] [Answer tt];
      stub "3004" [Answer (response_flag 1 0)] [];
      stub "3005" full_page [] ].

(** A sensor whose measurement interval reads 300 seconds, with the given
    scripts for the reads and writes of that attribute. *)
Definition interval_sensor (reads : list (reply buffer))
    (writes : list (reply unit)) : device :=
  connected [] [ stub "3011" reads writes ].

Definition interval_300 : buffer := bytes (le16 300).

End Demo.

(** ** The scanner object (lib/envsensor.js) *)

Module Scan.

(** A peripheral as noble reports it in a [discover] event. *)
Record peripheral : Type := {
  pid : string;
  address : string;
  advertisement : buffer
}.

Inductive noble_call : Type :=
| StartScanning (allow_duplicates : bool)
| StopScanning.

(** The state of an [Envsensor]: its flags, the devices of the running
    discovery by address, whether an [ondiscover] function is set, the calls
    made to noble (oldest first) and the devices handed to [ondiscover]
    (oldest first). *)
Record envsensor : Type := {
  _initialized : bool;
  _discover_status : bool;
  _devices : list (string * peripheral);
  ondiscover : bool;
  noble_calls : list noble_call;
  reported : list peripheral
}.

(** [new Envsensor(params)], with [ondiscover] then set to a function or
    left [null]. *)
Definition Envsensor (ondiscover : bool) : envsensor :=
  {| _initialized := false; _discover_status := false; _devices := [];
     ondiscover := ondiscover; noble_calls := []; reported := [] |}.

Definition _DISCOVER_WAIT_MAX_MSEC : Z := 60000.

Fixpoint device_at (addr : string) (l : list (string * peripheral))
  : option peripheral :=
  match l with
  | [] => None
  | (a, p) :: l' => if String.eqb addr a then Some p else device_at addr l'
  end.

(** [this._devices[addr]] is truthy: a device is filed under the address,
    or the address names a member of [Object.prototype]. *)
Definition filed_at (addr : string) (l : list (string * peripheral)) : bool :=
  match device_at addr l with
  | Some _ => true
  | None => inherited addr
  end.

(** The array index a property name denotes, if it is one: the decimal form
    of an integer from 0 to 2^32 - 2. *)
Definition array_index (k : string) : option Z :=
  match DecimalString.NilZero.uint_of_string k with
  | Some u =>
      let n := Z.of_uint u in
      if String.eqb (dec n) k && (n <? 4294967295) then Some n else None
  | None => None
  end.

(** [this._devices[addr] = device] for an address the table does not hold.
    The table is kept in the order [for (let id in this._devices)] walks it:
    the array indices first, ascending, then the other names in the order
    they were filed. *)
Fixpoint file_device (addr : string) (p : peripheral)
    (l : list (string * peripheral)) : list (string * peripheral) :=
  match l with
  | [] => [(addr, p)]
  | (a, q) :: l' =>
      match array_index addr, array_index a with
      | Some n, Some m =>
          if n <? m then (addr, p) :: l else (a, q) :: file_device addr p l'
      | Some _, None => (addr, p) :: l
      | None, _ => (a, q) :: file_device addr p l'
      end
  end.

(** The table holds each address once, and each device under its own. *)
Definition keyed (l : list (string * peripheral)) : Prop :=
  NoDup (map fst l) /\ Forall (fun aq => fst aq = address (snd aq)) l.

(** [init()], with the state noble is in and the state its next
    [stateChange] event reports, if one comes.  [None] is a promise that
    stays pending. *)
Definition init (state : string) (change : option string) (e : envsensor)
  : option (outcome unit) * envsensor :=
  let off := {| _initialized := false;
                _discover_status := _discover_status e;
                _devices := _devices e; ondiscover := ondiscover e;
                noble_calls := noble_calls e; reported := reported e |} in
  let on := {| _initialized := true;
               _discover_status := _discover_status e;
               _devices := _devices e; ondiscover := ondiscover e;
               noble_calls := noble_calls e; reported := reported e |} in
  if String.eqb state "poweredOn" then (Some (Resolved tt), on)
  else
    match change with
    | None => (None, off)
    | Some state' =>
        if String.eqb state' "poweredOn" then (Some (Resolved tt), on)
        else (Some (Rejected
                      (Error ("Failed to initialize the Noble object: "
                              +:+ state'))), off)
    end.

(** [_checkInitialized()]: the error it throws, if any. *)
Definition _checkInitialized (e : envsensor) : option error :=
  if negb (_initialized e)
  then Some (Error "The `init()` method has not been called yet.")
  else if _discover_status e
  then Some (Error
         "The `discover()` or the `startScan()` method is in progress.")
  else None.

(** The options [discover(p)] works with: [duration], [id_filter] and
    [quick]. *)
Definition discover_options (p : value) : value * value * value :=
  match p with
  | VObj fields =>
      (match assoc "duration" fields with
       | Some (VNum n) =>
           VNum (if n <? 1000 then 1000
                 else if _DISCOVER_WAIT_MAX_MSEC <? n
                      then _DISCOVER_WAIT_MAX_MSEC else n)
       | Some VNaN => VNaN
       | _ => VNum 5000
       end,
       default (VStr "") (assoc "idFilter" fields),
       default (VBool false) (assoc "quick" fields))
  | _ => (VNum 5000, VStr "", VBool false)
  end.

(** The delay [setTimeout(f, duration)] arms its timer with: a [duration]
    that is [NaN] is taken as one millisecond. *)
Definition timer_delay (duration : value) : Z :=
  match duration with
  | VNum n => n
  | _ => 1
  end.

(** The [discover] events that come before the timer of [discover(p)] runs
    out, of the events noble emits after the call: each with the time of
    its arrival, in milliseconds since the call. *)
Definition heard (p : value) (arrivals : list (Z * peripheral))
  : list peripheral :=
  let '(duration, _, _) := discover_options p in
  map snd (List.filter (fun a => fst a <? timer_delay duration) arrivals).

(** [id_filter && peripheral.id.indexOf(id_filter) !== 0] *)
Definition filtered_out (id_filter : value) (p : peripheral) : bool :=
  truthy id_filter && negb (String.prefix (to_string id_filter) (pid p)).

Section Scanner.

(** [EnvsensorAdvertising.parse] (envsensor-advertising.js). *)
Variable parse : peripheral -> value.

Definition _discoveredDevice (p : peripheral) (id_filter : value)
    (e : envsensor) : option peripheral * envsensor :=
  if truthy (parse p) then
    if filtered_out id_filter p then (None, e)
    else if filed_at (address p) (_devices e) then (None, e)
    else
      (Some p,
       {| _initialized := _initialized e;
          _discover_status := _discover_status e;
          _devices := file_device (address p) p (_devices e);
          ondiscover := ondiscover e;
          noble_calls := noble_calls e;
          reported := if ondiscover e then reported e ++ [p]
                      else reported e |})
  else (None, e).

(** A peripheral the listener files when the table does not hold its
    address: it parses as a sensor, passes the filter, and its address is no
    name [this._devices] inherits. *)
Definition accepts (id_filter : value) (p : peripheral) : bool :=
  truthy (parse p) && negb (filtered_out id_filter p)
  && negb (inherited (address p)).

Definition stopScan (e : envsensor) : envsensor :=
  if _discover_status e then
    {| _initialized := _initialized e; _discover_status := false;
       _devices := _devices e; ondiscover := ondiscover e;
       noble_calls := noble_calls e ++ [StopScanning];
       reported := reported e |}
  else e.

(** The [discover] listener of [discover(p)] at work on the events that
    come before the timer runs out; in quick mode the first device found
    ends the discovery and the later events find no listener. *)
Fixpoint discovering (id_filter quick : value) (events : list peripheral)
    (e : envsensor) : envsensor :=
  match events with
  | [] => e
  | p :: rest =>
      match _discoveredDevice p id_filter e with
      | (Some _, e1) =>
          if truthy quick then e1 else discovering id_filter quick rest e1
      | (None, e1) => discovering id_filter quick rest e1
      end
  end.

(** [discover(p)]: [inl] is the error thrown at the call, [inr] the list the
    promise resolves with and the state it leaves. *)
Definition discover (p : value) (events : list peripheral) (e : envsensor)
  : error + list peripheral * envsensor :=
  match _checkInitialized e with
  | Some err => inl err
  | None =>
      let '(_, id_filter, quick) := discover_options p in
      let e1 := {| _initialized := _initialized e;
                   _discover_status := true;
                   _devices := [];
                   ondiscover := ondiscover e;
                   noble_calls := noble_calls e ++ [StartScanning false];
                   reported := reported e |} in
      let e2 := stopScan (discovering id_filter quick events e1) in
      inr (map snd (_devices e2), e2)
  end.

(** [discover(p)] with the events noble emits after the call, each at its
    time of arrival: the timer armed with the duration ends the discovery,
    and the events that arrive later find no listener. *)
Definition discover_timed (p : value) (arrivals : list (Z * peripheral))
    (e : envsensor) : error + list peripheral * envsensor :=
  discover p (heard p arrivals) e.

(** [startScan(p)] *)
Definition startScan (p : value) (e : envsensor) : error + envsensor :=
  match _checkInitialized e with
  | Some err => inl err
  | None =>
      inr {| _initialized := _initialized e;
             _discover_status := true;
             _devices := _devices e;
             ondiscover := ondiscover e;
             noble_calls := noble_calls e ++ [StartScanning true];
             reported := reported e |}
  end.

(** The [discover] listener of [startScan(p)]: what it hands to
    [onadvertisement], if anything. *)
Definition advertised (p : value) (per : peripheral) : option value :=
  let id_filter :=
    match p with
    | VObj fields => default (VStr "") (assoc "idFilter" fields)
    | _ => VStr ""
    end in
  if truthy (parse per) then
    if filtered_out id_filter per then None else Some (parse per)
  else None.

End Scanner.

End Scan.

(** ** Notifications *)

Module Monitor.

(** A call of [subscribe] or [unsubscribe] on a characteristic. *)
Inductive call : Type :=
| Subscribe (char_uuid : string)
| Unsubscribe (char_uuid : string).

(** The monitoring side of an [EnvsensorDevice]: whether [onsensordata] and
    [oneventflag] hold functions, the ['data'] listeners on the latest data
    (3001) and on the event flag (3006), the calls made to the transport
    and what each of the two functions was handed (oldest first).  The
    listeners are those on the characteristics of one table, and the
    functions themselves leave the device alone. *)
Record monitor : Type := {
  onsensordata : bool;
  oneventflag : bool;
  data_listeners : nat;
  flag_listeners : nat;
  calls : list call;
  sensordata : list value;
  eventflags : list value
}.

Definition called (c : call) (m : monitor) : monitor :=
  {| onsensordata := onsensordata m; oneventflag := oneventflag m;
     data_listeners := data_listeners m; flag_listeners := flag_listeners m;
     calls := calls m ++ [c];
     sensordata := sensordata m; eventflags := eventflags m |}.

Definition set_data_listeners (n : nat) (m : monitor) : monitor :=
  {| onsensordata := onsensordata m; oneventflag := oneventflag m;
     data_listeners := n; flag_listeners := flag_listeners m;
     calls := calls m;
     sensordata := sensordata m; eventflags := eventflags m |}.

Definition set_flag_listeners (n : nat) (m : monitor) : monitor :=
  {| onsensordata := onsensordata m; oneventflag := oneventflag m;
     data_listeners := data_listeners m; flag_listeners := n;
     calls := calls m;
     sensordata := sensordata m; eventflags := eventflags m |}.

(** [new Error('The characteristic UUID `' + char_uuid + '` is not supported.')] *)
Definition unsupported (char_uuid : string) : error :=
  Error ("The characteristic UUID `" +:+ char_uuid +:+ "` is not supported.").

(** A device on which nothing is monitored. *)
Definition quiet (onsensordata oneventflag : bool) : monitor :=
  {| onsensordata := onsensordata; oneventflag := oneventflag;
     data_listeners := 0; flag_listeners := 0; calls := [];
     sensordata := []; eventflags := [] |}.

End Monitor.

(** ** A sensor that takes writes of its clock and of its ADV setting *)

Module Bench.

Import EnvsensorChars Demo.

Definition ascii_of_byte (b : Byte.byte) : ascii := ascii_of_N (Byte.to_N b).

Definition text (buf : buffer) : string :=
  string_of_list_ascii (map ascii_of_byte buf).

(** Modelled from the spec: the decoder of the absent codec module, with
    the attributes of the device information and the uuid read as one text
    field each and the latest data as a row of response data; the other
    attributes as in [EnvsensorChars.parseResponse]. *)
Definition parseResponse (char_uuid : string) (buf : buffer) : value :=
  if String.eqb char_uuid "3001"
  then EnvsensorChars.parseResponse "3005" buf
  else if String.eqb char_uuid "2a00"
  then VObj [("deviceName", VStr (text buf))]
  else if String.eqb char_uuid "2a24" then VObj [("modelNumber", VStr (text buf))]
  else if String.eqb char_uuid "2a25" then VObj [("serialNumber", VStr (text buf))]
  else if String.eqb char_uuid "2a26"
  then VObj [("firmwareRevision", VStr (text buf))]
  else if String.eqb char_uuid "2a27"
  then VObj [("hardwareRevision", VStr (text buf))]
  else if String.eqb char_uuid "2a29"
  then VObj [("manufacturerName", VStr (text buf))]
  else if String.eqb char_uuid "3041" then VObj [("uuid", VStr (text buf))]
  else EnvsensorChars.parseResponse char_uuid buf.

Definition is_beacon_mode (m : Z) : bool :=
  (0 <=? m) && (m <=? 8) && negb (m =? 6).

(** Modelled from the spec: the encoder of the absent codec module, with
    the time information (a unix time on 32 bits) and the ADV setting (six
    integer fields, the beacon mode one of 0, 1, 2, 3, 4, 5, 7 and 8) besides
    the attributes of [EnvsensorChars.createWriteBuffer]; a value outside
    its range is refused with an error naming the field. *)
Definition createWriteBuffer (char_uuid : string) (data : value)
  : write_buffer :=
  if String.eqb char_uuid "3031" then
    match get_prop data "unixTime" with
    | VNum t =>
        if (t <? 0) || (4294967295 <? t)
        then WriteError (Error "The `unixTime` must be an integer in the range of 0 to 4294967295.")
        else WriteBuffer (bytes (le32 t))
    | _ => WriteError (Error "The `unixTime` must be an integer in the range of 0 to 4294967295.")
    end
  else if String.eqb char_uuid "3042" then
    match get_prop data "indInterval", get_prop data "nonconIndInterval",
          get_prop data "transmissionPeriod", get_prop data "silentPeriod",
          get_prop data "beaconMode", get_prop data "txPowerLevel" with
    | VNum a, VNum n, VNum t, VNum s, VNum m, VNum x =>
        if is_beacon_mode m
        then WriteBuffer (bytes (le16 a ++ le16 n ++ le16 t ++ le16 s ++ [m; x]))
        else WriteError (Error "The `beaconMode` must be 0, 1, 2, 3, 4, 5, 7, or 8.")
    | _, _, _, _, _, _ =>
        WriteError (Error "The ADV setting must hold six integers.")
    end
  else EnvsensorChars.createWriteBuffer char_uuid data.

(** A sensor in beacon mode [mode] whose clock reads [time]; the ADV
    setting answers [reads] reads and [writes] writes, the clock one read
    and the writes [clock_writes]. *)
Definition sensor (mode time : Z) (reads : nat) (writes : list (reply unit))
    (clock_writes : list (reply unit)) : device :=
  connected []
    [ stub "3042" (repeat (Answer (adv_setting mode)) reads) writes;
      stub "3031" [Answer (time_information time)] clock_writes;
      stub "3002" [Answer (latest_page anchor 300 5 4)] [] ].

(** A sensor recording in beacon mode 7, and one at rest in beacon mode 2
    with its clock at 0. *)
Definition recording : device :=
  sensor 7 (anchor + 60) 3 [Answer tt; Answer tt] [Answer tt].
Definition idle : device :=
  sensor 2 0 3 [Answer tt; Answer tt] [Answer tt].

(** What the recording status of either resolves with. *)
Definition status (mode : Z) (isRecording : bool) : value :=
  VObj [("beaconMode", VNum mode); ("isRecording", VBool isRecording);
        ("page", VNum 5); ("row", VNum 4);
        ("measurementInterval", VNum 300); ("unixTime", VNum anchor)].


(** The host clock: one second and a half after [anchor], plus the time
    spent in timers. *)
Definition host_clock (d : device) : Z := anchor * 1000 + 1500 + clock d.

Definition ascii_bytes (s : string) : buffer :=
  map (fun c => default Byte.x00 (Byte.of_N (N_of_ascii c)))
      (list_ascii_of_string s).

(** A sensor that answers every read of its device information once. *)
Definition labelled : device :=
  connected []
    [ {| uuid := "2a00"; name := None;
         read_stub := [Answer (ascii_bytes "Env")]; write_stub := [] |};
      {| uuid := "2a24"; name := None;
         read_stub := [Stall; Answer (ascii_bytes "2JCIE-BL01")];
         write_stub := [] |};
      {| uuid := "2a25"; name := None;
         read_stub := [Answer (ascii_bytes "0000")]; write_stub := [] |};
      {| uuid := "2a26"; name := None;
         read_stub := [Answer (ascii_bytes "01.09")]; write_stub := [] |};
      {| uuid := "2a27"; name := None;
         read_stub := [Answer (ascii_bytes "01.01")]; write_stub := [] |};
      {| uuid := "2a29"; name := None;
         read_stub := [Answer (ascii_bytes "OMRON")]; write_stub := [] |} ].

(** A sensor that answers one read of each of its basic settings. *)
Definition configured : device :=
  connected []
    [ stub "3011" [Answer interval_300] [];
      stub "3042" [Answer (adv_setting 8)] [];
      {| uuid := "3041"; name := None;
         read_stub := [Answer (ascii_bytes "id")]; write_stub := [] |} ].

(** Peripherals in reach of a scan. *)
Definition env1 : Scan.peripheral :=
  {| Scan.pid := "c1a2b3"; Scan.address := "c1:a2:b3:00:00:01";
     Scan.advertisement := bytes [213; 2] |}.
Definition env2 : Scan.peripheral :=
  {| Scan.pid := "d4e5f6"; Scan.address := "d4:e5:f6:00:00:02";
     Scan.advertisement := bytes [213; 2] |}.
(** [env1] seen again, under another id. *)
Definition env1_again : Scan.peripheral :=
  {| Scan.pid := "c1ffff"; Scan.address := "c1:a2:b3:00:00:01";
     Scan.advertisement := bytes [213; 2] |}.
Definition other : Scan.peripheral :=
  {| Scan.pid := "c1beef"; Scan.address := "c1:be:ef:00:00:03";
     Scan.advertisement := bytes [76; 0] |}.

(** Modelled from the spec: the parser of the absent advertising module
    (envsensor-advertising.js), which knows a sensor by the company
    identifier 0x02D5 at the head of its manufacturer data and returns
    [null] for any other peripheral. *)
Definition parse (p : Scan.peripheral) : value :=
  match Scan.advertisement p with
  | [Byte.xd5; Byte.x02] => VObj [("id", VStr (Scan.pid p))]
  | _ => VNull
  end.

(** An [Envsensor] after [init()] on a powered adapter. *)
Definition ready (ondiscover : bool) : Scan.envsensor :=
  snd (Scan.init "poweredOn" None (Scan.Envsensor ondiscover)).

(** The same after [startScan()]. *)
Definition scanning : Scan.envsensor :=
  {| Scan._initialized := true; Scan._discover_status := true;
     Scan._devices := []; Scan.ondiscover := false;
     Scan.noble_calls := [Scan.StartScanning true]; Scan.reported := [] |}.

End Bench.

Section Device.

(** The codec module [EnvsensorChars] (envsensor-chars.js) and the time zone
    of the host are what the device object is linked against. *)
Variable parseResponse : string -> buffer -> value.
Variable createWriteBuffer : string -> value -> write_buffer.
(** [getTimezoneOffset()] of the [Date] with the given time value. *)
Variable getTimezoneOffset : Z -> Z.

(** The first lines of [_read] and [_write]: the table key of an
    identifier, when it is a string or a number. *)
Definition normalize (char_uuid : value) : option string :=
  match char_uuid with
  | VStr s => Some (toLocaleLowerCase s)
  | VNum n => Some (hex n)
  | VNaN => Some "NaN"
  | _ => None
  end.

(** [readData(callback)] of [_read].  The source counts the attempts made in
    [n]; [retries] is [_REQUEST_RETRY_MAX - n] after [n++], so that
    [n < _REQUEST_RETRY_MAX] reads [retries = S _]. *)
Fixpoint readData (retries : nat) (char_uuid : string) (d : device)
  : outcome value * device :=
  let (r, d1) := char_read char_uuid d in
  match r with
  | Stall =>
      let d2 := elapse _RESPONSE_TIMEOUT_MSEC d1 in
      match retries with
      | S m => readData m char_uuid d2
      | O => (Rejected (Error "Timeout."), d2)
      end
  | Fail e => (Rejected e, d1)
  | Answer buf =>
      let parsed := parseResponse char_uuid buf in
      if truthy parsed then (Resolved parsed, d1)
      else (Rejected (Error "Unknown Response Data"), d1)
  end.

(** [_read(char_uuid)].  [this._chars[char_uuid]] is the entry filed under
    the key; for a key without an entry that names a member of
    [Object.prototype] it is that member, which passes [if (!char)] and has
    no [read]: [readData] then throws in the executor of the promise, which
    is rejected with the [TypeError] before any transport call.  The timer
    that attempt armed stays armed; the promise is settled by then, and what
    the timer does when it runs out is not followed here. *)
Definition _read (char_uuid : value) : promise value :=
  fun d =>
    match normalize char_uuid with
    | None => (Rejected (Error "Unknown characteristic"), d)
    | Some k =>
        match _chars d !! k with
        | None =>
            if inherited k then (Rejected TypeError, d)
            else (Rejected (Error "Unknown characteristic"), d)
        | Some _ => readData (_REQUEST_RETRY_MAX - 1) k d
        end
    end.

(** [writeData(callback)] of [_write], with [retries] as in [readData]. *)
Fixpoint writeData (retries : nat) (char_uuid : string) (buf : buffer)
    (without_response : bool) (d : device) : outcome unit * device :=
  let (r, d1) := char_write char_uuid buf without_response d in
  match r with
  | Stall =>
      let d2 := elapse _RESPONSE_TIMEOUT_MSEC d1 in
      match retries with
      | S m => writeData m char_uuid buf without_response d2
      | O => (Rejected (Error "Timeout."), d2)
      end
  | Fail e => (Rejected e, d1)
  | Answer _ => (Resolved tt, d1)
  end.

(** [_write(char_uuid, data, without_response)].  A key without an entry
    that names a member of [Object.prototype] passes [if (!char)] as in
    [_read]: the codec is asked for the buffer, and [writeData] throws at
    [char.write], which the member does not have. *)
Definition _write (char_uuid : value) (data : value)
    (without_response : bool) : promise unit :=
  fun d =>
    match normalize char_uuid with
    | None => (Rejected (Error "Unknown characteristic"), d)
    | Some k =>
        match _chars d !! k with
        | None =>
            if inherited k then
              match createWriteBuffer k data with
              | WriteError e => (Rejected e, d)
              | WriteBuffer _ => (Rejected TypeError, d)
              | NoWriteBuffer =>
                  (Rejected
                     (Error "The characteristic does not support `Write`."),
                   d)
              end
            else (Rejected (Error "Unknown characteristic"), d)
        | Some _ =>
            match createWriteBuffer k data with
            | WriteError e => (Rejected e, d)
            | WriteBuffer buf =>
                writeData (_REQUEST_RETRY_MAX - 1) k buf without_response d
            | NoWriteBuffer =>
                (Rejected
                   (Error "The characteristic does not support `Write`."), d)
            end
        end
    end.

Definition _readValue (char_uuid : value) : promise value := _read char_uuid.

(** [overrideObject(base, obj)] of [_setValue], threading [override_num].
    [None] is a [TypeError] thrown on the way.  For each key [k] of [base],
    [lookup] walks the own properties of [obj]: it decides [k in obj] and
    finds [v = obj[k]], which the nested call receives.  This is the [in] of
    the source for every key that is not [inherited]; a key of [base] that
    names a member of [Object.prototype] is in every object, with a value
    that is no value of the request layer, and for such keys the merge is
    not followed here: what is proved of names the request does not have
    is proved of keys that are not [inherited]. *)
Fixpoint overrideObject (obj : value) (base : value) (override_num : nat)
    {struct obj} : option (value * nat) :=
  match own_keys base with
  | None => None
  | Some keys =>
      fold_left
        (fun acc k =>
           match acc with
           | None => None
           | Some (base, override_num) =>
               match obj with
               | VObj fields =>
                   (fix lookup (l : list (string * value)) :=
                      match l with
                      | [] => Some (base, override_num)
                      | (k', v) :: l' =>
                          if String.eqb k k' then
                            if typeof_object v then
                              match overrideObject v (get_prop base k)
                                      override_num with
                              | None => None
                              | Some (sub, n) =>
                                  match base with
                                  | VObj bf => Some (VObj (assoc_set k sub bf), n)
                                  | _ => Some (base, n)
                                  end
                              end
                            else
                              match set_prop base k v with
                              | None => None
                              | Some base' => Some (base', S override_num)
                              end
                          else lookup l'
                      end) fields
               | _ => None
               end
           end)
        keys (Some (base, override_num))
  end.

(** The body of the [forEach] of [overrideObject], for one key of [base]
    that is not [inherited]. *)
Definition override_key (obj : value) (acc : option (value * nat))
    (k : string) : option (value * nat) :=
  match acc with
  | None => None
  | Some (base, override_num) =>
      match obj with
      | VObj fields =>
          match assoc k fields with
          | None => Some (base, override_num)
          | Some v =>
              if typeof_object v then
                match overrideObject v (get_prop base k) override_num with
                | None => None
                | Some (sub, n) =>
                    match base with
                    | VObj bf => Some (VObj (assoc_set k sub bf), n)
                    | _ => Some (base, n)
                    end
                end
              else
                match set_prop base k v with
                | None => None
                | Some base' => Some (base', S override_num)
                end
          end
      | _ => None
      end
  end.

Definition _setValue (char_uuid : value) (params : value) : promise unit :=
  if negb (truthy params) || negb (typeof_object params)
     || (length (default [] (own_keys params)) =? 0)%nat
  then reject (Error "No parameter was specified.")
  else
    let* res := _read char_uuid in
    match overrideObject params res 0 with
    | None => reject TypeError
    | Some (p, override_num) =>
        if (override_num =? 0)%nat
        then reject (Error "No parameter was specified.")
        else _write char_uuid p false
    end.

Definition getLatestPage : promise value := _readValue (VStr "3002").
Definition getRequestPage : promise value := _readValue (VStr "3003").
Definition setRequestPage (params : value) : promise unit :=
  _setValue (VStr "3003") params.
Definition getResponseFlag : promise value := _readValue (VStr "3004").
Definition getResponseData : promise value := _readValue (VStr "3005").
Definition getMeasurementInterval : promise value := _readValue (VStr "3011").
Definition setMeasurementInterval (params : value) : promise unit :=
  _setValue (VStr "3011") params.
Definition getTime : promise value := _readValue (VStr "3031").
Definition getAdvSetting : promise value := _readValue (VStr "3042").
Definition setAdvSetting (params : value) : promise unit :=
  _setValue (VStr "3042") params.

(** [/^(0|1|7|8)$/.test(mode.toString())]; [None] is the [TypeError] of
    calling [toString] on [undefined] or [null]. *)
Definition is_recording_mode (mode : value) : option bool :=
  match mode with
  | VUndefined | VNull => None
  | _ => let s := to_string mode in
         Some (String.eqb s "0" || String.eqb s "1"
               || String.eqb s "7" || String.eqb s "8")
  end.

Definition getRecordingStatus : promise value :=
  let* adv := getAdvSetting in
  let mode := get_prop adv "beaconMode" in
  let* tm := getTime in
  match (if gt (get_prop tm "unixTime") 0 then is_recording_mode mode
         else Some false) with
  | None => reject TypeError
  | Some isRecording =>
      let* res := getLatestPage in
      resolve (VObj [
        ("beaconMode", mode);
        ("isRecording", VBool isRecording);
        ("page", get_prop res "page");
        ("row", get_prop res "row");
        ("measurementInterval", get_prop res "measurementInterval");
        ("unixTime", get_prop res "unixTime")])
  end.

(** [_getTargetPageAndRow(p)] with [p] either [null] or [{ page: page }]. *)
Definition _getTargetPageAndRow (p : option Z) : promise value :=
  let* res := getLatestPage in
  let interval := get_prop res "measurementInterval" in
  match p with
  | Some page =>
      let row := if strict_eq_num (get_prop res "page") page
                 then get_prop res "row" else VNum 12 in
      resolve (VObj [("page", VNum page); ("row", row); ("interval", interval)])
  | None =>
      resolve (VObj [("page", get_prop res "page");
                     ("row", get_prop res "row");
                     ("interval", interval)])
  end.

Definition pad2 (n : Z) : string := slice_last2 ("0" +:+ dec n).

(** The two characters of [pad2 n] read back as [n]. *)
Definition check_pad2 (n : Z) : bool :=
  match pad2 n with
  | String a (String b EmptyString) =>
      match ISO8601.digits2 a b with
      | Some n' => n' =? n
      | None => false
      end
  | _ => false
  end.

(** The stamp of an invalid [Date]: every getter gives [NaN]. *)
Definition invalid_time_stamp : string := "NaN-aN-aNTaN:aN:aN+aN:aN".

Definition _getTimeStampFromUnixTime (unix_time : value) : string :=
  match to_number unix_time with
  | Some u =>
      let t := u * 1000 in
      if Z.abs t <=? Date.max_time then
        let tzo := getTimezoneOffset t in
        let lt := t - tzo * 60000 in
        let ymd := dec (Date.getFullYear lt) +:+ "-"
                   +:+ pad2 (Date.getMonth lt + 1) +:+ "-"
                   +:+ pad2 (Date.getDate lt) in
        let hms := pad2 (Date.getHours lt) +:+ ":"
                   +:+ pad2 (Date.getMinutes lt) +:+ ":"
                   +:+ pad2 (Date.getSeconds lt) in
        let tz :=
          if tzo =? 0 then "Z"
          else
            let tzh := Z.abs tzo / 60 in
            let tzm := Z.abs tzo mod 60 in
            let tzs := if 0 <? tzo then "-" else "+" in
            tzs +:+ pad2 tzh +:+ ":" +:+ pad2 tzm in
        ymd +:+ "T" +:+ hms +:+ tz
      else invalid_time_stamp
  | None => invalid_time_stamp
  end.

(** The [getData] loop of [_getRecordedSensorDataListFromCurrentPage]; each
    turn of the loop takes one unit of [fuel]. *)
Fixpoint getData (fuel : nat) (data_list : list value) : looping (list value) :=
  fun d =>
    match fuel with
    | O => None
    | S fuel' =>
        match getResponseData d with
        | (Resolved res, d1) =>
            if gt (get_prop res "row") 12
            then Some (Resolved data_list, elapse 10 d1)
            else getData fuel' (res :: data_list) (elapse 10 d1)
        | (Rejected e, d1) => Some (Rejected e, d1)
        end
    end.

Definition _getRecordedSensorDataListFromCurrentPage (fuel : nat)
  : looping (list value) := getData fuel [].

(** The [forEach] of [_getRecordedDataListFromPages]; [None] is the
    [TypeError] of assigning to a row that is not an object. *)
Fixpoint stamp_rows (time interval : value) (data_list : list value)
  : option (list value) :=
  match data_list with
  | [] => Some []
  | d :: rest =>
      match set_prop d "unixTime" time with
      | None => None
      | Some d1 =>
          match set_prop d1 "timeStamp"
                  (VStr (_getTimeStampFromUnixTime time)) with
          | None => None
          | Some d2 =>
              match stamp_rows (add time interval) interval rest with
              | None => None
              | Some rest' => Some (d2 :: rest')
              end
          end
      end
  end.

(** [{ page: page, row: row }] *)
Definition page_request (page row : value) : value :=
  VObj [("page", page); ("row", row)].

(** The chain of [_getRecordedDataListFromPages] up to the capture of
    [time]: request the page, wait, poll the response flag, wait. *)
Definition await_page (p : value) : promise value :=
  let page := get_prop p "page" in
  let row := get_prop p "row" in
  let* _ := setRequestPage (page_request page row) in
  let* _ := _wait 200 in
  let* res := getResponseFlag in
  if negb (strict_eq_num (get_prop res "updateFlag") 1)
  then reject (Error ("Failed to set the request page (updateFlag="
                      +:+ to_string (get_prop res "updateFlag") +:+ ")."))
  else
    let* _ := _wait 100 in
    resolve (get_prop res "unixTime").

Definition _getRecordedDataListFromPages (fuel : nat) (p : value)
  : looping (list value) :=
  fun d =>
    let interval := get_prop p "interval" in
    match await_page p d with
    | (Rejected e, d1) => Some (Rejected e, d1)
    | (Resolved time, d1) =>
        match _getRecordedSensorDataListFromCurrentPage fuel d1 with
        | None => None
        | Some (Rejected e, d2) => Some (Rejected e, d2)
        | Some (Resolved data_list, d2) =>
            match stamp_rows time interval data_list with
            | None => Some (Rejected TypeError, d2)
            | Some stamped => Some (Resolved stamped, d2)
            end
        end
    end.

(** The argument check of [getRecordedDataList]: [inl p] is the request it
    goes on with, [inr e] the error it rejects with at once. *)
Definition check_page_param (params : value) : option Z + error :=
  match params with
  | VObj fields =>
      match assoc "page" fields with
      | Some page =>
          match page with
          | VNum n =>
              if (n <? 0) || (2047 <? n)
              then inr (Error
                     "The page must be an integer in the range of 0 to 2047.")
              else inl (Some n)
          | _ => inr (Error
                   "The page must be an integer in the range of 0 to 2047.")
          end
      | None => inl None
      end
  | _ => inl None
  end.

Definition getRecordedDataList (fuel : nat) (params : value)
  : looping recorded :=
  fun d =>
    match check_page_param params with
    | inr e => Some (Rejected e, d)
    | inl p =>
        match (let* res := getRecordingStatus in
               if strict_eq_bool (get_prop res "isRecording") false
               then reject
                      (Error "The data recording mode has not been started.")
               else _getTargetPageAndRow p) d with
        | (Rejected e, d1) => Some (Rejected e, d1)
        | (Resolved res, d1) =>
            let target_page := get_prop res "page" in
            let interval := get_prop res "interval" in
            match _getRecordedDataListFromPages fuel res d1 with
            | None => None
            | Some (Rejected e, d2) => Some (Rejected e, d2)
            | Some (Resolved data_list, d2) =>
                Some (Resolved {| page := target_page;
                                  measurementInterval := interval;
                                  dataList := data_list |}, d2)
            end
        end
    end.

(** The rows a drain reads from [d] before the read that ends it, in the
    order they are read, and the state that last read starts from. *)
Inductive drains : device -> list value -> device -> Prop :=
| drains_done d : drains d [] d
| drains_row d res d1 rows d2 :
    getResponseData d = (Resolved res, d1) ->
    gt (get_prop res "row") 12 = false ->
    drains (elapse 10 d1) rows d2 ->
    drains d (res :: rows) d2.

(** How a read that got its buffer settles. *)
Definition settle_read (k : string) (buf : buffer) : outcome value :=
  if truthy (parseResponse k buf) then Resolved (parseResponse k buf)
  else Rejected (Error "Unknown Response Data").

(** The state [readData] leaves: what changed is the trace, the clock and
    the read script of the characteristic. *)
Record read_effect (k : string) (calls stalls : nat) (d d' : device) : Prop := {
  re_trace : trace d' = trace d ++ replicate calls (EvRead k);
  re_clock : clock d' = clock d + Z.of_nat stalls * _RESPONSE_TIMEOUT_MSEC;
  re_script : read_script k d' = drop calls (read_script k d);
  re_known : forall k', known k' d' <-> known k' d;
  re_other : forall k', k <> k' -> _chars d' !! k' = _chars d !! k';
  re_writes : forall k', write_script k' d' = write_script k' d
}.

(** The state [writeData] leaves. *)
Record write_effect (k : string) (buf : buffer) (wr : bool)
    (calls stalls : nat) (d d' : device) : Prop := {
  we_trace : trace d' = trace d ++ replicate calls (EvWrite k buf wr);
  we_clock : clock d' = clock d + Z.of_nat stalls * _RESPONSE_TIMEOUT_MSEC;
  we_script : write_script k d' = drop calls (write_script k d);
  we_known : forall k', known k' d' <-> known k' d;
  we_other : forall k', k <> k' -> _chars d' !! k' = _chars d !! k';
  we_reads : forall k', read_script k' d' = read_script k' d
}.

(** A row buffer: it decodes to an object whose [row] is the number [r],
    at most 12. *)
Definition row_buffer (buf : buffer) (r : Z) : Prop :=
  exists fields,
    parseResponse "3005" buf = VObj fields /\
    assoc "row" fields = Some (VNum r) /\ r <= 12.


(** ** Further methods of [EnvsensorDevice] *)

Definition getErrorStatus : promise value := _readValue (VStr "3033").
Definition getUuid : promise value := _readValue (VStr "3041").
Definition setUuid (params : value) : promise unit :=
  _setValue (VStr "3041") params.
Definition getDeviceName : promise value := _readValue (VStr "2a00").
Definition getModelNumber : promise value := _readValue (VStr "2a24").

(** [Math.ceil(x / 1000)] *)
Definition ceil_seconds (x : Z) : Z := - ((- x) / 1000).

(** [setTime()] without a [unixTime]: the host clock, in whole seconds
    rounded up, is written to the time information.  [Date_now] is
    [Date.now()], as the host clock reads when the run is in a given
    state. *)
Definition setTime_now (Date_now : device -> Z) : promise unit :=
  fun d =>
    _write (VStr "3031")
      (VObj [("unixTime", VNum (ceil_seconds (Date_now d)))]) false d.

(** [setTime(params)].  [None] is the [TypeError] that
    ['unixTime' in params] throws at the call for a [params] that is
    neither falsy nor an object. *)
Definition setTime (Date_now : device -> Z) (params : value)
  : option (promise unit) :=
  if truthy params then
    match params with
    | VObj fields =>
        match assoc "unixTime" fields with
        | Some t => Some (_write (VStr "3031") (VObj [("unixTime", t)]) false)
        | None => Some (setTime_now Date_now)
        end
    | _ => None
    end
  else Some (setTime_now Date_now).

Definition turnOnLed (params : value) : promise unit :=
  let dur :=
    match params with
    | VObj fields => default (VNum 3) (assoc "duration" fields)
    | _ => VNum 3
    end in
  _write (VStr "3032") (VObj [("duration", dur)]) false.

(** [resetErrorStatus()]: [_write('3033')], the data left [undefined]. *)
Definition resetErrorStatus : promise unit :=
  _write (VStr "3033") VUndefined false.

Definition getDeviceInfo : promise value :=
  let* r1 := _read (VStr "2a00") in
  let* r2 := _read (VStr "2a24") in
  let* r3 := _read (VStr "2a25") in
  let* r4 := _read (VStr "2a26") in
  let* r5 := _read (VStr "2a27") in
  let* r6 := _read (VStr "2a29") in
  resolve (VObj [
    ("deviceName", get_prop r1 "deviceName");
    ("modelNumber", get_prop r2 "modelNumber");
    ("serialNumber", get_prop r3 "serialNumber");
    ("firmwareRevision", get_prop r4 "firmwareRevision");
    ("hardwareRevision", get_prop r5 "hardwareRevision");
    ("manufacturerName", get_prop r6 "manufacturerName")]).

Definition getBasicConfigurations : promise value :=
  let* r1 := getMeasurementInterval in
  let* r2 := getAdvSetting in
  let* r3 := getUuid in
  resolve (VObj [
    ("measurementInterval", get_prop r1 "measurementInterval");
    ("beaconMode", get_prop r2 "beaconMode");
    ("txPowerLevel", get_prop r2 "txPowerLevel");
    ("uuid", get_prop r3 "uuid")]).

(** [(k in params) ? params[k] : res[k]]; [None] is the [TypeError] of
    [k in params] for a [params] that is not an object. *)
Definition pick (params res : value) (k : string) : option value :=
  match params with
  | VObj fields => Some (default (get_prop res k) (assoc k fields))
  | _ => None
  end.

Definition setBasicConfigurations (params : value) : promise unit :=
  let* res := getBasicConfigurations in
  match pick params res "measurementInterval", pick params res "beaconMode",
        pick params res "txPowerLevel", pick params res "uuid" with
  | Some interval, Some mode, Some power, Some uuid =>
      let* _ := setMeasurementInterval
                  (VObj [("measurementInterval", interval)]) in
      let* _ := setUuid (VObj [("uuid", uuid)]) in
      setAdvSetting (VObj [("beaconMode", mode); ("txPowerLevel", power)])
  | _, _, _, _ => reject TypeError
  end.

(** [startRecording()].  On a sensor that is recording, [resolve()] is
    called and the chain still goes on to [setTime()], whose outcome no
    longer matters: the promise is resolved and the state is the one
    [setTime()] leaves. *)
Definition startRecording (Date_now : device -> Z) : promise unit :=
  fun d =>
    match getRecordingStatus d with
    | (Rejected e, d1) => (Rejected e, d1)
    | (Resolved res, d1) =>
        if strict_eq_bool (get_prop res "isRecording") true
        then (Resolved tt, snd (setTime_now Date_now d1))
        else
          let mode := get_prop res "beaconMode" in
          match is_recording_mode mode with
          | None => (Rejected TypeError, d1)
          | Some recording =>
              let mode := if recording then mode else VNum 8 in
              (let* _ := setAdvSetting (VObj [("beaconMode", mode)]) in
               setTime_now Date_now) d1
          end
    end.


(** [startMonitoringData()], with what the [subscribe] of the
    characteristic does; [None] is a promise that stays pending. *)
Definition startMonitoringData (d : device) (r : reply unit)
    (m : Monitor.monitor) : option (outcome unit) * Monitor.monitor :=
  match _chars d !! "3001" with
  | None => (Some (Rejected (Monitor.unsupported "3001")), m)
  | Some _ =>
      let m1 := Monitor.called (Monitor.Subscribe "3001") m in
      match r with
      | Stall => (None, m1)
      | Fail e => (Some (Rejected e), m1)
      | Answer _ =>
          (Some (Resolved tt),
           Monitor.set_data_listeners (S (Monitor.data_listeners m1)) m1)
      end
  end.

(** [stopMonitoringData()] *)
Definition stopMonitoringData (d : device) (r : reply unit)
    (m : Monitor.monitor) : option (outcome unit) * Monitor.monitor :=
  match _chars d !! "3001" with
  | None => (Some (Rejected (Monitor.unsupported "3001")), m)
  | Some _ =>
      let m1 := Monitor.called (Monitor.Unsubscribe "3001") m in
      match r with
      | Stall => (None, m1)
      | Fail e => (Some (Rejected e), m1)
      | Answer _ => (Some (Resolved tt), Monitor.set_data_listeners 0 m1)
      end
  end.

(** [startMonitoringEventFlag()] *)
Definition startMonitoringEventFlag (d : device) (r : reply unit)
    (m : Monitor.monitor) : option (outcome unit) * Monitor.monitor :=
  match _chars d !! "3006" with
  | None => (Some (Rejected (Monitor.unsupported "3006")), m)
  | Some _ =>
      let m1 := Monitor.called (Monitor.Subscribe "3006") m in
      match r with
      | Stall => (None, m1)
      | Fail e => (Some (Rejected e), m1)
      | Answer _ =>
          (Some (Resolved tt),
           Monitor.set_flag_listeners (S (Monitor.flag_listeners m1)) m1)
      end
  end.

(** [stopMonitoringEventFlag()] *)
Definition stopMonitoringEventFlag (d : device) (r : reply unit)
    (m : Monitor.monitor) : option (outcome unit) * Monitor.monitor :=
  match _chars d !! "3006" with
  | None => (Some (Rejected (Monitor.unsupported "3006")), m)
  | Some _ =>
      let m1 := Monitor.called (Monitor.Unsubscribe "3006") m in
      match r with
      | Stall => (None, m1)
      | Fail e => (Some (Rejected e), m1)
      | Answer _ => (Some (Resolved tt), Monitor.set_flag_listeners 0 m1)
      end
  end.

(** A ['data'] event of the latest data: every listener decodes the buffer
    and hands it to [onsensordata], when that is a function and the buffer
    decodes. *)
Definition data_event (buf : buffer) (m : Monitor.monitor)
  : Monitor.monitor :=
  if Monitor.onsensordata m && truthy (parseResponse "3001" buf) then
    {| Monitor.onsensordata := Monitor.onsensordata m;
       Monitor.oneventflag := Monitor.oneventflag m;
       Monitor.data_listeners := Monitor.data_listeners m;
       Monitor.flag_listeners := Monitor.flag_listeners m;
       Monitor.calls := Monitor.calls m;
       Monitor.sensordata :=
         Monitor.sensordata m
         ++ replicate (Monitor.data_listeners m) (parseResponse "3001" buf);
       Monitor.eventflags := Monitor.eventflags m |}
  else m.

(** A ['data'] event of the event flag. *)
Definition flag_event (buf : buffer) (m : Monitor.monitor)
  : Monitor.monitor :=
  if Monitor.oneventflag m && truthy (parseResponse "3006" buf) then
    {| Monitor.onsensordata := Monitor.onsensordata m;
       Monitor.oneventflag := Monitor.oneventflag m;
       Monitor.data_listeners := Monitor.data_listeners m;
       Monitor.flag_listeners := Monitor.flag_listeners m;
       Monitor.calls := Monitor.calls m;
       Monitor.sensordata := Monitor.sensordata m;
       Monitor.eventflags :=
         Monitor.eventflags m
         ++ replicate (Monitor.flag_listeners m) (parseResponse "3006" buf) |}
  else m.

(** [times] calls of [startMonitoringData()], each subscription answered. *)
Fixpoint monitored (d : device) (times : nat) (m : Monitor.monitor)
  : Monitor.monitor :=
  match times with
  | O => m
  | S n => snd (startMonitoringData d (Answer tt) (monitored d n m))
  end.

(** The beacon modes [/^(0|1|7|8)$/] accepts in decimal. *)
Definition recording_mode (m : Z) : bool :=
  (m =? 0) || (m =? 1) || (m =? 7) || (m =? 8).

(** What [_init] files for a discovered characteristic. *)
Definition filed (c : characteristic) : characteristic :=
  {| uuid := uuid c;
     name := default_name _CHAR_NAMES (table_key (uuid c)) (name c);
     read_stub := read_stub c;
     write_stub := write_stub c |}.




(** ** Case mapping of identifiers *)

Lemma lower_ascii_idem c : lower_ascii (lower_ascii c) = lower_ascii c.
Proof. destruct c as [[] [] [] [] [] [] [] []]; reflexivity. Qed.

Lemma lower_upper_ascii c : lower_ascii (upper_ascii c) = lower_ascii c.
Proof. destruct c as [[] [] [] [] [] [] [] []]; reflexivity. Qed.

Lemma toLocaleLowerCase_idem s :
  toLocaleLowerCase (toLocaleLowerCase s) = toLocaleLowerCase s.
Proof. induction s as [|c s IH]; simpl; [|rewrite lower_ascii_idem, IH]; reflexivity. Qed.

Lemma toLocaleLowerCase_toUpperCase s :
  toLocaleLowerCase (toUpperCase s) = toLocaleLowerCase s.
Proof. induction s as [|c s IH]; simpl; [|rewrite lower_upper_ascii, IH]; reflexivity. Qed.

Lemma toLocaleLowerCase_app s t :
  toLocaleLowerCase (s +:+ t) = toLocaleLowerCase s +:+ toLocaleLowerCase t.
Proof. induction s as [|c s IH]; simpl; [|rewrite IH]; reflexivity. Qed.

Lemma hex_uint_lower u :
  toLocaleLowerCase (HexadecimalString.NilEmpty.string_of_uint u)
  = HexadecimalString.NilEmpty.string_of_uint u.
Proof. induction u; simpl; try rewrite IHu; reflexivity. Qed.

Lemma hex_uint0_lower u :
  toLocaleLowerCase (HexadecimalString.NilZero.string_of_uint u)
  = HexadecimalString.NilZero.string_of_uint u.
Proof.
  unfold HexadecimalString.NilZero.string_of_uint.
  destruct u; try reflexivity; apply hex_uint_lower.
Qed.

Lemma hex_lower n : toLocaleLowerCase (hex n) = hex n.
Proof.
  unfold hex, HexadecimalString.NilZero.string_of_int.
  destruct (Z.to_hex_int n); simpl; rewrite ?hex_uint0_lower; reflexivity.
Qed.

(** ** One call of a transport primitive *)

Lemma char_read_reply k d : fst (char_read k d) = hd Stall (read_script k d).
Proof.
  unfold char_read, read_script.
  destruct (_chars d !! k) as [c|]; [destruct (read_stub c)|]; reflexivity.
Qed.

Lemma char_read_trace k d : trace (snd (char_read k d)) = trace d ++ [EvRead k].
Proof.
  unfold char_read.
  destruct (_chars d !! k) as [c|]; [destruct (read_stub c)|]; reflexivity.
Qed.

Lemma char_read_clock k d : clock (snd (char_read k d)) = clock d.
Proof.
  unfold char_read.
  destruct (_chars d !! k) as [c|]; [destruct (read_stub c)|]; reflexivity.
Qed.

Lemma char_read_script k d :
  read_script k (snd (char_read k d)) = tl (read_script k d).
Proof.
  unfold char_read, read_script.
  destruct (_chars d !! k) as [c|] eqn:Hc; [destruct (read_stub c) eqn:Hs|];
    simpl; rewrite ?lookup_insert_eq, ?Hc, ?Hs; reflexivity.
Qed.

Lemma char_read_known k k' d : known k' (snd (char_read k d)) <-> known k' d.
Proof.
  unfold char_read, known.
  destruct (_chars d !! k) as [c|] eqn:Hc; [destruct (read_stub c)|];
    simpl; try tauto.
  destruct (decide (k = k')) as [->|Hne].
  - rewrite lookup_insert_eq, Hc. split; eauto.
  - rewrite lookup_insert_ne by assumption. tauto.
Qed.

Lemma char_read_other k k' d :
  k <> k' -> _chars (snd (char_read k d)) !! k' = _chars d !! k'.
Proof.
  intros Hne. unfold char_read.
  destruct (_chars d !! k) as [c|]; [destruct (read_stub c)|];
    simpl; rewrite ?lookup_insert_ne by assumption; reflexivity.
Qed.

Lemma char_read_write_script k k' d :
  write_script k' (snd (char_read k d)) = write_script k' d.
Proof.
  unfold write_script.
  destruct (decide (k = k')) as [<-|Hne]; [|rewrite char_read_other; auto].
  unfold char_read.
  destruct (_chars d !! k) as [c|] eqn:Hc; [destruct (read_stub c)|];
    simpl; rewrite ?lookup_insert_eq, ?Hc; reflexivity.
Qed.

Lemma char_write_reply k buf wr d :
  fst (char_write k buf wr d) = hd Stall (write_script k d).
Proof.
  unfold char_write, write_script.
  destruct (_chars d !! k) as [c|]; [destruct (write_stub c)|]; reflexivity.
Qed.

Lemma char_write_trace k buf wr d :
  trace (snd (char_write k buf wr d)) = trace d ++ [EvWrite k buf wr].
Proof.
  unfold char_write.
  destruct (_chars d !! k) as [c|]; [destruct (write_stub c)|]; reflexivity.
Qed.

Lemma char_write_clock k buf wr d : clock (snd (char_write k buf wr d)) = clock d.
Proof.
  unfold char_write.
  destruct (_chars d !! k) as [c|]; [destruct (write_stub c)|]; reflexivity.
Qed.

Lemma char_write_script k buf wr d :
  write_script k (snd (char_write k buf wr d)) = tl (write_script k d).
Proof.
  unfold char_write, write_script.
  destruct (_chars d !! k) as [c|] eqn:Hc; [destruct (write_stub c) eqn:Hs|];
    simpl; rewrite ?lookup_insert_eq, ?Hc, ?Hs; reflexivity.
Qed.

Lemma char_write_known k k' buf wr d :
  known k' (snd (char_write k buf wr d)) <-> known k' d.
Proof.
  unfold char_write, known.
  destruct (_chars d !! k) as [c|] eqn:Hc; [destruct (write_stub c)|];
    simpl; try tauto.
  destruct (decide (k = k')) as [->|Hne].
  - rewrite lookup_insert_eq, Hc. split; eauto.
  - rewrite lookup_insert_ne by assumption. tauto.
Qed.

Lemma char_write_other k k' buf wr d :
  k <> k' -> _chars (snd (char_write k buf wr d)) !! k' = _chars d !! k'.
Proof.
  intros Hne. unfold char_write.
  destruct (_chars d !! k) as [c|]; [destruct (write_stub c)|];
    simpl; rewrite ?lookup_insert_ne by assumption; reflexivity.
Qed.

Lemma char_write_read_script k k' buf wr d :
  read_script k' (snd (char_write k buf wr d)) = read_script k' d.
Proof.
  unfold read_script.
  destruct (decide (k = k')) as [<-|Hne]; [|rewrite char_write_other; auto].
  unfold char_write.
  destruct (_chars d !! k) as [c|] eqn:Hc; [destruct (write_stub c)|];
    simpl; rewrite ?lookup_insert_eq, ?Hc; reflexivity.
Qed.

Lemma elapse_read_script k ms d : read_script k (elapse ms d) = read_script k d.
Proof. reflexivity. Qed.

Lemma elapse_known k ms d : known k (elapse ms d) <-> known k d.
Proof. reflexivity. Qed.

(** ** The retry loop *)

Lemma read_effect_first k d :
  read_effect k 1 0 d (snd (char_read k d)).
Proof.
  split; intros.
  - apply char_read_trace.
  - rewrite char_read_clock. simpl. lia.
  - rewrite char_read_script. destruct (read_script k d); reflexivity.
  - apply char_read_known.
  - apply char_read_other; assumption.
  - apply char_read_write_script.
Qed.

Lemma read_effect_stall k calls stalls d d' :
  read_effect k calls stalls
    (elapse _RESPONSE_TIMEOUT_MSEC (snd (char_read k d))) d' ->
  read_effect k (S calls) (S stalls) d d'.
Proof.
  intros [Ht Hc Hs Hk Ho Hw]. split; intros.
  - rewrite Ht. simpl. rewrite char_read_trace, <- app_assoc. reflexivity.
  - rewrite Hc. simpl clock. rewrite char_read_clock. lia.
  - rewrite Hs, elapse_read_script, char_read_script.
    destruct (read_script k d); simpl; [rewrite drop_nil|]; reflexivity.
  - rewrite Hk, elapse_known. apply char_read_known.
  - rewrite Ho by assumption. simpl. apply char_read_other; assumption.
  - rewrite Hw. unfold write_script. simpl. apply char_read_write_script.
Qed.

Lemma readData_unfold retries k d :
  readData retries k d =
  match hd Stall (read_script k d) with
  | Stall =>
      let d2 := elapse _RESPONSE_TIMEOUT_MSEC (snd (char_read k d)) in
      match retries with
      | S m => readData m k d2
      | O => (Rejected (Error "Timeout."), d2)
      end
  | Fail e => (Rejected e, snd (char_read k d))
  | Answer buf => (settle_read k buf, snd (char_read k d))
  end.
Proof.
  rewrite <- char_read_reply. unfold settle_read.
  destruct retries; simpl; destruct (char_read k d) as [[| |] ?]; simpl;
    try reflexivity; destruct (truthy _); reflexivity.
Qed.

Lemma readData_bounded retries k d :
  exists calls stalls,
    (1 <= calls <= S retries)%nat /\
    read_effect k calls stalls d (snd (readData retries k d)).
Proof.
  revert d. induction retries as [|m IH]; intros d; rewrite readData_unfold;
    destruct (hd Stall (read_script k d)); simpl;
    try (exists 1%nat, 0%nat; split; [lia | apply read_effect_first]).
  - exists 1%nat, 1%nat. split; [lia|]. apply read_effect_stall.
    split; intros; try reflexivity; simpl; rewrite ?app_nil_r; try lia; tauto.
  - destruct (IH (elapse _RESPONSE_TIMEOUT_MSEC (snd (char_read k d))))
      as (calls & stalls & Hb & He).
    exists (S calls), (S stalls). split; [lia|]. apply read_effect_stall, He.
Qed.

Lemma readData_stalls_then_answer j : forall retries k d buf rest,
  read_script k d = replicate j Stall ++ Answer buf :: rest ->
  (j <= retries)%nat ->
  fst (readData retries k d) = settle_read k buf /\
  read_effect k (S j) j d (snd (readData retries k d)).
Proof.
  induction j as [|j IH]; intros retries k d buf rest Hs Hj;
    rewrite readData_unfold, Hs; simpl.
  - split; [reflexivity | apply read_effect_first].
  - destruct retries as [|m]; [lia|].
    destruct (IH m k (elapse _RESPONSE_TIMEOUT_MSEC (snd (char_read k d)))
                buf rest) as [Ho He].
    + rewrite elapse_read_script, char_read_script, Hs. reflexivity.
    + lia.
    + split; [exact Ho | apply read_effect_stall, He].
Qed.

Lemma readData_stalls_then_fail j : forall retries k d e rest,
  read_script k d = replicate j Stall ++ Fail e :: rest ->
  (j <= retries)%nat ->
  fst (readData retries k d) = Rejected e /\
  read_effect k (S j) j d (snd (readData retries k d)).
Proof.
  induction j as [|j IH]; intros retries k d e rest Hs Hj;
    rewrite readData_unfold, Hs; simpl.
  - split; [reflexivity | apply read_effect_first].
  - destruct retries as [|m]; [lia|].
    destruct (IH m k (elapse _RESPONSE_TIMEOUT_MSEC (snd (char_read k d)))
                e rest) as [Ho He].
    + rewrite elapse_read_script, char_read_script, Hs. reflexivity.
    + lia.
    + split; [exact Ho | apply read_effect_stall, He].
Qed.

Lemma readData_all_stall retries : forall k d m,
  read_script k d = replicate m Stall ->
  fst (readData retries k d) = Rejected (Error "Timeout.") /\
  read_effect k (S retries) (S retries) d (snd (readData retries k d)).
Proof.
  induction retries as [|r IH]; intros k d m Hs; rewrite readData_unfold, Hs.
  - replace (hd Stall (replicate m Stall)) with (@Stall buffer)
      by (destruct m; reflexivity).
    simpl. split; [reflexivity|]. apply read_effect_stall.
    split; intros; try reflexivity; simpl; rewrite ?app_nil_r; try lia; tauto.
  - replace (hd Stall (replicate m Stall)) with (@Stall buffer)
      by (destruct m; reflexivity).
    simpl.
    destruct (IH k (elapse _RESPONSE_TIMEOUT_MSEC (snd (char_read k d)))
                (pred m)) as [Ho He].
    + rewrite elapse_read_script, char_read_script, Hs.
      destruct m; reflexivity.
    + split; [exact Ho | apply read_effect_stall, He].
Qed.

Lemma write_effect_first k buf wr d :
  write_effect k buf wr 1 0 d (snd (char_write k buf wr d)).
Proof.
  split; intros.
  - apply char_write_trace.
  - rewrite char_write_clock. simpl. lia.
  - rewrite char_write_script. destruct (write_script k d); reflexivity.
  - apply char_write_known.
  - apply char_write_other; assumption.
  - apply char_write_read_script.
Qed.

Lemma write_effect_stall k buf wr calls stalls d d' :
  write_effect k buf wr calls stalls
    (elapse _RESPONSE_TIMEOUT_MSEC (snd (char_write k buf wr d))) d' ->
  write_effect k buf wr (S calls) (S stalls) d d'.
Proof.
  intros [Ht Hc Hs Hk Ho Hw]. split; intros.
  - rewrite Ht. simpl. rewrite char_write_trace, <- app_assoc. reflexivity.
  - rewrite Hc. simpl clock. rewrite char_write_clock. lia.
  - rewrite Hs. change (write_script k (elapse ?ms ?x)) with (write_script k x).
    rewrite char_write_script.
    destruct (write_script k d); simpl; [rewrite drop_nil|]; reflexivity.
  - rewrite Hk, elapse_known. apply char_write_known.
  - rewrite Ho by assumption. simpl. apply char_write_other; assumption.
  - rewrite Hw, elapse_read_script. apply char_write_read_script.
Qed.

Lemma writeData_unfold retries k buf wr d :
  writeData retries k buf wr d =
  match hd Stall (write_script k d) with
  | Stall =>
      let d2 := elapse _RESPONSE_TIMEOUT_MSEC (snd (char_write k buf wr d)) in
      match retries with
      | S m => writeData m k buf wr d2
      | O => (Rejected (Error "Timeout."), d2)
      end
  | Fail e => (Rejected e, snd (char_write k buf wr d))
  | Answer _ => (Resolved tt, snd (char_write k buf wr d))
  end.
Proof.
  rewrite <- (char_write_reply k buf wr).
  destruct retries; simpl; destruct (char_write k buf wr d) as [[| |] ?];
    reflexivity.
Qed.

Lemma writeData_bounded retries k buf wr d :
  exists calls stalls,
    (1 <= calls <= S retries)%nat /\
    write_effect k buf wr calls stalls d (snd (writeData retries k buf wr d)).
Proof.
  revert d. induction retries as [|m IH]; intros d; rewrite writeData_unfold;
    destruct (hd Stall (write_script k d)); simpl;
    try (exists 1%nat, 0%nat; split; [lia | apply write_effect_first]).
  - exists 1%nat, 1%nat. split; [lia|]. apply write_effect_stall.
    split; intros; try reflexivity; simpl; rewrite ?app_nil_r; try lia; tauto.
  - destruct (IH (elapse _RESPONSE_TIMEOUT_MSEC (snd (char_write k buf wr d))))
      as (calls & stalls & Hb & He).
    exists (S calls), (S stalls). split; [lia|]. apply write_effect_stall, He.
Qed.

Lemma writeData_stalls_then_answer j : forall retries k buf wr d rest,
  write_script k d = replicate j Stall ++ Answer tt :: rest ->
  (j <= retries)%nat ->
  fst (writeData retries k buf wr d) = Resolved tt /\
  write_effect k buf wr (S j) j d (snd (writeData retries k buf wr d)).
Proof.
  induction j as [|j IH]; intros retries k buf wr d rest Hs Hj;
    rewrite writeData_unfold, Hs; simpl.
  - split; [reflexivity | apply write_effect_first].
  - destruct retries as [|m]; [lia|].
    destruct (IH m k buf wr
                (elapse _RESPONSE_TIMEOUT_MSEC (snd (char_write k buf wr d)))
                rest) as [Ho He].
    + change (write_script k (elapse ?ms ?x)) with (write_script k x).
      rewrite char_write_script, Hs. reflexivity.
    + lia.
    + split; [exact Ho | apply write_effect_stall, He].
Qed.

Lemma writeData_stalls_then_fail j : forall retries k buf wr d e rest,
  write_script k d = replicate j Stall ++ Fail e :: rest ->
  (j <= retries)%nat ->
  fst (writeData retries k buf wr d) = Rejected e /\
  write_effect k buf wr (S j) j d (snd (writeData retries k buf wr d)).
Proof.
  induction j as [|j IH]; intros retries k buf wr d e rest Hs Hj;
    rewrite writeData_unfold, Hs; simpl.
  - split; [reflexivity | apply write_effect_first].
  - destruct retries as [|m]; [lia|].
    destruct (IH m k buf wr
                (elapse _RESPONSE_TIMEOUT_MSEC (snd (char_write k buf wr d)))
                e rest) as [Ho He].
    + change (write_script k (elapse ?ms ?x)) with (write_script k x).
      rewrite char_write_script, Hs. reflexivity.
    + lia.
    + split; [exact Ho | apply write_effect_stall, He].
Qed.

Lemma writeData_all_stall retries : forall k buf wr d m,
  write_script k d = replicate m Stall ->
  fst (writeData retries k buf wr d) = Rejected (Error "Timeout.") /\
  write_effect k buf wr (S retries) (S retries) d
    (snd (writeData retries k buf wr d)).
Proof.
  induction retries as [|r IH]; intros k buf wr d m Hs;
    rewrite writeData_unfold, Hs.
  - replace (hd Stall (replicate m Stall)) with (@Stall unit)
      by (destruct m; reflexivity).
    simpl. split; [reflexivity|]. apply write_effect_stall.
    split; intros; try reflexivity; simpl; rewrite ?app_nil_r; try lia; tauto.
  - replace (hd Stall (replicate m Stall)) with (@Stall unit)
      by (destruct m; reflexivity).
    simpl.
    destruct (IH k buf wr
                (elapse _RESPONSE_TIMEOUT_MSEC (snd (char_write k buf wr d)))
                (pred m)) as [Ho He].
    + change (write_script k (elapse ?ms ?x)) with (write_script k x).
      rewrite char_write_script, Hs. destruct m; reflexivity.
    + split; [exact Ho | apply write_effect_stall, He].
Qed.

(** ** The request engine: [_read] and [_write] *)

Lemma drop_past_stalls {A} j (x y : A) rest :
  drop (S j) (replicate j x ++ y :: rest) = rest.
Proof. induction j as [|j IH]; [reflexivity | exact IH]. Qed.

Lemma _read_known id k d :
  normalize id = Some k -> known k d ->
  _read id d = readData (_REQUEST_RETRY_MAX - 1) k d.
Proof. intros Hn [c Hc]. unfold _read. rewrite Hn, Hc. reflexivity. Qed.

Lemma _write_known id k data buf wr d :
  normalize id = Some k -> known k d ->
  createWriteBuffer k data = WriteBuffer buf ->
  _write id data wr d = writeData (_REQUEST_RETRY_MAX - 1) k buf wr d.
Proof.
  intros Hn [c Hc] Hb. unfold _write. rewrite Hn, Hc, Hb. reflexivity.
Qed.

(** Whatever the transport does, [_read] only reads, from one
    characteristic, at most [_REQUEST_RETRY_MAX] times. *)
Lemma _read_effect id d :
  exists k calls stalls,
    (calls <= _REQUEST_RETRY_MAX)%nat /\
    read_effect k calls stalls d (snd (_read id d)).
Proof.
  assert (Hnone : forall k, read_effect k 0 0 d d).
  { intros k. split; intros; simpl; rewrite ?app_nil_r; try tauto; lia. }
  unfold _read. destruct (normalize id) as [k|]; [|exists "", 0%nat, 0%nat; auto with lia].
  destruct (_chars d !! k);
    [|destruct (inherited k); exists k, 0%nat, 0%nat; auto with lia].
  destruct (readData_bounded (_REQUEST_RETRY_MAX - 1) k d)
    as (calls & stalls & Hb & He).
  exists k, calls, stalls. split; [simpl in Hb; unfold _REQUEST_RETRY_MAX; lia | exact He].
Qed.

Lemma _write_effect id data wr d :
  exists k buf calls stalls,
    (calls <= _REQUEST_RETRY_MAX)%nat /\
    write_effect k buf wr calls stalls d (snd (_write id data wr d)).
Proof.
  assert (Hnone : forall k buf, write_effect k buf wr 0 0 d d).
  { intros k buf. split; intros; simpl; rewrite ?app_nil_r; try tauto; lia. }
  unfold _write.
  destruct (normalize id) as [k|]; [|exists "", [], 0%nat, 0%nat; auto with lia].
  destruct (_chars d !! k);
    [|destruct (inherited k), (createWriteBuffer k data);
      exists k, [], 0%nat, 0%nat; auto with lia].
  destruct (createWriteBuffer k data) as [|e|buf];
    try solve [exists k, [], 0%nat, 0%nat; auto with lia].
  destruct (writeData_bounded (_REQUEST_RETRY_MAX - 1) k buf wr d)
    as (calls & stalls & Hb & He).
  exists k, buf, calls, stalls.
  split; [simpl in Hb; unfold _REQUEST_RETRY_MAX; lia | exact He].
Qed.

(** C1.  A read or a write calls the transport primitive at most
    [_REQUEST_RETRY_MAX] = 3 times, giving each call
    [_RESPONSE_TIMEOUT_MSEC] = 5000 ms.  When the stub stalls on the first
    [j < 3] calls and then answers, the operation resolves after exactly
    [j + 1] calls; when the stub only ever stalls, the operation is rejected
    with [Timeout.] after exactly 3 calls. *)
Theorem C1_bounded_retry :
  (forall id d, exists k calls,
      (calls <= 3)%nat /\
      trace (snd (_read id d)) = trace d ++ replicate calls (EvRead k))
  /\
  (forall id data wr d, exists k buf calls,
      (calls <= 3)%nat /\
      trace (snd (_write id data wr d))
      = trace d ++ replicate calls (EvWrite k buf wr))
  /\
  (forall id k d j buf rest,
      normalize id = Some k -> known k d ->
      read_script k d = replicate j Stall ++ Answer buf :: rest ->
      (j < _REQUEST_RETRY_MAX)%nat ->
      truthy (parseResponse k buf) = true ->
      fst (_read id d) = Resolved (parseResponse k buf) /\
      trace (snd (_read id d)) = trace d ++ replicate (j + 1) (EvRead k) /\
      clock (snd (_read id d))
      = clock d + Z.of_nat j * _RESPONSE_TIMEOUT_MSEC)
  /\
  (forall id k data wr buf d j rest,
      normalize id = Some k -> known k d ->
      createWriteBuffer k data = WriteBuffer buf ->
      write_script k d = replicate j Stall ++ Answer tt :: rest ->
      (j < _REQUEST_RETRY_MAX)%nat ->
      fst (_write id data wr d) = Resolved tt /\
      trace (snd (_write id data wr d))
      = trace d ++ replicate (j + 1) (EvWrite k buf wr) /\
      clock (snd (_write id data wr d))
      = clock d + Z.of_nat j * _RESPONSE_TIMEOUT_MSEC)
  /\
  (forall id k d m,
      normalize id = Some k -> known k d ->
      read_script k d = replicate m Stall ->
      fst (_read id d) = Rejected (Error "Timeout.") /\
      trace (snd (_read id d)) = trace d ++ replicate 3 (EvRead k) /\
      clock (snd (_read id d)) = clock d + 3 * _RESPONSE_TIMEOUT_MSEC)
  /\
  (forall id k data wr buf d m,
      normalize id = Some k -> known k d ->
      createWriteBuffer k data = WriteBuffer buf ->
      write_script k d = replicate m Stall ->
      fst (_write id data wr d) = Rejected (Error "Timeout.") /\
      trace (snd (_write id data wr d))
      = trace d ++ replicate 3 (EvWrite k buf wr) /\
      clock (snd (_write id data wr d))
      = clock d + 3 * _RESPONSE_TIMEOUT_MSEC).
Proof.
  repeat apply conj.
  - intros id d. destruct (_read_effect id d) as (k & calls & stalls & Hb & He).
    exists k, calls. split; [exact Hb | apply He].
  - intros id data wr d.
    destruct (_write_effect id data wr d) as (k & buf & calls & stalls & Hb & He).
    exists k, buf, calls. split; [exact Hb | apply He].
  - intros id k d j buf rest Hn Hk Hs Hj Ht.
    rewrite (_read_known id k d Hn Hk).
    destruct (readData_stalls_then_answer j (_REQUEST_RETRY_MAX - 1) k d buf rest Hs)
      as [Ho He]; [unfold _REQUEST_RETRY_MAX in *; lia|].
    rewrite Ho. unfold settle_read. rewrite Ht.
    replace (j + 1)%nat with (S j) by lia.
    split; [reflexivity | split; apply He].
  - intros id k data wr buf d j rest Hn Hk Hb Hs Hj.
    rewrite (_write_known id k data buf wr d Hn Hk Hb).
    destruct (writeData_stalls_then_answer j (_REQUEST_RETRY_MAX - 1) k buf wr d rest Hs)
      as [Ho He]; [unfold _REQUEST_RETRY_MAX in *; lia|].
    replace (j + 1)%nat with (S j) by lia.
    split; [exact Ho | split; apply He].
  - intros id k d m Hn Hk Hs.
    rewrite (_read_known id k d Hn Hk).
    destruct (readData_all_stall (_REQUEST_RETRY_MAX - 1) k d m Hs) as [Ho He].
    split; [exact Ho | split; apply He].
  - intros id k data wr buf d m Hn Hk Hb Hs.
    rewrite (_write_known id k data buf wr d Hn Hk Hb).
    destruct (writeData_all_stall (_REQUEST_RETRY_MAX - 1) k buf wr d m Hs)
      as [Ho He].
    split; [exact Ho | split; apply He].
Qed.

(** C6, as the code has it.  When a transport call comes back with an error
    (after [j < 3] stalled calls), the operation is rejected with that error
    at once: [j + 1] calls were made, no further call follows, no time beyond
    the [j] timeouts is spent, and the replies the stub still held stay
    unasked. *)
Theorem C6_error_is_final :
  (forall id k d j e rest,
      normalize id = Some k -> known k d ->
      read_script k d = replicate j Stall ++ Fail e :: rest ->
      (j < _REQUEST_RETRY_MAX)%nat ->
      fst (_read id d) = Rejected e /\
      trace (snd (_read id d)) = trace d ++ replicate (j + 1) (EvRead k) /\
      read_script k (snd (_read id d)) = rest /\
      clock (snd (_read id d))
      = clock d + Z.of_nat j * _RESPONSE_TIMEOUT_MSEC)
  /\
  (forall id k data wr buf d j e rest,
      normalize id = Some k -> known k d ->
      createWriteBuffer k data = WriteBuffer buf ->
      write_script k d = replicate j Stall ++ Fail e :: rest ->
      (j < _REQUEST_RETRY_MAX)%nat ->
      fst (_write id data wr d) = Rejected e /\
      trace (snd (_write id data wr d))
      = trace d ++ replicate (j + 1) (EvWrite k buf wr) /\
      write_script k (snd (_write id data wr d)) = rest /\
      clock (snd (_write id data wr d))
      = clock d + Z.of_nat j * _RESPONSE_TIMEOUT_MSEC).
Proof.
  split.
  - intros id k d j e rest Hn Hk Hs Hj.
    rewrite (_read_known id k d Hn Hk).
    destruct (readData_stalls_then_fail j (_REQUEST_RETRY_MAX - 1) k d e rest Hs)
      as [Ho He]; [unfold _REQUEST_RETRY_MAX in *; lia|].
    replace (j + 1)%nat with (S j) by lia.
    repeat split; [exact Ho | apply He | | apply He].
    rewrite (re_script _ _ _ _ _ He), Hs. apply drop_past_stalls.
  - intros id k data wr buf d j e rest Hn Hk Hb Hs Hj.
    rewrite (_write_known id k data buf wr d Hn Hk Hb).
    destruct (writeData_stalls_then_fail j (_REQUEST_RETRY_MAX - 1) k buf wr d e rest Hs)
      as [Ho He]; [unfold _REQUEST_RETRY_MAX in *; lia|].
    replace (j + 1)%nat with (S j) by lia.
    repeat split; [exact Ho | apply He | | apply He].
    rewrite (we_script _ _ _ _ _ _ _ He), Hs. apply drop_past_stalls.
Qed.

(** ** The characteristic table *)

Lemma table_key_long seg :
  String.length seg = 4%nat ->
  string_forallb is_lower_hex seg = true ->
  table_key ("0c4c" +:+ seg +:+ "770046f4aa96d5e974e32a54") = seg.
Proof.
  intros Hlen Hhex.
  destruct seg as [|a [|b [|c [|e [|? ?]]]]]; try discriminate Hlen.
  unfold table_key, match_BASE_UUID_RE.
  change (substring 4 4 _) with (String a (String b (String c (String e "")))).
  rewrite Hhex. reflexivity.
Qed.

Lemma fold_init_char_known cl : forall tbl key,
  (exists c, c ∈ cl /\ table_key (uuid c) = key) \/ is_Some (tbl !! key) ->
  is_Some (fold_left init_char cl tbl !! key).
Proof.
  induction cl as [|c0 cl IH]; intros tbl key H; simpl.
  - destruct H as [(c & Hin & _)|H]; [inversion Hin | exact H].
  - apply IH. destruct H as [(c & Hin & Hkey)|H].
    + apply elem_of_cons in Hin as [->|Hin]; [right | left; eauto].
      unfold init_char. rewrite Hkey, lookup_insert_eq. eauto.
    + right. unfold init_char.
      destruct (decide (table_key (uuid c0) = key)) as [->|Hne].
      * rewrite lookup_insert_eq. eauto.
      * rewrite lookup_insert_ne by assumption. exact H.
Qed.

Lemma fold_init_char_keys cl : forall tbl,
  (forall k c, tbl !! k = Some c -> table_key (uuid c) = k) ->
  forall k c, fold_left init_char cl tbl !! k = Some c ->
              table_key (uuid c) = k.
Proof.
  induction cl as [|c0 cl IH]; intros tbl Htbl; simpl; [exact Htbl|].
  apply IH. intros k c. unfold init_char.
  destruct (decide (table_key (uuid c0) = k)) as [<-|Hne].
  - rewrite lookup_insert_eq. intros [= <-]. reflexivity.
  - rewrite lookup_insert_ne by assumption. apply Htbl.
Qed.

Lemma find_app_last {A} (f : A -> bool) l x :
  List.find f (l ++ [x])
  = match List.find f l with
    | Some y => Some y
    | None => if f x then Some x else None
    end.
Proof.
  induction l as [|y l IH]; simpl; [reflexivity|].
  destruct (f y); [reflexivity | exact IH].
Qed.

Lemma fold_init_char_lookup cl : forall tbl k,
  fold_left init_char cl tbl !! k
  = match List.find (fun c => String.eqb (table_key (uuid c)) k) (rev cl) with
    | Some c => Some (filed c)
    | None => tbl !! k
    end.
Proof.
  induction cl as [|c0 cl IH]; intros tbl k; simpl; [reflexivity|].
  rewrite IH, find_app_last.
  destruct (List.find _ (rev cl)); [reflexivity|].
  unfold init_char. destruct (String.eqb_spec (table_key (uuid c0)) k) as [Heq|Hne].
  - rewrite <- Heq, lookup_insert_eq. reflexivity.
  - rewrite lookup_insert_ne by assumption. reflexivity.
Qed.

Lemma find_after {A} (f : A -> bool) after x before :
  Forall (fun y => f y = false) after -> f x = true ->
  List.find f (rev (before ++ x :: after)) = Some x.
Proof.
  intros Hafter Hx. rewrite rev_app_distr. simpl. rewrite <- app_assoc. simpl.
  apply Forall_rev in Hafter. induction Hafter as [|y l Hy _ IH]; simpl.
  - rewrite Hx. reflexivity.
  - rewrite Hy. exact IH.
Qed.

Lemma connected_last_filed service_list before c after k :
  table_key (uuid c) = k ->
  Forall (fun c' => table_key (uuid c') <> k) after ->
  _chars (connected service_list (before ++ c :: after)) !! k
  = Some (filed c).
Proof.
  intros Hk Hafter. unfold connected, _init. cbn [_chars].
  rewrite fold_init_char_lookup, find_after; [reflexivity| |].
  - eapply Forall_impl; [exact Hafter|]. intros c' Hc'. cbv beta in *.
    destruct (String.eqb_spec (table_key (uuid c')) k); [contradiction|].
    reflexivity.
  - apply String.eqb_eq, Hk.
Qed.

Lemma _read_answer id k d buf rest :
  normalize id = Some k -> read_script k d = Answer buf :: rest ->
  fst (_read id d) = settle_read k buf /\
  read_effect k 1 0 d (snd (_read id d)).
Proof.
  intros Hn Hs. assert (Hk : known k d).
  { unfold known. unfold read_script in Hs.
    destruct (_chars d !! k); [eauto | discriminate]. }
  rewrite (_read_known id k d Hn Hk).
  apply (readData_stalls_then_answer 0 _ k d buf rest Hs).
  unfold _REQUEST_RETRY_MAX. lia.
Qed.

Lemma _write_answer id k data wb wr d rest :
  normalize id = Some k -> createWriteBuffer k data = WriteBuffer wb ->
  write_script k d = Answer tt :: rest ->
  fst (_write id data wr d) = Resolved tt /\
  write_effect k wb wr 1 0 d (snd (_write id data wr d)).
Proof.
  intros Hn Hb Hs. assert (Hk : known k d).
  { unfold known. unfold write_script in Hs.
    destruct (_chars d !! k); [eauto | discriminate]. }
  rewrite (_write_known id k data wb wr d Hn Hk Hb).
  apply (writeData_stalls_then_answer 0 _ k wb wr d rest Hs).
  unfold _REQUEST_RETRY_MAX. lia.
Qed.

(** C8.  The table is keyed by short identifier: a characteristic whose
    uuid matches the base-UUID pattern is filed under its four-digit
    segment, every discovered characteristic is found under its key, and
    every key of the table is the key of its entry.  The key [_read] and
    [_write] look up is the identifier in lower case when it is a string
    and its hexadecimal form when it is a number, either of them in lower
    case, so that two spellings of an identifier that differ in case, and
    the number either is the hexadecimal form of, behave alike.  A
    characteristic of the base UUID, the last one discovered with its
    segment, whose first reply to a read is a buffer, is found under any
    of these spellings: the read calls its [read] once, under the segment
    as key, and settles with what the codec makes of the buffer for that
    key.  In any table, an identifier whose key holds a characteristic that
    answers a read with a buffer, or the write of the buffer the codec made
    with success, is settled by that one call. *)
Theorem C8_lookup_normalized :
  (forall seg,
      String.length seg = 4%nat -> string_forallb is_lower_hex seg = true ->
      table_key ("0c4c" +:+ seg +:+ "770046f4aa96d5e974e32a54") = seg)
  /\
  (forall service_list char_list d c,
      c ∈ char_list ->
      known (table_key (uuid c)) (_init service_list char_list d))
  /\
  (forall service_list char_list k c,
      _chars (connected service_list char_list) !! k = Some c ->
      table_key (uuid c) = k)
  /\
  (forall s,
      normalize (VStr s) = Some (toLocaleLowerCase s) /\
      toLocaleLowerCase (toLocaleLowerCase s) = toLocaleLowerCase s /\
      toLocaleLowerCase (toUpperCase s) = toLocaleLowerCase s)
  /\
  (forall n,
      normalize (VNum n) = Some (hex n) /\ toLocaleLowerCase (hex n) = hex n)
  /\
  (forall s s' d,
      toLocaleLowerCase s = toLocaleLowerCase s' ->
      _read (VStr s) d = _read (VStr s') d)
  /\
  (forall s s' data wr d,
      toLocaleLowerCase s = toLocaleLowerCase s' ->
      _write (VStr s) data wr d = _write (VStr s') data wr d)
  /\
  (forall s d, _read (VStr (toUpperCase s)) d = _read (VStr s) d)
  /\
  (forall s data wr d,
      _write (VStr (toUpperCase s)) data wr d = _write (VStr s) data wr d)
  /\
  (forall n d, _read (VNum n) d = _read (VStr (hex n)) d)
  /\
  (forall n data wr d,
      _write (VNum n) data wr d = _write (VStr (hex n)) data wr d)
  /\
  (forall service_list before c after seg id buf rest,
      uuid c = "0c4c" +:+ seg +:+ "770046f4aa96d5e974e32a54" ->
      String.length seg = 4%nat -> string_forallb is_lower_hex seg = true ->
      Forall (fun c' => table_key (uuid c') <> seg) after ->
      read_stub c = Answer buf :: rest ->
      (exists s, id = VStr s /\ toLocaleLowerCase s = seg) \/
      (exists n, id = VNum n /\ hex n = seg) ->
      fst (_read id (connected service_list (before ++ c :: after)))
      = settle_read seg buf /\
      trace (snd (_read id (connected service_list (before ++ c :: after))))
      = [EvRead seg] /\
      read_script seg
        (snd (_read id (connected service_list (before ++ c :: after))))
      = rest)
  /\
  (forall id k d buf rest,
      normalize id = Some k -> read_script k d = Answer buf :: rest ->
      fst (_read id d) = settle_read k buf /\
      trace (snd (_read id d)) = trace d ++ [EvRead k])
  /\
  (forall id k data wb wr d rest,
      normalize id = Some k -> createWriteBuffer k data = WriteBuffer wb ->
      write_script k d = Answer tt :: rest ->
      fst (_write id data wr d) = Resolved tt /\
      trace (snd (_write id data wr d)) = trace d ++ [EvWrite k wb wr]).
Proof.
  repeat apply conj.
  - exact table_key_long.
  - intros sl cl d c Hin. unfold known, _init. simpl.
    apply fold_init_char_known. left. eauto.
  - intros sl cl k c. unfold connected, _init. simpl.
    apply fold_init_char_keys. intros k' c'. rewrite lookup_empty. discriminate.
  - intros s. split; [reflexivity|].
    split; [apply toLocaleLowerCase_idem | apply toLocaleLowerCase_toUpperCase].
  - intros n. split; [reflexivity | apply hex_lower].
  - intros s s' d H. unfold _read. simpl. rewrite H. reflexivity.
  - intros s s' data wr d H. unfold _write. simpl. rewrite H. reflexivity.
  - intros s d. unfold _read. simpl.
    rewrite toLocaleLowerCase_toUpperCase. reflexivity.
  - intros s data wr d. unfold _write. simpl.
    rewrite toLocaleLowerCase_toUpperCase. reflexivity.
  - intros n d. unfold _read. simpl. rewrite hex_lower. reflexivity.
  - intros n data wr d. unfold _write. simpl. rewrite hex_lower. reflexivity.
  - intros sl before c after seg id buf rest Hu Hlen Hhex Hafter Hstub Hid.
    assert (Hn : normalize id = Some seg).
    { destruct Hid as [(s & -> & <-)|(n & -> & <-)]; reflexivity. }
    assert (Hc : _chars (connected sl (before ++ c :: after)) !! seg
                 = Some (filed c)).
    { apply connected_last_filed; [|exact Hafter].
      rewrite Hu. apply table_key_long; assumption. }
    destruct (_read_answer id seg (connected sl (before ++ c :: after)) buf rest
                Hn) as [Ho He].
    { unfold read_script. rewrite Hc. exact Hstub. }
    split; [exact Ho|]. split.
    + rewrite (re_trace _ _ _ _ _ He). reflexivity.
    + rewrite (re_script _ _ _ _ _ He). unfold read_script. rewrite Hc.
      cbn [filed read_stub]. rewrite Hstub. reflexivity.
  - intros id k d buf rest Hn Hs.
    destruct (_read_answer id k d buf rest Hn Hs) as [Ho He].
    split; [exact Ho|]. rewrite (re_trace _ _ _ _ _ He). reflexivity.
  - intros id k data wb wr d rest Hn Hb Hs.
    destruct (_write_answer id k data wb wr d rest Hn Hb Hs) as [Ho He].
    split; [exact Ho|]. rewrite (we_trace _ _ _ _ _ _ _ He). reflexivity.
Qed.

(** ** The merge of [_setValue] *)




Lemma assoc_assoc_set_ne k k' x l :
  k <> k' -> assoc k (assoc_set k' x l) = assoc k l.
Proof.
  intros Hne. induction l as [|[k0 v] l IH]; simpl.
  - destruct (String.eqb_spec k k'); congruence.
  - destruct (String.eqb_spec k' k0) as [->|Hne0]; simpl.
    + destruct (String.eqb_spec k k0); congruence.
    + destruct (String.eqb k k0); [reflexivity | exact IH].
Qed.

Lemma assoc_assoc_set_eq k x l : assoc k (assoc_set k x l) = Some x.
Proof.
  induction l as [|[k0 v] l IH]; simpl.
  - rewrite String.eqb_refl. reflexivity.
  - destruct (String.eqb_spec k k0) as [->|Hne]; simpl.
    + rewrite String.eqb_refl. reflexivity.
    + destruct (String.eqb_spec k k0); [congruence | exact IH].
Qed.






(** A request none of whose names is a key of [base] changes and counts
    nothing. *)
Lemma fold_override_unknown fields : forall todo b n,
  (forall k, k ∈ todo -> assoc k fields = None) ->
  fold_left (override_key (VObj fields)) todo (Some (b, n)) = Some (b, n).
Proof.
  induction todo as [|k todo IH]; intros b n H; cbn [fold_left]; [reflexivity|].
  unfold override_key at 2. rewrite (H k) by set_solver. apply IH. intros; apply H; set_solver.
Qed.

Lemma filter_is_write_reads calls k :
  List.filter is_write (replicate calls (EvRead k)) = [].
Proof. induction calls; simpl; auto. Qed.

Lemma _read_no_write id d :
  List.filter is_write (trace (snd (_read id d)))
  = List.filter is_write (trace d).
Proof.
  destruct (_read_effect id d) as (k & calls & stalls & _ & He).
  rewrite (re_trace _ _ _ _ _ He), List.filter_app, filter_is_write_reads.
  apply app_nil_r.
Qed.




(** C3.  A write whose merge overrode no field is rejected with
    [No parameter was specified.], and no transport write is issued for it:
    so it is for a request that is not an object with a property, which is
    turned down before the current value is even read, and so it is when the
    merge into the value read leaves [override_num] at zero. *)
Theorem C3_no_override_no_write :
  (forall char_uuid params d,
      truthy params = false \/ typeof_object params = false
      \/ own_keys params = Some [] ->
      _setValue char_uuid params d
      = (Rejected (Error "No parameter was specified."), d))
  /\
  (forall char_uuid params d res d1 p,
      _read char_uuid d = (Resolved res, d1) ->
      overrideObject params res 0 = Some (p, 0%nat) ->
      fst (_setValue char_uuid params d)
      = Rejected (Error "No parameter was specified.") /\
      List.filter is_write (trace (snd (_setValue char_uuid params d)))
      = List.filter is_write (trace d)).
Proof.
  split.
  - intros id params d H. unfold _setValue.
    destruct H as [H|[H|H]]; rewrite H; simpl;
      rewrite ?orb_true_r; reflexivity.
  - intros id params d res d1 p Hr Ho. unfold _setValue.
    destruct (negb (truthy params) || negb (typeof_object params)
              || (length (default [] (own_keys params)) =? 0)%nat);
      [split; reflexivity|].
    unfold and_then. rewrite Hr, Ho. simpl. split; [reflexivity|].
    pose proof (_read_no_write id d) as Hw. rewrite Hr in Hw. exact Hw.
Qed.


(** ** Anchoring *)

Lemma strict_eq_num_true v n : strict_eq_num v n = true <-> v = VNum n.
Proof.
  destruct v; simpl; split; try discriminate.
  - intros H. f_equal. lia.
  - intros [= ->]. lia.
Qed.

Lemma strict_eq_num_false v n : strict_eq_num v n = false <-> v <> VNum n.
Proof.
  rewrite <- strict_eq_num_true. destruct (strict_eq_num v n); split; congruence.
Qed.

(** C4.  With the latest page read as [res]: without a requested page the
    anchor is the latest page and its latest row; with a requested page that
    is not the latest one the anchor row is 12; with a requested page that
    is the latest one the anchor row is its latest row. *)
Theorem C4_anchor_resolution :
  forall d res d1,
    getLatestPage d = (Resolved res, d1) ->
    _getTargetPageAndRow None d
    = (Resolved (VObj [("page", get_prop res "page");
                       ("row", get_prop res "row");
                       ("interval", get_prop res "measurementInterval")]), d1)
    /\
    (forall page,
        get_prop res "page" <> VNum page ->
        _getTargetPageAndRow (Some page) d
        = (Resolved (VObj [("page", VNum page);
                           ("row", VNum 12);
                           ("interval", get_prop res "measurementInterval")]),
           d1))
    /\
    (forall page,
        get_prop res "page" = VNum page ->
        _getTargetPageAndRow (Some page) d
        = (Resolved (VObj [("page", VNum page);
                           ("row", get_prop res "row");
                           ("interval", get_prop res "measurementInterval")]),
           d1)).
Proof.
  intros d res d1 H. unfold _getTargetPageAndRow, and_then. rewrite H.
  repeat split.
  - intros page Hne. apply strict_eq_num_false in Hne. rewrite Hne. reflexivity.
  - intros page Heq. apply strict_eq_num_true in Heq. rewrite Heq. reflexivity.
Qed.

(** ** The recording status *)

Lemma _read_str_effect s d :
  exists calls stalls,
    (calls <= _REQUEST_RETRY_MAX)%nat /\
    read_effect (toLocaleLowerCase s) calls stalls d (snd (_read (VStr s) d)).
Proof.
  assert (Hnone : forall k, read_effect k 0 0 d d).
  { intros k. split; intros; simpl; rewrite ?app_nil_r; try tauto; lia. }
  unfold _read. simpl.
  destruct (_chars d !! toLocaleLowerCase s);
    [|destruct (inherited (toLocaleLowerCase s)); exists 0%nat, 0%nat;
      auto with lia].
  destruct (readData_bounded (_REQUEST_RETRY_MAX - 1) (toLocaleLowerCase s) d)
    as (calls & stalls & Hb & He).
  exists calls, stalls.
  split; [simpl in Hb; unfold _REQUEST_RETRY_MAX; lia | exact He].
Qed.

(** The transport calls of [getRecordingStatus]: reads of the ADV setting,
    of the time information and of the latest page. *)
Lemma getRecordingStatus_trace d :
  exists evs,
    trace (snd (getRecordingStatus d)) = trace d ++ evs /\
    forall e, e ∈ evs ->
      e = EvRead "3042" \/ e = EvRead "3031" \/ e = EvRead "3002".
Proof.
  unfold getRecordingStatus, and_then, getAdvSetting, getTime, getLatestPage,
    _readValue.
  destruct (_read_str_effect "3042" d) as (c1 & s1 & _ & E1).
  destruct (_read (VStr "3042") d) as [[adv|e] d1]; simpl in E1;
    [|exists (replicate c1 (EvRead "3042")); split; [apply E1|];
      intros ev Hev; apply elem_of_replicate in Hev; tauto].
  destruct (_read_str_effect "3031" d1) as (c2 & s2 & _ & E2).
  destruct (_read (VStr "3031") d1) as [[tm|e] d2]; simpl in E2;
    [|exists (replicate c1 (EvRead "3042") ++ replicate c2 (EvRead "3031"));
      split; [simpl; rewrite (re_trace _ _ _ _ _ E2), (re_trace _ _ _ _ _ E1);
              rewrite <- app_assoc; reflexivity|];
      intros ev Hev; apply elem_of_app in Hev as [Hev|Hev];
      apply elem_of_replicate in Hev; tauto].
  assert (H12 : trace d2 = trace d ++ (replicate c1 (EvRead "3042")
                                        ++ replicate c2 (EvRead "3031"))).
  { rewrite (re_trace _ _ _ _ _ E2), (re_trace _ _ _ _ _ E1), <- app_assoc.
    reflexivity. }
  assert (F12 : forall ev, ev ∈ replicate c1 (EvRead "3042")
                                ++ replicate c2 (EvRead "3031") ->
                ev = EvRead "3042" \/ ev = EvRead "3031" \/ ev = EvRead "3002").
  { intros ev Hev; apply elem_of_app in Hev as [Hev|Hev];
      apply elem_of_replicate in Hev; tauto. }
  destruct (if gt (get_prop tm "unixTime") 0
            then is_recording_mode (get_prop adv "beaconMode")
            else Some false) as [rec|]; [|eexists; split; [exact H12 | exact F12]].
  destruct (_read_str_effect "3002" d2) as (c3 & s3 & _ & E3).
  exists ((replicate c1 (EvRead "3042") ++ replicate c2 (EvRead "3031"))
          ++ replicate c3 (EvRead "3002")).
  split.
  - destruct (_read (VStr "3002") d2) as [[res|e] d3]; simpl in *;
      rewrite (re_trace _ _ _ _ _ E3), H12, <- app_assoc; reflexivity.
  - intros ev Hev. apply elem_of_app in Hev as [Hev|Hev]; [auto|].
    apply elem_of_replicate in Hev; tauto.
Qed.

(** C9.  When the recording status resolves with [isRecording] false,
    [getRecordedDataList] is rejected with
    [The data recording mode has not been started.] in the state the status
    query left: the transport has seen the three reads of that query and
    nothing else, so no page request, no poll of the response flag and no
    read of response data. *)
Theorem C9_not_recording_rejects :
  forall fuel params p d res d1,
    check_page_param params = inl p ->
    getRecordingStatus d = (Resolved res, d1) ->
    get_prop res "isRecording" = VBool false ->
    getRecordedDataList fuel params d
    = Some (Rejected (Error "The data recording mode has not been started."),
            d1)
    /\
    exists evs,
      trace d1 = trace d ++ evs /\
      forall e, e ∈ evs ->
        e = EvRead "3042" \/ e = EvRead "3031" \/ e = EvRead "3002".
Proof.
  intros fuel params p d res d1 Hp Hs Hrec. split.
  - unfold getRecordedDataList, and_then. rewrite Hp, Hs, Hrec. reflexivity.
  - pose proof (getRecordingStatus_trace d) as H. rewrite Hs in H. exact H.
Qed.

(** ** Requesting and awaiting a page *)

Lemma await_page_unfold p d :
  await_page p d =
  match setRequestPage
          (page_request (get_prop p "page") (get_prop p "row")) d with
  | (Rejected e, d1) => (Rejected e, d1)
  | (Resolved _, da) =>
      match getResponseFlag (elapse 200 da) with
      | (Rejected e, db) => (Rejected e, db)
      | (Resolved res, db) =>
          if strict_eq_num (get_prop res "updateFlag") 1
          then (Resolved (get_prop res "unixTime"), elapse 100 db)
          else (Rejected
                  (Error ("Failed to set the request page (updateFlag="
                          +:+ to_string (get_prop res "updateFlag") +:+ ").")),
                db)
      end
  end.
Proof.
  unfold await_page, and_then, _wait.
  destruct (setRequestPage _ d) as [[[]|e] da]; [|reflexivity].
  destruct (getResponseFlag (elapse 200 da)) as [[res|e] db]; [|reflexivity].
  destruct (strict_eq_num (get_prop res "updateFlag") 1); reflexivity.
Qed.

(** ** Draining the response data *)

Lemma getData_unfold fuel data_list d :
  getData (S fuel) data_list d =
  match getResponseData d with
  | (Resolved res, d1) =>
      if gt (get_prop res "row") 12
      then Some (Resolved data_list, elapse 10 d1)
      else getData fuel (res :: data_list) (elapse 10 d1)
  | (Rejected e, d1) => Some (Rejected e, d1)
  end.
Proof. reflexivity. Qed.

Lemma getData_sentinel d rows d1 :
  drains d rows d1 ->
  forall fuel acc res d2,
    getResponseData d1 = (Resolved res, d2) ->
    gt (get_prop res "row") 12 = true ->
    (length rows < fuel)%nat ->
    getData fuel acc d = Some (Resolved (rev rows ++ acc), elapse 10 d2).
Proof.
  induction 1 as [d|d res0 d1 rows d2 Hr Hrow _ IH];
    intros fuel acc res d3 Hlast Hgt Hfuel;
    (destruct fuel as [|fuel]; [simpl in Hfuel; lia|]); rewrite getData_unfold.
  - rewrite Hlast, Hgt. reflexivity.
  - rewrite Hr, Hrow. simpl in Hfuel.
    rewrite (IH fuel (res0 :: acc) res d3 Hlast Hgt) by lia.
    simpl. rewrite <- app_assoc. reflexivity.
Qed.

Lemma getData_failure d rows d1 :
  drains d rows d1 ->
  forall fuel acc e d2,
    getResponseData d1 = (Rejected e, d2) ->
    (length rows < fuel)%nat ->
    getData fuel acc d = Some (Rejected e, d2).
Proof.
  induction 1 as [d|d res0 d1 rows d2 Hr Hrow _ IH];
    intros fuel acc e d3 Hlast Hfuel;
    (destruct fuel as [|fuel]; [simpl in Hfuel; lia|]); rewrite getData_unfold.
  - rewrite Hlast. reflexivity.
  - rewrite Hr, Hrow. simpl in Hfuel. apply IH; [exact Hlast | lia].
Qed.

(** What a settled drain went through: rows, then either the read that
    signals the end of the page or a read that failed. *)
Lemma getData_inv fuel : forall acc d out d',
  getData fuel acc d = Some (out, d') ->
  exists rows d1,
    drains d rows d1 /\ (length rows < fuel)%nat /\
    ((exists res d2,
         getResponseData d1 = (Resolved res, d2) /\
         gt (get_prop res "row") 12 = true /\
         out = Resolved (rev rows ++ acc) /\ d' = elapse 10 d2)
     \/
     (exists e, getResponseData d1 = (Rejected e, d') /\ out = Rejected e)).
Proof.
  induction fuel as [|fuel IH]; intros acc d out d'; [discriminate|].
  rewrite getData_unfold.
  destruct (getResponseData d) as [[res|e] d1] eqn:Hr.
  - destruct (gt (get_prop res "row") 12) eqn:Hgt.
    + intros [= <- <-]. exists [], d. split; [constructor|]. split; [simpl; lia|].
      left. exists res, d1. auto.
    + intros H. apply IH in H as (rows & d2 & Hd & Hlen & Hend).
      exists (res :: rows), d2. split; [econstructor; eauto|].
      split; [simpl; lia|].
      destruct Hend as [(res' & d3 & H1 & H2 & -> & ->)|(e & H1 & ->)].
      * left. exists res', d3. repeat split; auto.
        simpl. rewrite <- app_assoc. reflexivity.
      * right. exists e. auto.
  - intros [= <- <-]. exists [], d. split; [constructor|]. split; [simpl; lia|].
    right. exists e. auto.
Qed.

Lemma readData_resolved_shrinks retries : forall k d v,
  fst (readData retries k d) = Resolved v ->
  (length (read_script k (snd (readData retries k d)))
   < length (read_script k d))%nat.
Proof.
  induction retries as [|m IH]; intros k d v; rewrite readData_unfold;
    destruct (read_script k d) as [|[|e|buf] rest] eqn:Hs; simpl;
    try discriminate; intros H;
    try (rewrite char_read_script, Hs; simpl; lia).
  - apply IH in H. rewrite elapse_read_script, char_read_script, Hs in H.
    simpl in H. lia.
  - apply IH in H. rewrite elapse_read_script, char_read_script, Hs in H.
    simpl in H. lia.
Qed.

Lemma getResponseData_shrinks d res d1 :
  getResponseData d = (Resolved res, d1) ->
  (length (read_script "3005" d1) < length (read_script "3005" d))%nat.
Proof.
  unfold getResponseData, _readValue, _read.
  change (normalize (VStr "3005")) with (Some "3005"). cbv beta iota.
  destruct (_chars d !! "3005"); intros H; [|discriminate].
  pose proof (readData_resolved_shrinks (_REQUEST_RETRY_MAX - 1) "3005" d res)
    as Hs.
  rewrite H in Hs. apply Hs. reflexivity.
Qed.

(** The drain settles: a turn of the loop that goes on has used up a reply
    of the script, and a used-up script stalls into a timeout. *)
Lemma getData_settles fuel : forall acc d,
  (length (read_script "3005" d) < fuel)%nat ->
  is_Some (getData fuel acc d).
Proof.
  induction fuel as [|fuel IH]; intros acc d Hlen; [lia|].
  rewrite getData_unfold.
  destruct (getResponseData d) as [[res|e] d1] eqn:Hr; [|eauto].
  destruct (gt (get_prop res "row") 12); [eauto|].
  apply IH. apply getResponseData_shrinks in Hr.
  rewrite elapse_read_script. lia.
Qed.

(** ** Stamping the rows *)

Lemma stamp_rows_spec l : forall t0 iv l',
  stamp_rows (VNum t0) (VNum iv) l = Some l' ->
  length l' = length l /\
  forall i row, l' !! i = Some row ->
    get_prop row "unixTime" = VNum (t0 + Z.of_nat i * iv) /\
    get_prop row "timeStamp"
    = VStr (_getTimeStampFromUnixTime (VNum (t0 + Z.of_nat i * iv))) /\
    exists row0, l !! i = Some row0 /\
      forall k, k <> "unixTime" -> k <> "timeStamp" ->
                get_prop row k = get_prop row0 k.
Proof.
  induction l as [|d rest IH]; intros t0 iv l' H.
  - injection H as <-. split; [reflexivity|]. intros i row Hi.
    rewrite lookup_nil in Hi. discriminate.
  - cbn [stamp_rows] in H. destruct d as [| | | | | |fields]; try discriminate.
    cbn [set_prop] in H. change (add (VNum t0) (VNum iv)) with (VNum (t0 + iv)) in H.
    destruct (stamp_rows (VNum (t0 + iv)) (VNum iv) rest) as [rest'|] eqn:E;
      [|discriminate].
    injection H as <-. destruct (IH _ _ _ E) as [Hlen Hrows].
    split; [simpl; lia|]. intros [|i] row Hi; simpl in Hi.
    + injection Hi as <-. replace (t0 + Z.of_nat 0 * iv) with t0 by lia.
      cbn [get_prop]. repeat split.
      * rewrite assoc_assoc_set_ne by discriminate.
        rewrite assoc_assoc_set_eq. reflexivity.
      * rewrite assoc_assoc_set_eq. reflexivity.
      * exists (VObj fields). split; [reflexivity|]. intros k H1 H2.
        cbn [get_prop]. rewrite !assoc_assoc_set_ne by assumption. reflexivity.
    + destruct (Hrows i row Hi) as (Hu & Hs & Hrow).
      replace (t0 + Z.of_nat (S i) * iv) with (t0 + iv + Z.of_nat i * iv) by lia.
      auto.
Qed.

Lemma stamp_rows_objects l : forall time interval,
  Forall (fun v => exists fields, v = VObj fields) l ->
  is_Some (stamp_rows time interval l).
Proof.
  induction l as [|d rest IH]; intros time interval H; [simpl; eauto|].
  inversion H as [|? ? [fields ->] Hrest]; subst. cbn [stamp_rows set_prop].
  destruct (IH (add time interval) interval Hrest) as [rest' ->]. eauto.
Qed.

Lemma Forall2_rev' {A B} (P : A -> B -> Prop) l k :
  Forall2 P l k -> Forall2 P (rev l) (rev k).
Proof.
  induction 1; simpl; [constructor|].
  apply Forall2_app; [assumption | repeat constructor; assumption].
Qed.

(** ** The time stamp read as a date and time of ISO 8601 *)

Lemma range_all_spec f lo n :
  range_all f lo n = true -> forall z, lo <= z < lo + Z.pos n -> f z = true.
Proof.
  unfold range_all.
  set (step := fun st : Z * bool => (fst st + 1, snd st && f (fst st))).
  assert (H : fst (Pos.iter step (lo, true) n) = lo + Z.pos n /\
              (snd (Pos.iter step (lo, true) n) = true ->
               forall z, lo <= z < lo + Z.pos n -> f z = true)).
  { induction n as [|n [IH1 IH2]] using Pos.peano_ind.
    - simpl. split; [reflexivity|]. intros Hf z Hz.
      replace z with lo by lia. exact Hf.
    - rewrite Pos.iter_succ. unfold step at 1 3. cbn [fst snd].
      rewrite IH1. split; [lia|].
      intros Hf z Hz. apply andb_true_iff in Hf as [Hs Hf].
      destruct (Z.eq_dec z (lo + Z.pos n)) as [->|Hne]; [exact Hf|].
      apply IH2; [exact Hs | lia]. }
  apply H.
Qed.

Lemma days_checked : range_all check_day (-1) 99423 = true.
Proof. vm_cast_no_check (eq_refl true). Qed.

Lemma years_checked : range_all check_year 1969 274 = true.
Proof. vm_cast_no_check (eq_refl true). Qed.

Lemma pad2_checked : range_all check_pad2 0 100 = true.
Proof. vm_cast_no_check (eq_refl true). Qed.

Lemma civil_day_number z :
  -1 <= z <= 99421 ->
  exists y m d,
    Date.civil z = (y, m, d) /\ ISO8601.day_number y m d = z /\
    ISO8601.valid_date y m d = true /\ 1969 <= y <= 2242.
Proof.
  intros Hz. pose proof (range_all_spec _ _ _ days_checked z ltac:(lia)) as H.
  unfold check_day in H. destruct (Date.civil z) as [[y m] d].
  exists y, m, d.
  apply andb_true_iff in H as [H H4]. apply andb_true_iff in H as [H H3].
  apply andb_true_iff in H as [H1 H2].
  repeat split; try assumption; lia.
Qed.

Lemma year_digits y :
  1969 <= y <= 2242 ->
  exists a b c d,
    dec y = String a (String b (String c (String d EmptyString))) /\
    ISO8601.digits4 a b c d = Some y.
Proof.
  intros Hy. pose proof (range_all_spec _ _ _ years_checked y ltac:(lia)) as H.
  unfold check_year in H.
  destruct (dec y) as [|a [|b [|c [|d [|]]]]]; try discriminate.
  destruct (ISO8601.digits4 a b c d) as [y'|] eqn:E; [|discriminate].
  apply Z.eqb_eq in H. subst y'. eauto 10.
Qed.

Lemma pad2_digits n :
  0 <= n <= 99 ->
  exists a b,
    pad2 n = String a (String b EmptyString) /\ ISO8601.digits2 a b = Some n.
Proof.
  intros Hn. pose proof (range_all_spec _ _ _ pad2_checked n ltac:(lia)) as H.
  unfold check_pad2 in H.
  destruct (pad2 n) as [|a [|b [|]]]; try discriminate.
  destruct (ISO8601.digits2 a b) as [n'|] eqn:E; [|discriminate].
  apply Z.eqb_eq in H. subst n'. eauto.
Qed.

Lemma instant_date_time y1 y2 y3 y4 m1 m2 d1 d2 h1 h2 n1 n2 s1 s2 z y m d h n s off :
  ISO8601.digits4 y1 y2 y3 y4 = Some y -> ISO8601.digits2 m1 m2 = Some m ->
  ISO8601.digits2 d1 d2 = Some d -> ISO8601.digits2 h1 h2 = Some h ->
  ISO8601.digits2 n1 n2 = Some n -> ISO8601.digits2 s1 s2 = Some s ->
  ISO8601.zone (list_ascii_of_string z) = Some off ->
  ISO8601.valid_date y m d = true -> 0 <= h < 24 -> 0 <= n < 60 -> 0 <= s < 60 ->
  ISO8601.instant
    (String y1 (String y2 (String y3 (String y4 (String "-"
     (String m1 (String m2 (String "-" (String d1 (String d2 (String "T"
     (String h1 (String h2 (String ":" (String n1 (String n2 (String ":"
     (String s1 (String s2 z)))))))))))))))))))
  = Some (ISO8601.day_number y m d * 86400 + h * 3600 + n * 60 + s - off * 60,
          off).
Proof.
  intros Hy Hm Hd Hh Hn Hs Hz Hv H1 H2 H3.
  unfold ISO8601.instant. cbn [list_ascii_of_string].
  rewrite Hy, Hm, Hd, Hh, Hn, Hs, Hz, Hv.
  replace (h <? 24) with true by (symmetry; apply Z.ltb_lt; lia).
  replace (n <? 60) with true by (symmetry; apply Z.ltb_lt; lia).
  replace (s <? 60) with true by (symmetry; apply Z.ltb_lt; lia).
  reflexivity.
Qed.

Lemma zone_of_offset tzo :
  -1440 < tzo < 1440 ->
  ISO8601.zone
    (list_ascii_of_string
       (if tzo =? 0 then "Z"
        else (if 0 <? tzo then "-" else "+")
             +:+ pad2 (Z.abs tzo / 60) +:+ ":" +:+ pad2 (Z.abs tzo mod 60)))
  = Some (- tzo).
Proof.
  intros Ht. destruct (Z.eqb_spec tzo 0) as [->|Hne]; [reflexivity|].
  destruct (pad2_digits (Z.abs tzo / 60)) as (a & b & -> & Hab).
  { split; [apply Z.div_pos; lia|].
    apply Z.lt_succ_r. apply Z.div_lt_upper_bound; lia. }
  destruct (pad2_digits (Z.abs tzo mod 60)) as (c & e & -> & Hce).
  { pose proof (Z.mod_pos_bound (Z.abs tzo) 60 ltac:(lia)). lia. }
  pose proof (Z.div_mod (Z.abs tzo) 60 ltac:(lia)) as Hdm.
  pose proof (Z.mod_pos_bound (Z.abs tzo) 60 ltac:(lia)) as Hmb.
  assert (Hh : Z.abs tzo / 60 < 24).
  { apply Z.div_lt_upper_bound; lia. }
  destruct (Z.ltb_spec 0 tzo) as [Hpos|Hneg];
    cbv [String.append]; cbn [list_ascii_of_string ISO8601.zone];
    rewrite Hab, Hce;
    replace (Z.abs tzo / 60 <? 24) with true by (symmetry; apply Z.ltb_lt; lia);
    replace (Z.abs tzo mod 60 <? 60) with true by (symmetry; apply Z.ltb_lt; lia);
    cbn; f_equal; lia.
Qed.

Lemma stamp_instant t :
  0 <= t < 2 ^ 33 -> -1440 < getTimezoneOffset (t * 1000) < 1440 ->
  ISO8601.instant (_getTimeStampFromUnixTime (VNum t))
  = Some (t, - getTimezoneOffset (t * 1000)).
Proof.
  intros Ht Hz. unfold _getTimeStampFromUnixTime. cbn [to_number].
  replace (Z.abs (t * 1000) <=? Date.max_time) with true
    by (symmetry; apply Z.leb_le; unfold Date.max_time; lia).
  set (tzo := getTimezoneOffset (t * 1000)) in *.
  set (lt := t * 1000 - tzo * 60000).
  set (L := t - 60 * tzo).
  assert (Hlt : lt = L * 1000) by (unfold lt, L; lia).
  assert (Hday : lt / Date.msPerDay = L / 86400).
  { rewrite Hlt. unfold Date.msPerDay.
    change 86400000 with (86400 * 1000). apply Z.div_mul_cancel_r; lia. }
  assert (Hmod : lt mod Date.msPerDay = (L mod 86400) * 1000).
  { rewrite Hlt. unfold Date.msPerDay.
    change 86400000 with (86400 * 1000). apply Z.mul_mod_distr_r; lia. }
  pose proof (Z.div_mod L 86400 ltac:(lia)) as HL.
  pose proof (Z.mod_pos_bound L 86400 ltac:(lia)) as Hr.
  set (r := L mod 86400) in *. set (z := L / 86400) in *.
  destruct (civil_day_number z) as (y & m & d & Hc & Hdn & Hv & Hy).
  { unfold L in HL. change (2 ^ 33) with 8589934592 in Ht. lia. }
  unfold Date.getFullYear, Date.getMonth, Date.getDate, Date.getHours,
    Date.getMinutes, Date.getSeconds.
  rewrite Hday, Hmod, Hc. cbn [fst snd].
  replace (m - 1 + 1) with m by lia.
  assert (Hm : 1 <= m <= 12 /\ 1 <= d <= 31).
  { unfold ISO8601.valid_date in Hv.
    apply andb_true_iff in Hv as [Hv Hd2]. apply andb_true_iff in Hv as [Hv Hd1].
    apply andb_true_iff in Hv as [Hm1 Hm2].
    apply Z.leb_le in Hm1, Hm2, Hd1, Hd2.
    split; [lia|]. split; [lia|].
    assert (Hml : Forall (fun x => x <= 31) (ISO8601.month_lengths y)).
    { unfold ISO8601.month_lengths.
      destruct (ISO8601.leap y); repeat (constructor; [lia|]); constructor. }
    destruct (ISO8601.month_lengths y !! Z.to_nat (m - 1)) as [x|] eqn:E;
      cbn [default] in Hd2; [|lia].
    pose proof (Forall_lookup_1 _ _ _ _ Hml E). simpl in *. lia. }
  set (h := r * 1000 / 3600000). set (n := r * 1000 / 60000 mod 60).
  set (s := r * 1000 / 1000 mod 60).
  assert (Hh : 0 <= h < 24 /\ 0 <= n < 60 /\ 0 <= s < 60 /\
               h * 3600 + n * 60 + s = r).
  { unfold h, n, s. clear -Hr.
    replace (r * 1000 / 3600000) with (r / 3600)
      by (change 3600000 with (3600 * 1000); symmetry;
          apply Z.div_mul_cancel_r; lia).
    replace (r * 1000 / 60000) with (r / 60)
      by (change 60000 with (60 * 1000); symmetry;
          apply Z.div_mul_cancel_r; lia).
    rewrite Z.div_mul by lia.
    Z.div_mod_to_equations. lia. }
  destruct Hh as (Hh & Hn & Hs & Hsum).
  destruct (year_digits y Hy) as (y1 & y2 & y3 & y4 & -> & Hyd).
  destruct (pad2_digits m ltac:(lia)) as (m1 & m2 & -> & Hmd).
  destruct (pad2_digits d ltac:(lia)) as (d1 & d2 & -> & Hdd).
  destruct (pad2_digits h ltac:(lia)) as (h1 & h2 & -> & Hhd).
  destruct (pad2_digits n ltac:(lia)) as (n1 & n2 & -> & Hnd).
  destruct (pad2_digits s ltac:(lia)) as (s1 & s2 & -> & Hsd).
  cbv [String.append].
  erewrite instant_date_time; try eassumption.
  2: { apply zone_of_offset. exact Hz. }
  f_equal. f_equal. rewrite Hdn. unfold L in HL. lia.
Qed.

(** ** A page read to its end *)

Lemma getResponseData_answer d buf rest :
  known "3005" d -> read_script "3005" d = Answer buf :: rest ->
  getResponseData d = (settle_read "3005" buf, snd (getResponseData d)) /\
  read_effect "3005" 1 0 d (snd (getResponseData d)).
Proof.
  intros Hk Hs. unfold getResponseData, _readValue.
  rewrite (_read_known (VStr "3005") "3005" d eq_refl Hk).
  destruct (readData_stalls_then_answer 0 (_REQUEST_RETRY_MAX - 1) "3005" d
              buf rest Hs) as [Ho He]; [unfold _REQUEST_RETRY_MAX; lia|].
  split; [rewrite <- Ho; apply surjective_pairing | exact He].
Qed.

Lemma drains_of_script bufs : forall rs d rest,
  known "3005" d ->
  read_script "3005" d = map Answer bufs ++ rest ->
  Forall2 row_buffer bufs rs ->
  exists d1,
    drains d (map (parseResponse "3005") bufs) d1 /\
    known "3005" d1 /\
    read_script "3005" d1 = rest /\
    trace d1 = trace d ++ replicate (length bufs) (EvRead "3005").
Proof.
  induction bufs as [|buf bufs IH]; intros rs d rest Hk Hs HF.
  - exists d. repeat split; [constructor | exact Hk | exact Hs |].
    simpl. rewrite app_nil_r. reflexivity.
  - inversion HF as [|? r ? rs' (fields & Hp & Hrow & Hle) HF']; subst.
    destruct (getResponseData_answer d buf (map Answer bufs ++ rest) Hk Hs)
      as [Hr He].
    unfold settle_read in Hr. rewrite Hp in Hr. cbn [truthy] in Hr.
    set (d1 := snd (getResponseData d)) in *.
    destruct (IH rs' (elapse 10 d1) rest) as (d2 & Hd & Hk2 & Hs2 & Ht2).
    + rewrite elapse_known. apply (re_known _ _ _ _ _ He), Hk.
    + rewrite elapse_read_script, (re_script _ _ _ _ _ He), Hs. reflexivity.
    + exact HF'.
    + exists d2. repeat split; [| exact Hk2 | exact Hs2 |].
      * simpl. rewrite Hp. econstructor; [exact Hr | | exact Hd].
        cbn [get_prop]. rewrite Hrow. simpl.
        unfold gt. simpl. apply Z.ltb_ge. exact Hle.
      * rewrite Ht2. simpl trace. rewrite (re_trace _ _ _ _ _ He).
        simpl. rewrite <- app_assoc. reflexivity.
Qed.

(** The retrieval of a page whose rows come back as [rs] and are followed
    by an index above 12. *)
Lemma retrieval_of_rows fuel p d da res db bufs rs sentinel rest t0 iv :
  setRequestPage (page_request (get_prop p "page") (get_prop p "row")) d
  = (Resolved tt, da) ->
  getResponseFlag (elapse 200 da) = (Resolved res, db) ->
  get_prop res "updateFlag" = VNum 1 ->
  get_prop res "unixTime" = VNum t0 ->
  get_prop p "interval" = VNum iv ->
  known "3005" db ->
  read_script "3005" db = map Answer bufs ++ Answer sentinel :: rest ->
  Forall2 row_buffer bufs rs ->
  truthy (parseResponse "3005" sentinel) = true ->
  gt (get_prop (parseResponse "3005" sentinel) "row") 12 = true ->
  (length bufs < fuel)%nat ->
  exists l d',
    _getRecordedDataListFromPages fuel p d = Some (Resolved l, d') /\
    length l = length rs /\
    (forall i r, rev rs !! i = Some r ->
       exists row,
         l !! i = Some row /\
         get_prop row "row" = VNum r /\
         get_prop row "unixTime" = VNum (t0 + Z.of_nat i * iv) /\
         get_prop row "timeStamp"
         = VStr (_getTimeStampFromUnixTime (VNum (t0 + Z.of_nat i * iv)))) /\
    trace d' = trace db ++ replicate (S (length bufs)) (EvRead "3005") /\
    read_script "3005" d' = rest.
Proof.
  intros Hreq Hflag Hready Htime Hiv Hk Hs HF Htruthy Hend Hfuel.
  unfold _getRecordedDataListFromPages,
    _getRecordedSensorDataListFromCurrentPage.
  rewrite await_page_unfold, Hreq, Hflag, Hready, Htime, Hiv.
  change (strict_eq_num (VNum 1) 1) with true. cbv iota.
  destruct (drains_of_script bufs rs (elapse 100 db) (Answer sentinel :: rest))
    as (d1 & Hd & Hk1 & Hs1 & Ht1); [exact Hk | exact Hs | exact HF |].
  destruct (getResponseData_answer d1 sentinel rest Hk1 Hs1) as [Hr He].
  unfold settle_read in Hr. rewrite Htruthy in Hr.
  rewrite (getData_sentinel _ _ _ Hd fuel [] _ _ Hr Hend)
    by (rewrite length_map; exact Hfuel).
  rewrite app_nil_r.
  assert (HFr : Forall2 row_buffer (rev bufs) (rev rs)) by (apply Forall2_rev', HF).
  destruct (stamp_rows_objects (rev (map (parseResponse "3005") bufs))
              (VNum t0) (VNum iv)) as [l Hl].
  { rewrite <- map_rev. apply Forall_map.
    eapply Forall2_Forall_l; [exact HFr|]. apply Forall_true.
    intros r b (fields & Hp & _). eauto. }
  rewrite Hl. eexists l, _. split; [reflexivity|].
  destruct (stamp_rows_spec _ _ _ _ Hl) as [Hlen Hrows].
  repeat split.
  - rewrite Hlen, length_rev, length_map. eapply Forall2_length, HF.
  - intros i r Hi.
    destruct (Forall2_lookup_r _ _ _ _ _ HFr Hi) as (buf & Hbi & fields & Hp & Hrow & _).
    assert (Hrow0 : rev (map (parseResponse "3005") bufs) !! i = Some (VObj fields)).
    { rewrite <- map_rev, list_lookup_fmap, Hbi. simpl. rewrite Hp. reflexivity. }
    destruct (lookup_lt_is_Some_2 l i) as [row Hrowi].
    { rewrite Hlen. eapply lookup_lt_Some, Hrow0. }
    destruct (Hrows i row Hrowi) as (Hu & Hst & row0 & H0 & Hkeep).
    exists row. repeat split; [exact Hrowi | | exact Hu | exact Hst].
    rewrite Hkeep by discriminate. rewrite Hrow0 in H0. injection H0 as <-.
    cbn [get_prop]. rewrite Hrow. reflexivity.
  - simpl trace. rewrite (re_trace _ _ _ _ _ He), Ht1. simpl trace.
    rewrite <- app_assoc. f_equal.
    change [EvRead "3005"] with (replicate 1 (EvRead "3005")).
    rewrite <- replicate_add. f_equal. lia.
  - rewrite elapse_read_script, (re_script _ _ _ _ _ He), Hs1. reflexivity.
Qed.

(** C2, as the code has it.  When the page request is written, the
    response flag reads ready with unix time [t0], and the response data
    then reads as rows 12, 11, ..., 0 followed by row index 13, the
    retrieval ends at that index and resolves with the 13 rows in ascending
    order: entry [i] is row [i], stamped [t0 + i * interval].  The transport
    has been read 14 times for response data. *)
Theorem C2_full_page_retrieval :
  forall fuel p d da res db bufs sentinel rest t0 iv,
    setRequestPage (page_request (get_prop p "page") (get_prop p "row")) d
    = (Resolved tt, da) ->
    getResponseFlag (elapse 200 da) = (Resolved res, db) ->
    get_prop res "updateFlag" = VNum 1 ->
    get_prop res "unixTime" = VNum t0 ->
    get_prop p "interval" = VNum iv ->
    known "3005" db ->
    read_script "3005" db = map Answer bufs ++ Answer sentinel :: rest ->
    Forall2 row_buffer bufs [12; 11; 10; 9; 8; 7; 6; 5; 4; 3; 2; 1; 0] ->
    truthy (parseResponse "3005" sentinel) = true ->
    get_prop (parseResponse "3005" sentinel) "row" = VNum 13 ->
    (13 < fuel)%nat ->
    exists l d',
      _getRecordedDataListFromPages fuel p d = Some (Resolved l, d') /\
      length l = 13%nat /\
      (forall i, (i < 13)%nat ->
         exists row,
           l !! i = Some row /\
           get_prop row "row" = VNum (Z.of_nat i) /\
           get_prop row "unixTime" = VNum (t0 + Z.of_nat i * iv)) /\
      trace d' = trace db ++ replicate 14 (EvRead "3005") /\
      read_script "3005" d' = rest.
Proof.
  intros fuel p d da res db bufs sentinel rest t0 iv
    Hreq Hflag Hready Htime Hiv Hk Hs HF Htruthy Hend Hfuel.
  pose proof (Forall2_length _ _ _ HF) as Hlen. simpl in Hlen.
  destruct (retrieval_of_rows fuel p d da res db bufs _ sentinel rest t0 iv
              Hreq Hflag Hready Htime Hiv Hk Hs HF Htruthy)
    as (l & d' & Hrun & Hl & Hrows & Htr & Hrest).
  { rewrite Hend. reflexivity. }
  { lia. }
  exists l, d'. rewrite Hlen in Htr. repeat split; auto.
  intros i Hi. destruct (Hrows i (Z.of_nat i)) as (row & H1 & H2 & H3 & _).
  - do 13 (destruct i as [|i]; [reflexivity|]). lia.
  - eauto.
Qed.

Lemma descending_rows_lookup k i r :
  rev (map Z.of_nat (rev (seq 0 (S k)))) !! i = Some r ->
  (i <= k)%nat /\ r = Z.of_nat i.
Proof.
  rewrite <- map_rev, rev_involutive, list_lookup_fmap.
  destruct (seq 0 (S k) !! i) as [j|] eqn:Hj; [|discriminate].
  apply lookup_seq in Hj as [-> Hlt]. intros [= <-]. split; [lia | reflexivity].
Qed.

(** C5.  A retrieval that resolved had its page request written and the
    response flag read ready; with [t0] the unix time read with that flag
    and [iv] the measurement interval, the entry at index [i] of the
    ascending list carries the unix time [t0 + i * iv] and the time stamp
    [_getTimeStampFromUnixTime] makes of that unix time.  When the rows
    read are the rows [k], [k - 1], ..., 0 of the page, the entry at index
    [i] is row [i], so each row carries [t0] plus its row number times
    [iv].  The time stamp made of a unix time [t] below [2 ^ 33], where the
    local time is less than a day off UTC, is a date and time of ISO 8601
    with a zone designator: read as such it names the instant [t] seconds
    after 1970-01-01T00:00:00Z, with the offset of the local time from UTC
    at that instant, the negation of [getTimezoneOffset]. *)
Theorem C5_row_time_stamps :
  (forall fuel p d l d' iv,
      _getRecordedDataListFromPages fuel p d = Some (Resolved l, d') ->
      get_prop p "interval" = VNum iv ->
      exists da res db,
        setRequestPage (page_request (get_prop p "page") (get_prop p "row")) d
        = (Resolved tt, da) /\
        getResponseFlag (elapse 200 da) = (Resolved res, db) /\
        get_prop res "updateFlag" = VNum 1 /\
        forall t0, get_prop res "unixTime" = VNum t0 ->
          forall i row, l !! i = Some row ->
            get_prop row "unixTime" = VNum (t0 + Z.of_nat i * iv) /\
            get_prop row "timeStamp"
            = VStr (_getTimeStampFromUnixTime (VNum (t0 + Z.of_nat i * iv))))
  /\
  (forall k fuel p d da res db bufs sentinel rest t0 iv,
      setRequestPage (page_request (get_prop p "page") (get_prop p "row")) d
      = (Resolved tt, da) ->
      getResponseFlag (elapse 200 da) = (Resolved res, db) ->
      get_prop res "updateFlag" = VNum 1 ->
      get_prop res "unixTime" = VNum t0 ->
      get_prop p "interval" = VNum iv ->
      known "3005" db ->
      read_script "3005" db = map Answer bufs ++ Answer sentinel :: rest ->
      Forall2 row_buffer bufs (map Z.of_nat (rev (seq 0 (S k)))) ->
      truthy (parseResponse "3005" sentinel) = true ->
      gt (get_prop (parseResponse "3005" sentinel) "row") 12 = true ->
      (length bufs < fuel)%nat ->
      exists l d',
        _getRecordedDataListFromPages fuel p d = Some (Resolved l, d') /\
        length l = S k /\
        forall i row, l !! i = Some row ->
          get_prop row "row" = VNum (Z.of_nat i) /\
          get_prop row "unixTime" = VNum (t0 + Z.of_nat i * iv) /\
          get_prop row "timeStamp"
          = VStr (_getTimeStampFromUnixTime (VNum (t0 + Z.of_nat i * iv))))
  /\
  (forall t,
      0 <= t < 2 ^ 33 ->
      -1440 < getTimezoneOffset (t * 1000) < 1440 ->
      ISO8601.instant (_getTimeStampFromUnixTime (VNum t))
      = Some (t, - getTimezoneOffset (t * 1000))).
Proof.
  split; [|split].
  - intros fuel p d l d' iv. unfold _getRecordedDataListFromPages.
    rewrite await_page_unfold.
    destruct (setRequestPage _ d) as [[[]|e] da] eqn:Hreq; [|discriminate].
    destruct (getResponseFlag (elapse 200 da)) as [[res|e] db] eqn:Hflag;
      [|discriminate].
    destruct (strict_eq_num (get_prop res "updateFlag") 1) eqn:Hready;
      [|discriminate].
    destruct (_getRecordedSensorDataListFromCurrentPage fuel (elapse 100 db))
      as [[[rows|e] d2]|]; try discriminate.
    destruct (stamp_rows (get_prop res "unixTime") (get_prop p "interval") rows)
      as [stamped|] eqn:Hst; [|discriminate].
    intros [= <- <-] Hiv. exists da, res, db.
    split; [reflexivity|]. split; [exact Hflag|].
    split; [apply strict_eq_num_true, Hready|].
    intros t0 Ht0 i row Hi. rewrite Ht0, Hiv in Hst.
    destruct (stamp_rows_spec _ _ _ _ Hst) as [_ Hrows].
    destruct (Hrows i row Hi) as (Hu & Hs & _). split; assumption.
  - intros k fuel p d da res db bufs sentinel rest t0 iv
      Hreq Hflag Hready Htime Hiv Hk Hs HF Htruthy Hend Hfuel.
    destruct (retrieval_of_rows fuel p d da res db bufs _ sentinel rest t0 iv
                Hreq Hflag Hready Htime Hiv Hk Hs HF Htruthy Hend Hfuel)
      as (l & d' & Hrun & Hlen & Hrows & _).
    exists l, d'. split; [exact Hrun|].
    rewrite length_map, length_rev, length_seq in Hlen. split; [exact Hlen|].
    intros i row Hi.
    destruct (lookup_lt_is_Some_2 (rev (map Z.of_nat (rev (seq 0 (S k))))) i)
      as [r Hr].
    { rewrite length_rev, length_map, length_rev, length_seq, <- Hlen.
      eapply lookup_lt_Some, Hi. }
    destruct (Hrows i r Hr) as (row' & Hi' & Hrow & Hu & Hst).
    rewrite Hi in Hi'. injection Hi' as <-.
    apply descending_rows_lookup in Hr as [_ ->]. auto.
  - intros t Ht Hz. apply stamp_instant; assumption.
Qed.

(** C7.  A failure of the page request, of the poll of the response flag
    (an error, or a flag that is not the ready code) or of a read of
    response data, however many rows were read before it, settles the
    retrieval as a rejection with that error, in the state the failure left;
    [getRecordedDataList] hands that rejection on.  A list is resolved only
    when the read that ends the page has been made, and then it holds every
    row read. *)
Theorem C7_failure_aborts :
  (forall fuel p d e d1,
      setRequestPage (page_request (get_prop p "page") (get_prop p "row")) d
      = (Rejected e, d1) ->
      _getRecordedDataListFromPages fuel p d = Some (Rejected e, d1))
  /\
  (forall fuel p d da e db,
      setRequestPage (page_request (get_prop p "page") (get_prop p "row")) d
      = (Resolved tt, da) ->
      getResponseFlag (elapse 200 da) = (Rejected e, db) ->
      _getRecordedDataListFromPages fuel p d = Some (Rejected e, db))
  /\
  (forall fuel p d da res db,
      setRequestPage (page_request (get_prop p "page") (get_prop p "row")) d
      = (Resolved tt, da) ->
      getResponseFlag (elapse 200 da) = (Resolved res, db) ->
      get_prop res "updateFlag" <> VNum 1 ->
      _getRecordedDataListFromPages fuel p d
      = Some (Rejected
                (Error ("Failed to set the request page (updateFlag="
                        +:+ to_string (get_prop res "updateFlag") +:+ ").")),
              db))
  /\
  (forall fuel p d da res db rows dc e dd,
      setRequestPage (page_request (get_prop p "page") (get_prop p "row")) d
      = (Resolved tt, da) ->
      getResponseFlag (elapse 200 da) = (Resolved res, db) ->
      get_prop res "updateFlag" = VNum 1 ->
      drains (elapse 100 db) rows dc ->
      getResponseData dc = (Rejected e, dd) ->
      (length rows < fuel)%nat ->
      _getRecordedDataListFromPages fuel p d = Some (Rejected e, dd))
  /\
  (forall fuel params p d st d0 res d1 e d2,
      check_page_param params = inl p ->
      getRecordingStatus d = (Resolved st, d0) ->
      strict_eq_bool (get_prop st "isRecording") false = false ->
      _getTargetPageAndRow p d0 = (Resolved res, d1) ->
      _getRecordedDataListFromPages fuel res d1 = Some (Rejected e, d2) ->
      getRecordedDataList fuel params d = Some (Rejected e, d2))
  /\
  (forall fuel p d l d',
      _getRecordedDataListFromPages fuel p d = Some (Resolved l, d') ->
      exists time d1 rows dc last dd,
        await_page p d = (Resolved time, d1) /\
        drains d1 rows dc /\
        getResponseData dc = (Resolved last, dd) /\
        gt (get_prop last "row") 12 = true /\
        stamp_rows time (get_prop p "interval") (rev rows) = Some l /\
        length l = length rows).
Proof.
  repeat apply conj.
  - intros fuel p d e d1 H. unfold _getRecordedDataListFromPages.
    rewrite await_page_unfold, H. reflexivity.
  - intros fuel p d da e db H1 H2. unfold _getRecordedDataListFromPages.
    rewrite await_page_unfold, H1, H2. reflexivity.
  - intros fuel p d da res db H1 H2 H3. unfold _getRecordedDataListFromPages.
    apply strict_eq_num_false in H3.
    rewrite await_page_unfold, H1, H2, H3. reflexivity.
  - intros fuel p d da res db rows dc e dd H1 H2 H3 Hd Hfail Hfuel.
    unfold _getRecordedDataListFromPages,
      _getRecordedSensorDataListFromCurrentPage.
    apply strict_eq_num_true in H3.
    rewrite await_page_unfold, H1, H2, H3.
    rewrite (getData_failure _ _ _ Hd fuel [] e dd Hfail Hfuel). reflexivity.
  - intros fuel params p d st d0 res d1 e d2 Hp Hs Hrec Ht Hrun.
    unfold getRecordedDataList, and_then. rewrite Hp, Hs, Hrec, Ht, Hrun.
    reflexivity.
  - intros fuel p d l d'. unfold _getRecordedDataListFromPages,
      _getRecordedSensorDataListFromCurrentPage.
    destruct (await_page p d) as [[time|e] d1]; [|discriminate].
    destruct (getData fuel [] d1) as [[[rows|e] d2]|] eqn:Hg; try discriminate.
    destruct (stamp_rows time (get_prop p "interval") rows) as [stamped|] eqn:Hst;
      [|discriminate].
    intros [= <- <-].
    apply getData_inv in Hg as (rs & dc & Hd & _ & Hend).
    destruct Hend as [(last & dd & Hlast & Hgt & [= ->] & _)|(e & _ & [=])].
    rewrite app_nil_r in Hst.
    exists time, d1, rs, dc, last, dd. repeat split; auto.
    clear -Hst. rewrite <- (length_rev rs).
    revert time stamped Hst. induction (rev rs) as [|r l IH]; intros time stamped.
    + intros [= <-]. reflexivity.
    + cbn [stamp_rows]. destruct (set_prop r "unixTime" time) as [r1|]; [|discriminate].
      destruct (set_prop r1 "timeStamp" _) as [r2|]; [|discriminate].
      destruct (stamp_rows (add time (get_prop p "interval")) _ l) as [l'|] eqn:E;
        [|discriminate].
      intros [= <-]. simpl. f_equal. eapply IH, E.
Qed.

(** ** The retrieval settles *)

(** With fuel beyond the replies the response data stub holds, the loop is
    never cut short: every retrieval settles, resolved or rejected. *)
Lemma _getRecordedDataListFromPages_settles p d :
  exists fuel0, forall fuel,
    (fuel0 <= fuel)%nat ->
    is_Some (_getRecordedDataListFromPages fuel p d).
Proof.
  unfold _getRecordedDataListFromPages,
    _getRecordedSensorDataListFromCurrentPage.
  destruct (await_page p d) as [[time|e] d1]; [|exists 0%nat; eauto].
  exists (S (length (read_script "3005" d1))). intros fuel Hfuel.
  destruct (getData_settles fuel [] d1) as [[[rows|e] d2] ->]; [lia| |eauto].
  destruct (stamp_rows time (get_prop p "interval") rows); eauto.
Qed.

Lemma getRecordedDataList_settles params d :
  exists fuel0, forall fuel,
    (fuel0 <= fuel)%nat -> is_Some (getRecordedDataList fuel params d).
Proof.
  unfold getRecordedDataList.
  destruct (check_page_param params) as [p|e]; [|exists 0%nat; eauto].
  match goal with
  | |- context [match ?run d with _ => _ end] =>
      destruct (run d) as [[res|e] d1]
  end; [|exists 0%nat; eauto].
  destruct (_getRecordedDataListFromPages_settles res d1) as [fuel0 H].
  exists fuel0. intros fuel Hfuel.
  destruct (H fuel Hfuel) as [[[l|e] d2] ->]; eauto.
Qed.

(** ** More on the characteristic table *)

(** X1.  After [_init], a key of the table holds the last discovered
    characteristic filed under it, or what it held before when none was;
    the entry has the uuid and the stubs of that characteristic, keeps its
    name when it has one, and otherwise takes the name [_CHAR_NAMES] gives
    its key, if that is not empty. *)
Theorem X1_init_files_last :
  (forall service_list char_list d k,
      _chars (_init service_list char_list d) !! k
      = match List.find (fun c => String.eqb (table_key (uuid c)) k)
                (rev char_list) with
        | Some c => Some (filed c)
        | None => _chars d !! k
        end)
  /\
  (forall c,
      uuid (filed c) = uuid c /\
      read_stub (filed c) = read_stub c /\
      write_stub (filed c) = write_stub c)
  /\
  (forall c n, name c = Some n -> n <> "" -> name (filed c) = Some n)
  /\
  (forall c n,
      name c = None \/ name c = Some "" ->
      _CHAR_NAMES !! table_key (uuid c) = Some n -> n <> "" ->
      name (filed c) = Some n)
  /\
  (forall c,
      name c = None \/ name c = Some "" ->
      _CHAR_NAMES !! table_key (uuid c) = None
      \/ _CHAR_NAMES !! table_key (uuid c) = Some "" ->
      name (filed c) = name c).
Proof.
  repeat apply conj.
  - intros sl cl d k. unfold _init. cbn [_chars]. apply fold_init_char_lookup.
  - intros c. repeat split.
  - intros c n Hn Hne. unfold filed, default_name. cbn [name]. rewrite Hn.
    destruct (String.eqb_spec n ""); [contradiction | reflexivity].
  - intros c n Hc Hn Hne. unfold filed, default_name. cbn [name]. rewrite Hn.
    destruct (String.eqb_spec n ""); [contradiction|].
    destruct Hc as [->| ->]; reflexivity.
  - intros c Hc Hn. unfold filed, default_name. cbn [name].
    destruct Hc as [->| ->], Hn as [->| ->]; reflexivity.
Qed.

(** ** More on the request engine *)

(** The transport calls of [_read], on the key its identifier names. *)
Lemma _read_shape id d :
  exists calls,
    (calls <= 3)%nat /\
    trace (snd (_read id d))
    = trace d ++ replicate calls (EvRead (default "" (normalize id))) /\
    (forall v, fst (_read id d) = Resolved v -> (1 <= calls)%nat) /\
    ((1 <= calls)%nat -> known (default "" (normalize id)) d).
Proof.
  unfold _read. destruct (normalize id) as [k|]; simpl.
  - destruct (_chars d !! k) as [c|] eqn:Hc.
    + destruct (readData_bounded (_REQUEST_RETRY_MAX - 1) k d)
        as (calls & stalls & Hb & He).
      exists calls. unfold _REQUEST_RETRY_MAX in Hb. simpl in Hb.
      repeat split; [lia | apply He | intros; lia | intros; exists c; exact Hc].
    + destruct (inherited k); exists 0%nat; simpl; rewrite app_nil_r;
        (repeat split; [lia | discriminate | lia]).
  - exists 0%nat. simpl. rewrite app_nil_r.
    repeat split; [lia | discriminate | lia].
Qed.

(** The transport calls of [_write]. *)
Lemma _write_shape id data wr d :
  exists buf calls,
    (calls <= 3)%nat /\
    trace (snd (_write id data wr d))
    = trace d ++ replicate calls (EvWrite (default "" (normalize id)) buf wr) /\
    (fst (_write id data wr d) = Resolved tt -> (1 <= calls)%nat) /\
    ((1 <= calls)%nat ->
     known (default "" (normalize id)) d /\
     createWriteBuffer (default "" (normalize id)) data = WriteBuffer buf).
Proof.
  unfold _write. destruct (normalize id) as [k|]; simpl.
  - destruct (_chars d !! k) as [c|] eqn:Hc.
    + destruct (createWriteBuffer k data) as [|e|buf] eqn:Hb.
      * exists [], 0%nat. simpl. rewrite app_nil_r.
        repeat split; try lia; discriminate.
      * exists [], 0%nat. simpl. rewrite app_nil_r.
        repeat split; try lia; discriminate.
      * destruct (writeData_bounded (_REQUEST_RETRY_MAX - 1) k buf wr d)
          as (calls & stalls & Hbd & He).
        exists buf, calls. unfold _REQUEST_RETRY_MAX in Hbd. simpl in Hbd.
        repeat split; [lia | apply He | intros; lia | exists c; exact Hc].
    + destruct (inherited k), (createWriteBuffer k data);
        exists [], 0%nat; simpl; rewrite app_nil_r;
        (repeat split; try lia; discriminate).
  - exists [], 0%nat. simpl. rewrite app_nil_r.
    repeat split; try lia; discriminate.
Qed.

Lemma replicate_calls_nil {A} (l : list A) calls (x : A) :
  l ++ replicate calls x = l -> calls = 0%nat.
Proof.
  intros H. rewrite <- (app_nil_r l) in H at 2. apply app_inv_head in H.
  destruct calls; [reflexivity | discriminate].
Qed.

(** X2.  [_read] and [_write] call the transport exactly when the
    identifier names an entry of the table (and, for [_write], the codec
    makes a buffer of the data).  In every other case the promise is
    rejected in the state the call found: with [Unknown characteristic] for
    an identifier that is no string or number or whose key has no entry;
    except that a key without an entry that names a member of
    [Object.prototype] passes the lookup, so that [_read] is rejected with
    the [TypeError] of calling a [read] that is not there, and [_write]
    with what the codec says of the data: its error, the missing support
    for [Write], or the [TypeError] when it made a buffer.  For an entry of
    the table, an error of the codec is the rejection of [_write], and no
    buffer at all is [The characteristic does not support `Write`.]. *)
Theorem X2_fail_fast :
  (forall id d,
      normalize id = None ->
      _read id d = (Rejected (Error "Unknown characteristic"), d) /\
      forall data wr,
        _write id data wr d = (Rejected (Error "Unknown characteristic"), d))
  /\
  (forall id k d,
      normalize id = Some k -> _chars d !! k = None -> inherited k = false ->
      _read id d = (Rejected (Error "Unknown characteristic"), d) /\
      forall data wr,
        _write id data wr d = (Rejected (Error "Unknown characteristic"), d))
  /\
  (forall id k d,
      normalize id = Some k -> _chars d !! k = None -> inherited k = true ->
      _read id d = (Rejected TypeError, d) /\
      forall data wr,
        _write id data wr d
        = (Rejected
             match createWriteBuffer k data with
             | WriteError e => e
             | WriteBuffer _ => TypeError
             | NoWriteBuffer =>
                 Error "The characteristic does not support `Write`."
             end, d))
  /\
  (forall id k data wr d e,
      normalize id = Some k -> known k d ->
      createWriteBuffer k data = WriteError e ->
      _write id data wr d = (Rejected e, d))
  /\
  (forall id k data wr d,
      normalize id = Some k -> known k d ->
      createWriteBuffer k data = NoWriteBuffer ->
      _write id data wr d
      = (Rejected (Error "The characteristic does not support `Write`."), d))
  /\
  (forall id d,
      trace (snd (_read id d)) = trace d <->
      ~ exists k, normalize id = Some k /\ known k d)
  /\
  (forall id data wr d,
      trace (snd (_write id data wr d)) = trace d <->
      ~ exists k buf,
          normalize id = Some k /\ known k d /\
          createWriteBuffer k data = WriteBuffer buf).
Proof.
  repeat apply conj.
  - intros id d Hn. unfold _read, _write. rewrite Hn.
    split; [reflexivity | intros; reflexivity].
  - intros id k d Hn Hk Hi. unfold _read, _write. rewrite Hn, Hk, Hi.
    split; [reflexivity | intros; reflexivity].
  - intros id k d Hn Hk Hi. unfold _read, _write. rewrite Hn, Hk, Hi.
    split; [reflexivity|]. intros data wr.
    destruct (createWriteBuffer k data); reflexivity.
  - intros id k data wr d e Hn [c Hc] Hb. unfold _write.
    rewrite Hn, Hc, Hb. reflexivity.
  - intros id k data wr d Hn [c Hc] Hb. unfold _write.
    rewrite Hn, Hc, Hb. reflexivity.
  - intros id d. split.
    + intros Ht (k & Hn & Hk). rewrite (_read_known id k d Hn Hk) in Ht.
      destruct (readData_bounded (_REQUEST_RETRY_MAX - 1) k d)
        as (calls & stalls & Hc & He).
      rewrite (re_trace _ _ _ _ _ He) in Ht.
      apply replicate_calls_nil in Ht. lia.
    + intros Hno. unfold _read.
      destruct (normalize id) as [k|]; [|reflexivity].
      destruct (_chars d !! k) as [c|] eqn:Hc.
      * contradiction Hno. exists k. split; [reflexivity | exists c; exact Hc].
      * destruct (inherited k); reflexivity.
  - intros id data wr d. split.
    + intros Ht (k & buf & Hn & Hk & Hb).
      rewrite (_write_known id k data buf wr d Hn Hk Hb) in Ht.
      destruct (writeData_bounded (_REQUEST_RETRY_MAX - 1) k buf wr d)
        as (calls & stalls & Hc & He).
      rewrite (we_trace _ _ _ _ _ _ _ He) in Ht.
      apply replicate_calls_nil in Ht. lia.
    + intros Hno. unfold _write.
      destruct (normalize id) as [k|]; [|reflexivity].
      destruct (_chars d !! k) as [c|] eqn:Hc.
      * destruct (createWriteBuffer k data) as [|e|buf] eqn:Hb;
          try reflexivity.
        contradiction Hno. exists k, buf.
        split; [reflexivity|]. split; [exists c; exact Hc | exact Hb].
      * destruct (inherited k), (createWriteBuffer k data); reflexivity.
Qed.

(** X3.  An answer the codec cannot decode is not asked for again: after
    [j < 3] stalled calls, a buffer that [parseResponse] turns into a falsy
    value rejects the read with [Unknown Response Data] after [j + 1] calls,
    and the replies the stub still held stay unasked. *)
Theorem X3_undecodable_answer :
  forall id k d j buf rest,
    normalize id = Some k -> known k d ->
    read_script k d = replicate j Stall ++ Answer buf :: rest ->
    (j < _REQUEST_RETRY_MAX)%nat ->
    truthy (parseResponse k buf) = false ->
    fst (_read id d) = Rejected (Error "Unknown Response Data") /\
    trace (snd (_read id d)) = trace d ++ replicate (j + 1) (EvRead k) /\
    read_script k (snd (_read id d)) = rest.
Proof.
  intros id k d j buf rest Hn Hk Hs Hj Ht.
  rewrite (_read_known id k d Hn Hk).
  destruct (readData_stalls_then_answer j (_REQUEST_RETRY_MAX - 1) k d buf rest Hs)
    as [Ho He]; [unfold _REQUEST_RETRY_MAX in *; lia|].
  rewrite Ho. unfold settle_read. rewrite Ht.
  replace (j + 1)%nat with (S j) by lia.
  repeat split; [apply He|].
  rewrite (re_script _ _ _ _ _ He), Hs. apply drop_past_stalls.
Qed.

(** X4.  Of a transport each call of which calls back while the timer of
    its attempt is running, or never (the replies of [reply]), and whatever
    the request and the script of replies, [_setValue] reads before it
    writes and keeps to one characteristic: its transport calls are at most
    three reads of the characteristic followed by at most three writes to
    it, all with response and with the same buffer; it resolves only after
    at least one read and one write.  A call that calls back after its
    timer ran out is no reply of this transport. *)
Theorem X4_setValue_calls :
  forall char_uuid params d,
    exists k buf reads writes,
      (reads <= 3)%nat /\ (writes <= 3)%nat /\
      trace (snd (_setValue char_uuid params d))
      = trace d ++ replicate reads (EvRead k)
                ++ replicate writes (EvWrite k buf false) /\
      (fst (_setValue char_uuid params d) = Resolved tt ->
       (1 <= reads)%nat /\ (1 <= writes)%nat).
Proof.
  intros id params d. unfold _setValue.
  destruct (negb (truthy params) || negb (typeof_object params)
            || (length (default [] (own_keys params)) =? 0)%nat).
  { exists "", [], 0%nat, 0%nat. simpl. rewrite app_nil_r.
    repeat split; try lia; discriminate. }
  unfold and_then.
  destruct (_read_shape id d) as (reads & Hr & Htr & Hres & _).
  destruct (_read id d) as [[res|e] d1] eqn:Hread; simpl in *.
  - destruct (overrideObject params res 0) as [[p n]|].
    + destruct (n =? 0)%nat.
      * exists (default "" (normalize id)), [], reads, 0%nat. simpl.
        rewrite app_nil_r. repeat split; try lia; try discriminate. exact Htr.
      * destruct (_write_shape id p false d1) as (buf & writes & Hw & Htw & Hwres & _).
        exists (default "" (normalize id)), buf, reads, writes.
        repeat split; try lia.
        -- rewrite Htw, Htr, <- app_assoc. reflexivity.
        -- eapply Hres. reflexivity.
        -- apply Hwres. destruct (_write id p false d1) as [[[]|?] ?];
             [reflexivity | discriminate].
    + exists (default "" (normalize id)), [], reads, 0%nat. simpl.
      rewrite app_nil_r. repeat split; try lia; try discriminate. exact Htr.
  - exists (default "" (normalize id)), [], reads, 0%nat. simpl.
    rewrite app_nil_r. repeat split; try lia; try discriminate. exact Htr.
Qed.

(** ** The merge of a flat request *)










(** ** Decimal rendering *)

Lemma to_int_not_nil z :
  Z.to_int z <> Decimal.Pos Decimal.Nil /\ Z.to_int z <> Decimal.Neg Decimal.Nil.
Proof.
  assert (Hn : Z.to_int z = Decimal.norm (Z.to_int z)).
  { rewrite <- DecimalZ.to_of, DecimalZ.of_to. reflexivity. }
  rewrite Hn. destruct (Z.to_int z) as [u|u]; simpl.
  - split; [|discriminate]. intros [= Hu]. exact (DecimalFacts.unorm_nonnil u Hu).
  - destruct (Decimal.nzhead u); split; discriminate.
Qed.

Lemma dec_inj a b : dec a = dec b -> a = b.
Proof.
  unfold dec. intros H. apply DecimalZ.to_int_inj.
  destruct (to_int_not_nil a) as [Ha1 Ha2], (to_int_not_nil b) as [Hb1 Hb2].
  pose proof (DecimalString.NilZero.isi _ Ha1 Ha2) as Ha.
  pose proof (DecimalString.NilZero.isi _ Hb1 Hb2) as Hb.
  rewrite H in Ha. congruence.
Qed.

Lemma dec_eqb a b : String.eqb (dec a) (dec b) = (a =? b).
Proof.
  destruct (String.eqb_spec (dec a) (dec b)) as [H|H], (Z.eqb_spec a b) as [E|E];
    try reflexivity.
  - contradiction E. apply dec_inj, H.
  - contradiction H. rewrite E. reflexivity.
Qed.

Lemma is_recording_mode_num m :
  is_recording_mode (VNum m) = Some (recording_mode m).
Proof.
  unfold is_recording_mode, recording_mode. cbn [to_string].
  change "0" with (dec 0). change "1" with (dec 1).
  change "7" with (dec 7). change "8" with (dec 8).
  rewrite !dec_eqb. reflexivity.
Qed.

(** ** The recording status *)

Lemma _read_resolved id d v d' :
  _read id d = (Resolved v, d') ->
  exists k,
    normalize id = Some k /\ known k d /\
    forall k', known k' d' <-> known k' d.
Proof.
  unfold _read. destruct (normalize id) as [k|]; [|discriminate].
  destruct (_chars d !! k) as [c|] eqn:Hc;
    [|destruct (inherited k); discriminate].
  intros H. exists k. split; [reflexivity|]. split; [exists c; exact Hc|].
  destruct (readData_bounded (_REQUEST_RETRY_MAX - 1) k d) as (? & ? & _ & He).
  rewrite H in He. apply (re_known _ _ _ _ _ He).
Qed.

Lemma getRecordingStatus_inv d res d' :
  getRecordingStatus d = (Resolved res, d') ->
  exists adv d1 tm d2 pg rec,
    getAdvSetting d = (Resolved adv, d1) /\
    getTime d1 = (Resolved tm, d2) /\
    getLatestPage d2 = (Resolved pg, d') /\
    (if gt (get_prop tm "unixTime") 0
     then is_recording_mode (get_prop adv "beaconMode")
     else Some false) = Some rec /\
    res = VObj [
      ("beaconMode", get_prop adv "beaconMode");
      ("isRecording", VBool rec);
      ("page", get_prop pg "page");
      ("row", get_prop pg "row");
      ("measurementInterval", get_prop pg "measurementInterval");
      ("unixTime", get_prop pg "unixTime")].
Proof.
  unfold getRecordingStatus, and_then.
  destruct (getAdvSetting d) as [[adv|e] d1] eqn:H1; [|discriminate].
  destruct (getTime d1) as [[tm|e] d2] eqn:H2; [|discriminate].
  destruct (if gt (get_prop tm "unixTime") 0
            then is_recording_mode (get_prop adv "beaconMode")
            else Some false) as [rec|] eqn:Hrec; [|discriminate].
  destruct (getLatestPage d2) as [[pg|e] d3] eqn:H3; [|discriminate].
  intros [= <- <-]. exists adv, d1, tm, d2, pg, rec. auto 10.
Qed.

Lemma getRecordingStatus_known d res d' :
  getRecordingStatus d = (Resolved res, d') ->
  known "3042" d' /\ known "3031" d'.
Proof.
  intros H. apply getRecordingStatus_inv in H
    as (adv & d1 & tm & d2 & pg & rec & H1 & H2 & H3 & _).
  apply _read_resolved in H1 as (k1 & [= <-] & K1 & P1).
  apply _read_resolved in H2 as (k2 & [= <-] & K2 & P2).
  apply _read_resolved in H3 as (k3 & _ & _ & P3).
  split.
  - apply P3, P2, P1, K1.
  - apply P3, P2, K2.
Qed.

(** X7.  What [isRecording] means.  A status that resolves carries the
    beacon mode read from the ADV setting; for a mode that is a number,
    [isRecording] is true exactly when the clock of the sensor reads more
    than 0 and the mode is 0, 1, 7 or 8.  A clock at 0 or below gives false
    whatever the mode, [undefined] included; with a running clock, a mode
    that is [undefined] or [null] rejects the status with a [TypeError]
    before the latest page is read. *)
Theorem X7_recording_flag :
  (forall d res d',
      getRecordingStatus d = (Resolved res, d') ->
      exists adv tm,
        fst (getAdvSetting d) = Resolved adv /\
        fst (getTime (snd (getAdvSetting d))) = Resolved tm /\
        get_prop res "beaconMode" = get_prop adv "beaconMode" /\
        (gt (get_prop tm "unixTime") 0 = false ->
         get_prop res "isRecording" = VBool false) /\
        (forall m, get_prop adv "beaconMode" = VNum m ->
           get_prop res "isRecording"
           = VBool (gt (get_prop tm "unixTime") 0 && recording_mode m)))
  /\
  (forall d adv d1 tm d2,
      getAdvSetting d = (Resolved adv, d1) ->
      getTime d1 = (Resolved tm, d2) ->
      gt (get_prop tm "unixTime") 0 = true ->
      get_prop adv "beaconMode" = VUndefined \/
      get_prop adv "beaconMode" = VNull ->
      getRecordingStatus d = (Rejected TypeError, d2)).
Proof.
  split.
  - intros d res d' H. apply getRecordingStatus_inv in H
      as (adv & d1 & tm & d2 & pg & rec & H1 & H2 & H3 & Hrec & ->).
    exists adv, tm. rewrite H1. cbn [fst snd]. rewrite H2.
    repeat split.
    + intros Hgt. rewrite Hgt in Hrec. injection Hrec as <-. reflexivity.
    + intros m Hm. rewrite Hm, is_recording_mode_num in Hrec.
      destruct (gt (get_prop tm "unixTime") 0); injection Hrec as <-;
        reflexivity.
  - intros d adv d1 tm d2 H1 H2 Hgt Hm.
    unfold getRecordingStatus, and_then. rewrite H1, H2, Hgt.
    destruct Hm as [-> | ->]; reflexivity.
Qed.


(** ** Starting and stopping the recording *)

Lemma ceil_seconds_spec x :
  1000 * (ceil_seconds x - 1) < x <= 1000 * ceil_seconds x.
Proof.
  unfold ceil_seconds.
  pose proof (Z.div_mod (- x) 1000 ltac:(lia)).
  pose proof (Z.mod_pos_bound (- x) 1000 ltac:(lia)).
  lia.
Qed.

Lemma _write_known_shape id k data wb wr d :
  normalize id = Some k -> known k d ->
  createWriteBuffer k data = WriteBuffer wb ->
  exists calls,
    (1 <= calls <= 3)%nat /\
    trace (snd (_write id data wr d))
    = trace d ++ replicate calls (EvWrite k wb wr).
Proof.
  intros Hn Hk Hb. rewrite (_write_known id k data wb wr d Hn Hk Hb).
  destruct (writeData_bounded (_REQUEST_RETRY_MAX - 1) k wb wr d)
    as (calls & stalls & Hc & He).
  exists calls. unfold _REQUEST_RETRY_MAX in Hc. simpl in Hc.
  split; [lia | apply He].
Qed.





(** X8.  [startRecording] on a sensor that is recording resolves, and
    still sets the clock of the sensor: after the status query it hands the
    host clock, in whole seconds rounded up, to the codec for the time
    information and, when the codec encodes it, writes it (at most three
    calls).  The promise is resolved whatever becomes of that write. *)
Theorem X8_startRecording_again :
  forall Date_now d res d1,
    getRecordingStatus d = (Resolved res, d1) ->
    get_prop res "isRecording" = VBool true ->
    fst (startRecording Date_now d) = Resolved tt /\
    exists t,
      1000 * (t - 1) < Date_now d1 <= 1000 * t /\
      snd (startRecording Date_now d)
      = snd (_write (VStr "3031") (VObj [("unixTime", VNum t)]) false d1) /\
      forall wb,
        createWriteBuffer "3031" (VObj [("unixTime", VNum t)])
        = WriteBuffer wb ->
        exists calls,
          (1 <= calls <= 3)%nat /\
          trace (snd (startRecording Date_now d))
          = trace d1 ++ replicate calls (EvWrite "3031" wb false).
Proof.
  intros Date_now d res d1 Hs Hrec.
  unfold startRecording. rewrite Hs, Hrec. cbn [strict_eq_bool Bool.eqb fst snd].
  split; [reflexivity|].
  exists (ceil_seconds (Date_now d1)).
  split; [apply ceil_seconds_spec|]. split; [reflexivity|].
  intros wb Hwb. unfold setTime_now.
  apply (_write_known_shape (VStr "3031") "3031"); [reflexivity | | exact Hwb].
  apply (getRecordingStatus_known d res d1 Hs).
Qed.

(** X9.  [startRecording] on a sensor that is not recording asks for a
    recording mode: the beacon mode the status reports when that is 0, 1, 7
    or 8, and 8 for any other number.  It sets the clock only after the ADV
    setting took the mode; a rejection of [setAdvSetting] is the rejection
    of [startRecording] and leaves the clock as it was. *)
Theorem X9_startRecording_mode :
  forall Date_now d res d1 m,
    getRecordingStatus d = (Resolved res, d1) ->
    get_prop res "isRecording" = VBool false ->
    get_prop res "beaconMode" = VNum m ->
    exists m',
      recording_mode m' = true /\
      (recording_mode m = true -> m' = m) /\
      (recording_mode m = false -> m' = 8) /\
      startRecording Date_now d
      = (let* _ := setAdvSetting (VObj [("beaconMode", VNum m')]) in
         setTime_now Date_now) d1 /\
      forall e d2,
        setAdvSetting (VObj [("beaconMode", VNum m')]) d1 = (Rejected e, d2) ->
        startRecording Date_now d = (Rejected e, d2).
Proof.
  intros Date_now d res d1 m Hs Hrec Hm.
  assert (Hstart : startRecording Date_now d
          = (let* _ := setAdvSetting
                         (VObj [("beaconMode",
                                 VNum (if recording_mode m then m else 8))]) in
             setTime_now Date_now) d1).
  { unfold startRecording. rewrite Hs, Hrec, Hm, is_recording_mode_num.
    cbn [strict_eq_bool Bool.eqb]. destruct (recording_mode m); reflexivity. }
  exists (if recording_mode m then m else 8).
  destruct (recording_mode m) eqn:Hmode.
  - repeat split; try congruence.
    intros e d2 He. rewrite Hstart. unfold and_then. rewrite He. reflexivity.
  - repeat split; try congruence.
    intros e d2 He. rewrite Hstart. unfold and_then. rewrite He. reflexivity.
Qed.




(** ** Device information *)

Lemma _read_lit_shape s d :
  toLocaleLowerCase s = s ->
  exists calls,
    (calls <= 3)%nat /\
    trace (snd (_read (VStr s) d)) = trace d ++ replicate calls (EvRead s) /\
    (forall v, fst (_read (VStr s) d) = Resolved v -> (1 <= calls)%nat).
Proof.
  intros Hs. destruct (_read_shape (VStr s) d) as (calls & H1 & H2 & H3 & _).
  cbn [normalize default] in H2. rewrite Hs in H2. eauto.
Qed.

(** X12.  [getDeviceInfo] only reads, and in a fixed order: device name,
    model number, serial number, firmware revision, hardware revision,
    manufacturer name, each at most three times and none before the one
    ahead of it was read.  It resolves only after all six were read, with
    an object of exactly these six properties. *)
Theorem X12_getDeviceInfo_reads :
  forall d,
    exists n1 n2 n3 n4 n5 n6,
      trace (snd (getDeviceInfo d))
      = trace d ++ replicate n1 (EvRead "2a00") ++ replicate n2 (EvRead "2a24")
                ++ replicate n3 (EvRead "2a25") ++ replicate n4 (EvRead "2a26")
                ++ replicate n5 (EvRead "2a27") ++ replicate n6 (EvRead "2a29") /\
      Forall (fun n => (n <= 3)%nat) [n1; n2; n3; n4; n5; n6] /\
      ((1 <= n2 -> 1 <= n1) /\ (1 <= n3 -> 1 <= n2) /\ (1 <= n4 -> 1 <= n3) /\
       (1 <= n5 -> 1 <= n4) /\ (1 <= n6 -> 1 <= n5))%nat /\
      forall v, fst (getDeviceInfo d) = Resolved v ->
        Forall (fun n => (1 <= n)%nat) [n1; n2; n3; n4; n5; n6] /\
        own_keys v = Some ["deviceName"; "modelNumber"; "serialNumber";
                           "firmwareRevision"; "hardwareRevision";
                           "manufacturerName"].
Proof.
  intros d. unfold getDeviceInfo, and_then.
  destruct (_read_lit_shape "2a00" d eq_refl) as (n1 & L1 & T1 & R1).
  destruct (_read (VStr "2a00") d) as [[r1|e1] d1]; cbn [fst snd] in *.
  2: { exists n1, 0%nat, 0%nat, 0%nat, 0%nat, 0%nat. cbn [replicate].
       rewrite ?app_nil_r. split; [exact T1|].
       split; [repeat (constructor; [lia|]); constructor|]. split; [lia | discriminate]. }
  pose proof (R1 _ eq_refl) as P1.
  destruct (_read_lit_shape "2a24" d1 eq_refl) as (n2 & L2 & T2 & R2).
  rewrite T1, <- ?app_assoc in T2.
  destruct (_read (VStr "2a24") d1) as [[r2|e2] d2]; cbn [fst snd] in *.
  2: { exists n1, n2, 0%nat, 0%nat, 0%nat, 0%nat. cbn [replicate].
       rewrite ?app_nil_r. split; [exact T2|].
       split; [repeat (constructor; [lia|]); constructor|]. split; [lia | discriminate]. }
  pose proof (R2 _ eq_refl) as P2.
  destruct (_read_lit_shape "2a25" d2 eq_refl) as (n3 & L3 & T3 & R3).
  rewrite T2, <- ?app_assoc in T3.
  destruct (_read (VStr "2a25") d2) as [[r3|e3] d3]; cbn [fst snd] in *.
  2: { exists n1, n2, n3, 0%nat, 0%nat, 0%nat. cbn [replicate].
       rewrite ?app_nil_r. split; [exact T3|].
       split; [repeat (constructor; [lia|]); constructor|]. split; [lia | discriminate]. }
  pose proof (R3 _ eq_refl) as P3.
  destruct (_read_lit_shape "2a26" d3 eq_refl) as (n4 & L4 & T4 & R4).
  rewrite T3, <- ?app_assoc in T4.
  destruct (_read (VStr "2a26") d3) as [[r4|e4] d4]; cbn [fst snd] in *.
  2: { exists n1, n2, n3, n4, 0%nat, 0%nat. cbn [replicate].
       rewrite ?app_nil_r. split; [exact T4|].
       split; [repeat (constructor; [lia|]); constructor|]. split; [lia | discriminate]. }
  pose proof (R4 _ eq_refl) as P4.
  destruct (_read_lit_shape "2a27" d4 eq_refl) as (n5 & L5 & T5 & R5).
  rewrite T4, <- ?app_assoc in T5.
  destruct (_read (VStr "2a27") d4) as [[r5|e5] d5]; cbn [fst snd] in *.
  2: { exists n1, n2, n3, n4, n5, 0%nat. cbn [replicate].
       rewrite ?app_nil_r. split; [exact T5|].
       split; [repeat (constructor; [lia|]); constructor|]. split; [lia | discriminate]. }
  pose proof (R5 _ eq_refl) as P5.
  destruct (_read_lit_shape "2a29" d5 eq_refl) as (n6 & L6 & T6 & R6).
  rewrite T5, <- ?app_assoc in T6.
  exists n1, n2, n3, n4, n5, n6.
  destruct (_read (VStr "2a29") d5) as [[r6|e6] d6]; cbn [fst snd] in *.
  - split; [exact T6|]. split; [repeat (constructor; [lia|]); constructor|]. split; [lia|].
    intros v [= <-]. pose proof (R6 _ eq_refl).
    split; [repeat (constructor; [lia|]); constructor | reflexivity].
  - split; [exact T6|]. split; [repeat (constructor; [lia|]); constructor|].
    split; [lia | discriminate].
Qed.

(** ** The page argument of the retrieval *)

(** X13.  [getRecordedDataList] looks at its argument before it calls the
    transport: a [page] that is no number, or a number below 0 or above
    2047, is rejected in the state the call found.  An argument that is no
    object, or an object without a [page], is the same as no argument. *)
Theorem X13_page_checked_first :
  (forall fuel fields v d,
      assoc "page" fields = Some v ->
      (forall n, v = VNum n -> n < 0 \/ 2047 < n) ->
      getRecordedDataList fuel (VObj fields) d
      = Some (Rejected
                (Error "The page must be an integer in the range of 0 to 2047."),
              d))
  /\
  (forall fuel params d,
      (forall fields, params = VObj fields -> assoc "page" fields = None) ->
      getRecordedDataList fuel params d
      = getRecordedDataList fuel VUndefined d)
  /\
  (forall fields n,
      assoc "page" fields = Some (VNum n) -> 0 <= n <= 2047 ->
      check_page_param (VObj fields) = inl (Some n)).
Proof.
  repeat apply conj.
  - intros fuel fields v d Hv Hbad. unfold getRecordedDataList, check_page_param.
    rewrite Hv. destruct v as [| |b|n| |s|f]; try reflexivity.
    destruct (Hbad n eq_refl) as [H|H].
    + replace (n <? 0) with true by (symmetry; apply Z.ltb_lt; exact H).
      reflexivity.
    + replace (2047 <? n) with true by (symmetry; apply Z.ltb_lt; exact H).
      rewrite orb_true_r. reflexivity.
  - intros fuel params d Hp. unfold getRecordedDataList, check_page_param.
    destruct params as [| |b|n| |s|fields]; try reflexivity.
    rewrite (Hp fields eq_refl). reflexivity.
  - intros fields n Hn Hr. unfold check_page_param. rewrite Hn.
    replace (n <? 0) with false by (symmetry; apply Z.ltb_ge; lia).
    replace (2047 <? n) with false by (symmetry; apply Z.ltb_ge; lia).
    reflexivity.
Qed.

(** ** Basic configurations *)

Lemma getBasicConfigurations_no_write d :
  List.filter is_write (trace (snd (getBasicConfigurations d)))
  = List.filter is_write (trace d).
Proof.
  unfold getBasicConfigurations, and_then, getMeasurementInterval,
    getAdvSetting, getUuid, _readValue, resolve.
  pose proof (_read_no_write (VStr "3011") d) as H1.
  destruct (_read (VStr "3011") d) as [[r1|e] d1]; cbn [snd] in *;
    [|exact H1].
  pose proof (_read_no_write (VStr "3042") d1) as H2.
  destruct (_read (VStr "3042") d1) as [[r2|e] d2]; cbn [snd] in *;
    [|congruence].
  pose proof (_read_no_write (VStr "3041") d2) as H3.
  destruct (_read (VStr "3041") d2) as [[r3|e] d3]; cbn [snd] in *;
    congruence.
Qed.

(** X14.  [setBasicConfigurations] reads the three settings first and
    looks at four properties of its argument only: arguments that agree on
    [measurementInterval], [beaconMode], [txPowerLevel] and [uuid] do the
    same.  An argument that is no object is rejected with a [TypeError] once
    the settings are read, and nothing is written.  An object naming none
    of the four is not rejected: each setting is set to the value just
    read. *)
Theorem X14_setBasicConfigurations_params :
  (forall f1 f2 d,
      (forall k,
          k ∈ ["measurementInterval"; "beaconMode"; "txPowerLevel"; "uuid"] ->
          assoc k f1 = assoc k f2) ->
      setBasicConfigurations (VObj f1) d = setBasicConfigurations (VObj f2) d)
  /\
  (forall params d,
      (forall fields, params <> VObj fields) ->
      List.filter is_write (trace (snd (setBasicConfigurations params d)))
      = List.filter is_write (trace d) /\
      forall res d1,
        getBasicConfigurations d = (Resolved res, d1) ->
        setBasicConfigurations params d = (Rejected TypeError, d1))
  /\
  (forall fields d res d1,
      (forall k,
          k ∈ ["measurementInterval"; "beaconMode"; "txPowerLevel"; "uuid"] ->
          assoc k fields = None) ->
      getBasicConfigurations d = (Resolved res, d1) ->
      setBasicConfigurations (VObj fields) d
      = (let* _ := setMeasurementInterval
                     (VObj [("measurementInterval",
                             get_prop res "measurementInterval")]) in
         let* _ := setUuid (VObj [("uuid", get_prop res "uuid")]) in
         setAdvSetting
           (VObj [("beaconMode", get_prop res "beaconMode");
                  ("txPowerLevel", get_prop res "txPowerLevel")])) d1).
Proof.
  repeat apply conj.
  - intros f1 f2 d H. unfold setBasicConfigurations, and_then, pick.
    rewrite !H by (repeat constructor). reflexivity.
  - intros params d Hp.
    pose proof (getBasicConfigurations_no_write d) as Hnw.
    unfold setBasicConfigurations, and_then.
    destruct (getBasicConfigurations d) as [[res|e] d1]; cbn [snd] in Hnw.
    + assert (Hpick : forall k, pick params res k = None).
      { intros k. unfold pick. destruct params; try reflexivity.
        contradiction (Hp fields). reflexivity. }
      rewrite !Hpick. split; [exact Hnw|]. intros ? ? [= <- <-]. reflexivity.
    + split; [exact Hnw | discriminate].
  - intros fields d res d1 H Hg. unfold setBasicConfigurations, and_then, pick.
    rewrite Hg, !H by (repeat constructor). reflexivity.
Qed.

(** ** Writes without a read *)

Lemma filter_reads_writes calls k buf wr :
  List.filter (fun e => negb (is_write e)) (replicate calls (EvWrite k buf wr))
  = [].
Proof. induction calls; simpl; auto. Qed.

Lemma _write_no_read id data wr d :
  List.filter (fun e => negb (is_write e)) (trace (snd (_write id data wr d)))
  = List.filter (fun e => negb (is_write e)) (trace d).
Proof.
  destruct (_write_shape id data wr d) as (buf & calls & _ & Ht & _).
  rewrite Ht, List.filter_app, filter_reads_writes. apply app_nil_r.
Qed.

(** X15.  [setTime], [turnOnLed] and [resetErrorStatus] write without
    reading.  [setTime] throws a [TypeError] at the call exactly for an
    argument that is truthy and no object; a [unixTime] property is handed
    to the codec as it is, and without one the host clock is, in whole
    seconds rounded up.  [turnOnLed] asks for 3 seconds unless its argument
    is an object with a [duration]. *)
Theorem X15_direct_writes :
  (forall Date_now params,
      setTime Date_now params = None <->
      truthy params = true /\ typeof_object params = false)
  /\
  (forall Date_now fields t,
      assoc "unixTime" fields = Some t ->
      setTime Date_now (VObj fields)
      = Some (_write (VStr "3031") (VObj [("unixTime", t)]) false))
  /\
  (forall Date_now params p d,
      setTime Date_now params = Some p ->
      (forall fields, params = VObj fields ->
                      assoc "unixTime" fields = None) ->
      exists t,
        1000 * (t - 1) < Date_now d <= 1000 * t /\
        p d = _write (VStr "3031") (VObj [("unixTime", VNum t)]) false d)
  /\
  (forall params,
      (forall fields, params = VObj fields ->
                      assoc "duration" fields = None) ->
      turnOnLed params
      = _write (VStr "3032") (VObj [("duration", VNum 3)]) false)
  /\
  (forall Date_now params p d,
      setTime Date_now params = Some p ->
      List.filter (fun e => negb (is_write e)) (trace (snd (p d)))
      = List.filter (fun e => negb (is_write e)) (trace d))
  /\
  (forall params d,
      List.filter (fun e => negb (is_write e)) (trace (snd (turnOnLed params d)))
      = List.filter (fun e => negb (is_write e)) (trace d))
  /\
  (forall d,
      List.filter (fun e => negb (is_write e)) (trace (snd (resetErrorStatus d)))
      = List.filter (fun e => negb (is_write e)) (trace d)).
Proof.
  repeat apply conj.
  - intros Date_now params. unfold setTime.
    destruct params as [| |b|n| |s|fields]; cbn [truthy typeof_object].
    1, 2, 5: split; [discriminate | intros [H _]; discriminate H].
    + destruct b; (split; [intros H; try discriminate H; split; reflexivity
                          | intros [H _]; try discriminate H; reflexivity]).
    + destruct (negb (n =? 0));
        (split; [intros H; try discriminate H; split; reflexivity
                | intros [H _]; try discriminate H; reflexivity]).
    + destruct (negb (String.eqb s ""));
        (split; [intros H; try discriminate H; split; reflexivity
                | intros [H _]; try discriminate H; reflexivity]).
    + destruct (assoc "unixTime" fields);
        (split; [discriminate | intros [_ H]; discriminate H]).
  - intros Date_now fields t Ht. unfold setTime. cbn [truthy]. rewrite Ht.
    reflexivity.
  - intros Date_now params p d Hs Hno.
    exists (ceil_seconds (Date_now d)). split; [apply ceil_seconds_spec|].
    assert (Hp : p = setTime_now Date_now).
    { unfold setTime in Hs. destruct (truthy params).
      - destruct params as [| |b|n| |s|fields]; try discriminate.
        rewrite (Hno fields eq_refl) in Hs. congruence.
      - congruence. }
    rewrite Hp. reflexivity.
  - intros params Hno. unfold turnOnLed.
    destruct params as [| |b|n| |s|fields]; try reflexivity.
    rewrite (Hno fields eq_refl). reflexivity.
  - intros Date_now params p d Hs. unfold setTime in Hs.
    assert (Hp : (exists t, p = _write (VStr "3031") (VObj [("unixTime", t)]) false)
                 \/ p = setTime_now Date_now).
    { destruct (truthy params); [|right; congruence].
      destruct params as [| |b|n| |s|fields]; try discriminate.
      destruct (assoc "unixTime" fields) as [t|];
        [left; exists t; congruence | right; congruence]. }
    destruct Hp as [[t ->] | ->]; [|unfold setTime_now]; apply _write_no_read.
  - intros params d. unfold turnOnLed. apply _write_no_read.
  - intros d. unfold resetErrorStatus. apply _write_no_read.
Qed.


(** ** Monitoring *)

Lemma monitored_listeners d times m :
  known "3001" d ->
  Monitor.data_listeners (monitored d times m)
  = (Monitor.data_listeners m + times)%nat /\
  Monitor.onsensordata (monitored d times m) = Monitor.onsensordata m /\
  Monitor.sensordata (monitored d times m) = Monitor.sensordata m /\
  Monitor.calls (monitored d times m)
  = Monitor.calls m ++ replicate times (Monitor.Subscribe "3001").
Proof.
  intros [c Hc].
  assert (Hstep : forall m0,
            snd (startMonitoringData d (Answer tt) m0)
            = Monitor.set_data_listeners (S (Monitor.data_listeners m0))
                (Monitor.called (Monitor.Subscribe "3001") m0)).
  { intros m0. unfold startMonitoringData. rewrite Hc. reflexivity. }
  induction times as [|n (IH1 & IH2 & IH3 & IH4)]; cbn [monitored].
  - rewrite Nat.add_0_r, app_nil_r. auto.
  - rewrite Hstep.
    cbn [Monitor.set_data_listeners Monitor.called Monitor.data_listeners
         Monitor.onsensordata Monitor.sensordata Monitor.calls].
    rewrite IH1, IH2, IH3, IH4.
    repeat split; [lia|].
    rewrite <- app_assoc. f_equal.
    change [Monitor.Subscribe "3001"]
      with (replicate 1 (Monitor.Subscribe "3001")).
    rewrite <- replicate_add. f_equal. lia.
Qed.

(** X19.  Monitoring the latest data.  Without the characteristic 3001
    in the table, [startMonitoringData] and [stopMonitoringData] reject
    with an error naming it and call nothing.  Every answered
    [startMonitoringData] adds a listener and none takes one away: after
    [times] of them a notification that decodes is handed to
    [onsensordata] [times] times over.  A [stopMonitoringData] whose
    [unsubscribe] is answered removes them all; one whose [unsubscribe]
    fails leaves them at work.  The listeners of the latest data and
    those of the event flag are counted apart. *)
Theorem X19_monitoring_listeners :
  (forall d r m,
      _chars d !! "3001" = None ->
      startMonitoringData d r m
      = (Some (Rejected
                 (Error "The characteristic UUID `3001` is not supported.")),
         m) /\
      stopMonitoringData d r m
      = (Some (Rejected
                 (Error "The characteristic UUID `3001` is not supported.")),
         m))
  /\
  (forall d times m buf,
      known "3001" d -> Monitor.data_listeners m = 0%nat ->
      Monitor.onsensordata m = true ->
      truthy (parseResponse "3001" buf) = true ->
      Monitor.sensordata (data_event buf (monitored d times m))
      = Monitor.sensordata m ++ replicate times (parseResponse "3001" buf))
  /\
  (forall d m buf,
      known "3001" d ->
      Monitor.sensordata
        (data_event buf (snd (stopMonitoringData d (Answer tt) m)))
      = Monitor.sensordata m)
  /\
  (forall d m e,
      known "3001" d ->
      fst (stopMonitoringData d (Fail e) m) = Some (Rejected e) /\
      Monitor.data_listeners (snd (stopMonitoringData d (Fail e) m))
      = Monitor.data_listeners m)
  /\
  (forall buf m,
      Monitor.onsensordata m = false \/
      truthy (parseResponse "3001" buf) = false ->
      data_event buf m = m)
  /\
  (forall d r m,
      Monitor.flag_listeners (snd (startMonitoringData d r m))
      = Monitor.flag_listeners m /\
      Monitor.flag_listeners (snd (stopMonitoringData d r m))
      = Monitor.flag_listeners m /\
      Monitor.data_listeners (snd (startMonitoringEventFlag d r m))
      = Monitor.data_listeners m /\
      Monitor.data_listeners (snd (stopMonitoringEventFlag d r m))
      = Monitor.data_listeners m).
Proof.
  repeat apply conj.
  - intros d r m H. unfold startMonitoringData, stopMonitoringData.
    rewrite H. split; reflexivity.
  - intros d times m buf Hk Hn Ho Ht.
    destruct (monitored_listeners d times m Hk) as (H1 & H2 & H3 & _).
    unfold data_event. rewrite H2, Ho, Ht. cbn [andb Monitor.sensordata].
    rewrite H1, H3, Hn. reflexivity.
  - intros d m buf [c Hc]. unfold stopMonitoringData. rewrite Hc.
    cbn [snd]. unfold data_event.
    destruct (_ && _); [|reflexivity].
    cbn. apply app_nil_r.
  - intros d m e [c Hc]. unfold stopMonitoringData. rewrite Hc.
    split; reflexivity.
  - intros buf m H. unfold data_event.
    destruct H as [-> | ->]; [reflexivity | rewrite andb_false_r; reflexivity].
  - intros d r m.
    unfold startMonitoringData, stopMonitoringData, startMonitoringEventFlag,
      stopMonitoringEventFlag.
    destruct (_chars d !! "3001"), (_chars d !! "3006"), r; auto.
Qed.


(** ** Rows as they are read *)

(** X20.  The retrieval takes the rows as the sensor hands them out: it
    asks for response data until an index above 12 comes back and returns
    every row read before, last read first, however many they are and
    whatever their indices, repeated or out of order; the row it asked for
    in the page request plays no part. *)
Theorem X20_rows_as_read :
  forall fuel p d da res db bufs rs sentinel rest t0 iv,
    setRequestPage (page_request (get_prop p "page") (get_prop p "row")) d
    = (Resolved tt, da) ->
    getResponseFlag (elapse 200 da) = (Resolved res, db) ->
    get_prop res "updateFlag" = VNum 1 ->
    get_prop res "unixTime" = VNum t0 ->
    get_prop p "interval" = VNum iv ->
    known "3005" db ->
    read_script "3005" db = map Answer bufs ++ Answer sentinel :: rest ->
    Forall2 row_buffer bufs rs ->
    truthy (parseResponse "3005" sentinel) = true ->
    gt (get_prop (parseResponse "3005" sentinel) "row") 12 = true ->
    (length bufs < fuel)%nat ->
    exists l d',
      _getRecordedDataListFromPages fuel p d = Some (Resolved l, d') /\
      map (fun row => get_prop row "row") l = map VNum (rev rs) /\
      trace d' = trace db ++ replicate (S (length bufs)) (EvRead "3005").
Proof.
  intros fuel p d da res db bufs rs sentinel rest t0 iv
    Hreq Hflag Hready Htime Hiv Hk Hs HF Htruthy Hend Hfuel.
  destruct (retrieval_of_rows fuel p d da res db bufs rs sentinel rest t0 iv
              Hreq Hflag Hready Htime Hiv Hk Hs HF Htruthy Hend Hfuel)
    as (l & d' & Hrun & Hlen & Hrows & Htr & _).
  exists l, d'. split; [exact Hrun|]. split; [|exact Htr].
  apply list_eq. intros i. rewrite !list_lookup_fmap.
  destruct (rev rs !! i) as [r|] eqn:Hr.
  - destruct (Hrows i r Hr) as (row & Hrow & Hget & _).
    rewrite Hrow. simpl. rewrite Hget. reflexivity.
  - apply lookup_ge_None in Hr. rewrite length_rev, <- Hlen in Hr.
    apply lookup_ge_None in Hr. rewrite Hr. reflexivity.
Qed.


End Device.

(** ** The scanner *)

Section Scanning.

Import Scan.

Variable parse : peripheral -> value.

Lemma elem_of_map {A B} (f : A -> B) l y :
  y ∈ map f l <-> exists x, y = f x /\ x ∈ l.
Proof.
  rewrite list_elem_of_In, in_map_iff. split.
  - intros (x & <- & Hin). exists x. split; [reflexivity|].
    apply list_elem_of_In, Hin.
  - intros (x & -> & Hin). exists x. split; [reflexivity|].
    apply list_elem_of_In, Hin.
Qed.

Lemma device_at_None b l : device_at b l = None -> b ∉ map fst l.
Proof.
  induction l as [|[a q] l IH]; simpl; [intros _ H; inversion H|].
  destruct (String.eqb_spec b a) as [|Hne]; [discriminate|].
  intros H Hin. apply elem_of_cons in Hin as [Hin|Hin]; [contradiction|].
  exact (IH H Hin).
Qed.

Lemma device_at_file a b p l :
  device_at b l = None ->
  device_at a (file_device b p l)
  = if String.eqb a b then Some p else device_at a l.
Proof.
  induction l as [|[a0 q] l IH]; [reflexivity|].
  cbn [device_at]. destruct (String.eqb_spec b a0) as [|Hne]; [discriminate|].
  intros Hb. cbn [file_device].
  assert (Hrec : device_at a ((a0, q) :: file_device b p l)
                 = if String.eqb a b then Some p
                   else if String.eqb a a0 then Some q else device_at a l).
  { cbn [device_at]. rewrite (IH Hb).
    destruct (String.eqb_spec a a0) as [->|]; [|reflexivity].
    destruct (String.eqb_spec a0 b) as [->|]; [contradiction | reflexivity]. }
  destruct (array_index b), (array_index a0); try exact Hrec; try reflexivity.
  destruct (_ <? _); [reflexivity | exact Hrec].
Qed.

Lemma file_device_perm b p l : file_device b p l ≡ₚ (b, p) :: l.
Proof.
  induction l as [|[a0 q] l IH]; [reflexivity|]. cbn [file_device].
  assert (Hrec : (a0, q) :: file_device b p l ≡ₚ (b, p) :: (a0, q) :: l).
  { etrans; [apply perm_skip, IH | apply perm_swap]. }
  destruct (array_index b), (array_index a0); try exact Hrec; try reflexivity.
  destruct (_ <? _); [reflexivity | exact Hrec].
Qed.

Lemma keyed_file p l :
  keyed l -> device_at (address p) l = None ->
  keyed (file_device (address p) p l).
Proof.
  intros [Hnd Hk] Hnone. pose proof (file_device_perm (address p) p l) as Hp.
  split.
  - rewrite (Permutation_map fst Hp). simpl.
    constructor; [apply device_at_None, Hnone | exact Hnd].
  - rewrite Hp. constructor; [reflexivity | exact Hk].
Qed.

Lemma keyed_device_at l q :
  keyed l -> (q ∈ map snd l <-> device_at (address q) l = Some q).
Proof.
  intros [Hnd Hk]. induction l as [|[a r] l IH]; simpl.
  - split; [intros H; inversion H | discriminate].
  - inversion Hnd as [|? ? Ha Hnd']; subst. inversion Hk as [|? ? Har Hk']; subst.
    simpl in Har. subst a. rewrite elem_of_cons.
    destruct (String.eqb_spec (address q) (address r)) as [Heq|Hne].
    + split; [|intros [= ->]; left; reflexivity].
      intros [->|Hin]; [reflexivity|]. exfalso. apply Ha.
      apply elem_of_map in Hin as ([a' q'] & -> & Hin).
      apply elem_of_map. exists (a', q'). split; [|exact Hin].
      rewrite Forall_forall in Hk'. simpl in *. rewrite <- Heq.
      symmetry. apply (Hk' (a', q')), Hin.
    + rewrite <- (IH Hnd' Hk'). split; [|tauto].
      intros [->|Hin]; [contradiction | exact Hin].
Qed.

Lemma keyed_addresses l : keyed l -> map address (map snd l) = map fst l.
Proof.
  intros [_ Hk]. induction Hk as [|[a q] l Ha _ IH]; [reflexivity|].
  simpl in *. rewrite IH, Ha. reflexivity.
Qed.

Lemma _discoveredDevice_filed p f e :
  _discoveredDevice parse p f e
  = if accepts parse f p
    then match device_at (address p) (_devices e) with
         | Some _ => (None, e)
         | None =>
             (Some p,
              {| _initialized := _initialized e;
                 _discover_status := _discover_status e;
                 _devices := file_device (address p) p (_devices e);
                 ondiscover := ondiscover e;
                 noble_calls := noble_calls e;
                 reported := if ondiscover e then reported e ++ [p]
                             else reported e |})
         end
    else (None, e).
Proof.
  unfold _discoveredDevice, accepts, filed_at.
  destruct (truthy (parse p)); [|reflexivity].
  destruct (filtered_out f p); [reflexivity|].
  destruct (device_at (address p) (_devices e));
    destruct (inherited (address p)); reflexivity.
Qed.

(** The flags and the calls to noble stay as they are while the listener
    is at work. *)
Lemma discovering_flags f quick events : forall e,
  _initialized (discovering parse f quick events e) = _initialized e /\
  _discover_status (discovering parse f quick events e) = _discover_status e /\
  noble_calls (discovering parse f quick events e) = noble_calls e /\
  ondiscover (discovering parse f quick events e) = ondiscover e.
Proof.
  induction events as [|p rest IH]; intros e; [auto|].
  cbn [discovering]. rewrite _discoveredDevice_filed.
  destruct (accepts parse f p); [|apply IH].
  destruct (device_at (address p) (_devices e)); [apply IH|].
  destruct (truthy quick); [auto|].
  match goal with |- context [discovering _ _ _ _ ?e1] =>
    destruct (IH e1) as (H1 & H2 & H3 & H4) end.
  auto.
Qed.

Lemma discovering_keyed f quick events : forall e,
  keyed (_devices e) -> keyed (_devices (discovering parse f quick events e)).
Proof.
  induction events as [|p rest IH]; intros e Hk; [exact Hk|].
  cbn [discovering]. rewrite _discoveredDevice_filed.
  destruct (accepts parse f p); [|apply IH, Hk].
  destruct (device_at (address p) (_devices e)) eqn:Hd; [apply IH, Hk|].
  destruct (truthy quick); [|apply IH]; apply keyed_file; assumption.
Qed.

(** Without [quick], the table ends up with the first accepted peripheral
    of every address it did not hold. *)
Lemma discovering_first f quick events a : forall e,
  truthy quick = false ->
  device_at a (_devices (discovering parse f quick events e))
  = match device_at a (_devices e) with
    | Some q => Some q
    | None =>
        List.find (fun r => accepts parse f r && String.eqb (address r) a)
                  events
    end.
Proof.
  intros e Hq. revert e.
  induction events as [|p rest IH]; intros e.
  { simpl. destruct (device_at a (_devices e)); reflexivity. }
  cbn [discovering List.find]. rewrite _discoveredDevice_filed.
  destruct (accepts parse f p) eqn:Hacc; [|apply IH].
  destruct (device_at (address p) (_devices e)) as [q0|] eqn:Hd.
  - rewrite IH. destruct (device_at a (_devices e)) eqn:Ha; [reflexivity|].
    destruct (String.eqb_spec (address p) a) as [Heq|]; [|reflexivity].
    rewrite Heq in Hd. congruence.
  - rewrite Hq, IH. cbn [_devices]. rewrite (device_at_file _ _ _ _ Hd).
    rewrite (String.eqb_sym a (address p)).
    destruct (String.eqb_spec (address p) a) as [Heq|Hne]; cbn [andb].
    + rewrite <- Heq, Hd. reflexivity.
    + reflexivity.
Qed.

(** With [quick], the first accepted peripheral ends the discovery. *)
Lemma discovering_quick f quick events : forall e,
  truthy quick = true -> _devices e = [] ->
  _devices (discovering parse f quick events e)
  = match List.find (accepts parse f) events with
    | Some q => [(address q, q)]
    | None => []
    end.
Proof.
  intros e Hq. induction events as [|p rest IH]; intros He; [exact He|].
  cbn [discovering List.find]. rewrite _discoveredDevice_filed.
  destruct (accepts parse f p); [|apply IH, He].
  rewrite He. cbn [device_at]. rewrite Hq. reflexivity.
Qed.

(** What [ondiscover] was handed and what the table gained are the same
    devices. *)
Lemma discovering_reported f quick events : forall e,
  ondiscover e = true ->
  reported (discovering parse f quick events e) ++ map snd (_devices e)
  ≡ₚ reported e ++ map snd (_devices (discovering parse f quick events e)).
Proof.
  induction events as [|p rest IH]; intros e Ho; [reflexivity|].
  cbn [discovering]. rewrite _discoveredDevice_filed.
  destruct (accepts parse f p); [|apply IH, Ho].
  destruct (device_at (address p) (_devices e)); [apply IH, Ho|].
  pose proof (Permutation_map snd (file_device_perm (address p) p (_devices e)))
    as Hp. simpl in Hp.
  destruct (truthy quick).
  - cbn [reported _devices]. rewrite Ho, Hp, <- app_assoc. reflexivity.
  - rewrite Ho.
    match goal with |- context [discovering _ _ _ _ ?e1] =>
      pose proof (IH e1 eq_refl) as H1 end.
    cbn [reported _devices] in H1.
    apply (Permutation_cons_inv (a := p)).
    etrans; [apply Permutation_middle|].
    rewrite <- Hp, H1, <- app_assoc. simpl. symmetry. apply Permutation_middle.
Qed.

Lemma discover_runs p events e dur f quick :
  discover_options p = (dur, f, quick) ->
  _checkInitialized e = None ->
  let e1 := {| _initialized := _initialized e;
               _discover_status := true;
               _devices := [];
               ondiscover := ondiscover e;
               noble_calls := noble_calls e ++ [StartScanning false];
               reported := reported e |} in
  discover parse p events e
  = inr (map snd (_devices (discovering parse f quick events e1)),
         stopScan (discovering parse f quick events e1)) /\
  _devices (stopScan (discovering parse f quick events e1))
  = _devices (discovering parse f quick events e1) /\
  reported (stopScan (discovering parse f quick events e1))
  = reported (discovering parse f quick events e1) /\
  _discover_status (stopScan (discovering parse f quick events e1)) = false /\
  _initialized (stopScan (discovering parse f quick events e1)) = true /\
  noble_calls (stopScan (discovering parse f quick events e1))
  = noble_calls e ++ [StartScanning false; StopScanning].
Proof.
  intros Ho Hc e1.
  destruct (discovering_flags f quick events e1) as (F1 & F2 & F3 & F4).
  assert (Hi : _initialized e = true).
  { unfold _checkInitialized in Hc. destruct (_initialized e);
      [reflexivity | discriminate]. }
  unfold discover. rewrite Hc, Ho. fold e1. unfold stopScan.
  rewrite F2. cbn [_discover_status _devices reported _initialized noble_calls e1].
  rewrite F1, F3. cbn [_initialized noble_calls e1].
  rewrite <- app_assoc. auto 10.
Qed.

(** X16.  What [discover] resolves with.  No two devices of the list
    share an address.  Without [quick] the list holds, for every address,
    the first peripheral of that address that parses as a sensor and whose
    id starts with the filter, and nothing else: a later peripheral of the
    same address is dropped.  With [quick] it holds the first such
    peripheral alone, or nothing.  When an [ondiscover] function is set it
    was handed the devices of the list, each once; an address that is a name
    of [Object.prototype] is never listed. *)
Theorem X16_discover_first_wins :
  forall p events e l e' dur f quick,
    discover_options p = (dur, f, quick) ->
    discover parse p events e = inr (l, e') ->
    NoDup (map address l) /\
    (truthy quick = false ->
     forall q, q ∈ l <->
       List.find (fun r => accepts parse f r
                           && String.eqb (address r) (address q)) events
       = Some q) /\
    (truthy quick = true ->
     l = match List.find (accepts parse f) events with
         | Some q => [q]
         | None => []
         end) /\
    (forall q, q ∈ l ->
       q ∈ events /\ truthy (parse q) = true /\ filtered_out f q = false /\
       inherited (address q) = false) /\
    (ondiscover e = true -> reported e' ≡ₚ reported e ++ l) /\
    (ondiscover e = false -> reported e' = reported e).
Proof.
  intros p events e l e' dur f quick Ho Hd.
  destruct (_checkInitialized e) as [err|] eqn:Hc;
    [unfold discover in Hd; rewrite Hc in Hd; discriminate|].
  destruct (discover_runs p events e dur f quick Ho Hc)
    as (Hrun & Hdev & Hrep & _).
  rewrite Hrun in Hd. injection Hd as <- <-.
  set (e1 := {| _initialized := _initialized e; _discover_status := true;
                _devices := []; ondiscover := ondiscover e;
                noble_calls := noble_calls e ++ [StartScanning false];
                reported := reported e |}) in *.
  assert (Hk : keyed (_devices (discovering parse f quick events e1))).
  { apply discovering_keyed. split; constructor. }
  assert (Hmem : forall q,
            q ∈ map snd (_devices (discovering parse f quick events e1)) ->
            q ∈ events /\ accepts parse f q = true).
  { intros q Hq. destruct (truthy quick) eqn:Hquick.
    - rewrite (discovering_quick f quick events e1 Hquick eq_refl) in Hq.
      destruct (List.find (accepts parse f) events) as [r|] eqn:Hf;
        [|inversion Hq].
      apply list_elem_of_singleton in Hq. subst q.
      apply find_some in Hf as [Hin Hacc].
      split; [apply list_elem_of_In, Hin | exact Hacc].
    - apply (keyed_device_at _ _ Hk) in Hq.
      rewrite (discovering_first f quick events _ e1 Hquick) in Hq.
      cbn [e1 _devices device_at] in Hq.
      apply find_some in Hq as [Hin Hacc].
      apply andb_true_iff in Hacc as [Hacc _].
      split; [apply list_elem_of_In, Hin | exact Hacc]. }
  repeat apply conj.
  - rewrite (keyed_addresses _ Hk). apply Hk.
  - intros Hquick q. rewrite (keyed_device_at _ _ Hk).
    rewrite (discovering_first f quick events _ e1 Hquick). reflexivity.
  - intros Hquick.
    rewrite (discovering_quick f quick events e1 Hquick eq_refl).
    destruct (List.find (accepts parse f) events); reflexivity.
  - intros q Hq. destruct (Hmem q Hq) as [Hin Hacc]. unfold accepts in Hacc.
    apply andb_true_iff in Hacc as [Hacc Hinh].
    apply andb_true_iff in Hacc as [Hparse Hfil].
    apply negb_true_iff in Hinh, Hfil. auto.
  - intros Hon. rewrite Hrep.
    pose proof (discovering_reported f quick events e1 Hon) as H.
    cbn [e1 _devices reported map] in H. rewrite app_nil_r in H. exact H.
  - intros Hoff. rewrite Hrep. clear -Hoff.
    assert (H : forall e0, ondiscover e0 = false ->
              reported (discovering parse f quick events e0) = reported e0).
    { induction events as [|r rest IH]; intros e0 H0; [reflexivity|].
      cbn [discovering]. rewrite _discoveredDevice_filed.
      destruct (accepts parse f r); [|apply IH, H0].
      destruct (device_at (address r) (_devices e0)); [apply IH, H0|].
      destruct (truthy quick); cbn [reported]; [rewrite H0; reflexivity|].
      rewrite IH; cbn [reported ondiscover]; [rewrite H0; reflexivity | exact H0]. }
    apply (H e1 Hoff).
Qed.

(** X17.  The guard of the scanner.  [discover] and [startScan] throw
    until [init()] found the adapter powered on, and while a scan is under
    way; a rejected [init()] leaves the object uninitialised even when it
    was initialised before.  [discover] starts one scan without duplicates
    and stops it, so that the object can scan again; [startScan] scans with
    duplicates until [stopScan], which tells noble to stop once only. *)
Theorem X17_scan_guard :
  (forall p events e,
      _initialized e = false ->
      discover parse p events e
      = inl (Error "The `init()` method has not been called yet.") /\
      startScan p e
      = inl (Error "The `init()` method has not been called yet."))
  /\
  (forall p e e1,
      startScan p e = inr e1 ->
      (forall p' events,
          discover parse p' events e1
          = inl (Error
                   "The `discover()` or the `startScan()` method is in progress."))
      /\
      (forall p',
          startScan p' e1
          = inl (Error
                   "The `discover()` or the `startScan()` method is in progress."))
      /\
      _checkInitialized (stopScan e1) = None /\
      noble_calls (stopScan e1)
      = noble_calls e ++ [StartScanning true; StopScanning])
  /\
  (forall e, stopScan (stopScan e) = stopScan e)
  /\
  (forall state change e,
      _initialized (snd (init state change e)) = true <->
      fst (init state change e) = Some (Resolved tt))
  /\
  (forall p events e l e',
      discover parse p events e = inr (l, e') ->
      _checkInitialized e' = None /\
      noble_calls e'
      = noble_calls e ++ [StartScanning false; StopScanning]).
Proof.
  repeat apply conj.
  - intros p events e Hi. unfold discover, startScan, _checkInitialized.
    rewrite Hi. split; reflexivity.
  - intros p e e1 Hs. unfold startScan in Hs.
    destruct (_checkInitialized e) eqn:Hc; [discriminate|].
    injection Hs as <-.
    assert (Hi : _initialized e = true).
    { unfold _checkInitialized in Hc. destruct (_initialized e);
        [reflexivity | discriminate]. }
    unfold discover, startScan, stopScan, _checkInitialized.
    cbn [_initialized _discover_status noble_calls]. rewrite Hi.
    cbn [negb]. rewrite <- app_assoc. auto.
  - intros e. unfold stopScan. destruct (_discover_status e) eqn:Hs.
    + reflexivity.
    + rewrite Hs. reflexivity.
  - intros state change e. unfold init.
    destruct (String.eqb state "poweredOn"); [split; reflexivity|].
    destruct change as [state'|]; [|split; discriminate].
    destruct (String.eqb state' "poweredOn"); split;
      try reflexivity; discriminate.
  - intros p events e l e' Hd.
    destruct (_checkInitialized e) as [err|] eqn:Hc;
      [unfold discover in Hd; rewrite Hc in Hd; discriminate|].
    destruct (discover_options p) as [[dur f] quick] eqn:Ho.
    destruct (discover_runs p events e dur f quick Ho Hc)
      as (Hrun & _ & _ & Hst & Hin & Hcalls).
    rewrite Hrun in Hd. injection Hd as _ <-.
    unfold _checkInitialized. rewrite Hin, Hst. auto.
Qed.

End Scanning.


(** ** The theorems at scripted peripherals *)

Import EnvsensorChars Demo.

(** Two stalled reads, then an answer: three transport calls, ten seconds. *)
Lemma C1_witness :
  fst (_read parseResponse (VStr "3011")
         (interval_sensor [Stall; Stall; Answer interval_300] []))
  = Resolved (VObj [("measurementInterval", VNum 300)]) /\
  trace (snd (_read parseResponse (VStr "3011")
                (interval_sensor [Stall; Stall; Answer interval_300] [])))
  = [EvRead "3011"; EvRead "3011"; EvRead "3011"] /\
  clock (snd (_read parseResponse (VStr "3011")
                (interval_sensor [Stall; Stall; Answer interval_300] [])))
  = 10000.
Proof.
  apply (proj1 (proj2 (proj2 (C1_bounded_retry parseResponse createWriteBuffer)))
           (VStr "3011") "3011"
           (interval_sensor [Stall; Stall; Answer interval_300] [])
           2%nat interval_300 []).
  - reflexivity.
  - vm_compute. eexists. reflexivity.
  - vm_compute. reflexivity.
  - unfold _REQUEST_RETRY_MAX. lia.
  - reflexivity.
Defined.

(** A full page, rows 12 down to 0 and then index 13, read from page 4. *)
Lemma C2_witness :
  exists l d',
    _getRecordedDataListFromPages parseResponse createWriteBuffer tokyo 14
      (VObj [("page", VNum 4); ("row", VNum 12); ("interval", VNum 300)])
      (recorder full_page)
    = Some (Resolved l, d') /\
    length l = 13%nat /\
    forall i, (i < 13)%nat ->
      exists row,
        l !! i = Some row /\
        get_prop row "row" = VNum (Z.of_nat i) /\
        get_prop row "unixTime" = VNum (anchor + Z.of_nat i * 300).
Proof.
  edestruct (C2_full_page_retrieval parseResponse createWriteBuffer tokyo 14
               (VObj [("page", VNum 4); ("row", VNum 12); ("interval", VNum 300)])
               (recorder full_page))
    with (bufs := map response_data [12; 11; 10; 9; 8; 7; 6; 5; 4; 3; 2; 1; 0])
         (sentinel := response_data 13) (rest := @nil (reply buffer))
         (t0 := anchor) (iv := 300)
    as (l & d' & H1 & H2 & H3 & _).
  - vm_compute. reflexivity.
  - vm_compute. reflexivity.
  - reflexivity.
  - reflexivity.
  - reflexivity.
  - vm_compute. eexists. reflexivity.
  - vm_compute. reflexivity.
  - cbn [map].
    repeat (constructor;
            [eexists; split; [vm_compute; reflexivity | split; [reflexivity | lia]]|]).
    constructor.
  - reflexivity.
  - reflexivity.
  - lia.
  - exists l, d'. auto.
Defined.

(** C2 as stated fails: the rows 12, 11, ..., 0 are thirteen rows, and the
    retrieval of such a page resolves with thirteen entries, not twelve. *)
Lemma C2_counterexample :
  exists r d',
    getRecordedDataList parseResponse createWriteBuffer tokyo 14
      (VObj [("page", VNum 4)]) (recorder full_page)
    = Some (Resolved r, d') /\
    length (dataList r) = 13%nat /\
    length (dataList r) <> 12%nat.
Proof.
  eexists _, _. split; [vm_compute; reflexivity|].
  split; [reflexivity | discriminate].
Qed.

(** A request naming no field of the measurement interval. *)
Lemma C3_witness :
  fst (_setValue parseResponse createWriteBuffer (VStr "3011")
         (VObj [("interval", VNum 600)])
         (interval_sensor [Answer interval_300] [Answer tt]))
  = Rejected (Error "No parameter was specified.") /\
  List.filter is_write
    (trace (snd (_setValue parseResponse createWriteBuffer (VStr "3011")
                   (VObj [("interval", VNum 600)])
                   (interval_sensor [Answer interval_300] [Answer tt]))))
  = List.filter is_write
      (trace (interval_sensor [Answer interval_300] [Answer tt])).
Proof.
  eapply (proj2 (C3_no_override_no_write parseResponse createWriteBuffer)).
  - vm_compute. reflexivity.
  - vm_compute. reflexivity.
Defined.

(** Page 5 requested while the latest page is page 5, row 4. *)
Lemma C4_witness :
  _getTargetPageAndRow parseResponse (Some 5) (recorder full_page)
  = (Resolved (VObj [("page", VNum 5); ("row", VNum 4);
                     ("interval", VNum 300)]),
     snd (getLatestPage parseResponse (recorder full_page))).
Proof.
  refine (proj2 (proj2
            (C4_anchor_resolution parseResponse (recorder full_page)
               (parseResponse "3002" (latest_page anchor 300 5 4))
               (snd (getLatestPage parseResponse (recorder full_page))) _))
            5 _).
  - vm_compute. reflexivity.
  - reflexivity.
Defined.

(** Page 4 read to its end in Tokyo: the row at index 1 is stamped five
    minutes after the anchor, 2018-06-02T09:05:00+09:00. *)
Lemma C5_witness :
  (exists l d',
      _getRecordedDataListFromPages parseResponse createWriteBuffer tokyo 14
        (VObj [("page", VNum 4); ("row", VNum 12); ("interval", VNum 300)])
        (recorder full_page)
      = Some (Resolved l, d') /\
      forall i row, l !! i = Some row ->
        get_prop row "unixTime" = VNum (anchor + Z.of_nat i * 300) /\
        get_prop row "timeStamp"
        = VStr (_getTimeStampFromUnixTime tokyo
                  (VNum (anchor + Z.of_nat i * 300)))) /\
  _getTimeStampFromUnixTime tokyo (VNum (anchor + 300))
  = "2018-06-02T09:05:00+09:00" /\
  ISO8601.instant (_getTimeStampFromUnixTime tokyo (VNum (anchor + 300)))
  = Some (anchor + 300, 540).
Proof.
  pose proof (C5_row_time_stamps parseResponse createWriteBuffer tokyo)
    as (Hrows & _ & Hiso).
  split; [|split].
  - eexists _, _. split; [vm_compute; reflexivity|].
    edestruct (Hrows 14%nat
                 (VObj [("page", VNum 4); ("row", VNum 12);
                        ("interval", VNum 300)])
                 (recorder full_page))
      with (iv := 300) as (da & res & db & H1 & H2 & _ & H4).
    + vm_compute. reflexivity.
    + reflexivity.
    + apply H4. vm_compute in H1. injection H1 as <-.
      vm_compute in H2. injection H2 as <- _. reflexivity.
  - vm_compute. reflexivity.
  - apply (Hiso (anchor + 300)); unfold anchor, tokyo; lia.
Defined.

(** A stalled read, then a read that fails: the answer behind it is never
    asked for. *)
Lemma C6_witness :
  fst (_read parseResponse (VStr "3011")
         (interval_sensor
            [Stall; Fail (Error "Disconnected"); Answer interval_300] []))
  = Rejected (Error "Disconnected") /\
  trace (snd (_read parseResponse (VStr "3011")
                (interval_sensor
                   [Stall; Fail (Error "Disconnected"); Answer interval_300]
                   [])))
  = [EvRead "3011"; EvRead "3011"] /\
  read_script "3011"
    (snd (_read parseResponse (VStr "3011")
            (interval_sensor
               [Stall; Fail (Error "Disconnected"); Answer interval_300] [])))
  = [Answer interval_300] /\
  clock (snd (_read parseResponse (VStr "3011")
                (interval_sensor
                   [Stall; Fail (Error "Disconnected"); Answer interval_300]
                   [])))
  = 5000.
Proof.
  apply (proj1 (C6_error_is_final parseResponse createWriteBuffer)
           (VStr "3011") "3011"
           (interval_sensor
              [Stall; Fail (Error "Disconnected"); Answer interval_300] [])
           1%nat (Error "Disconnected") [Answer interval_300]).
  - reflexivity.
  - vm_compute. eexists. reflexivity.
  - vm_compute. reflexivity.
  - unfold _REQUEST_RETRY_MAX. lia.
Defined.

(** C6 as stated fails: the first call comes back with an error and a
    second call would be answered, yet the read is rejected with the error
    of the first call, which stays the only call made. *)
Lemma C6_counterexample :
  fst (_read parseResponse (VStr "3011")
         (interval_sensor [Fail (Error "Disconnected"); Answer interval_300] []))
  = Rejected (Error "Disconnected") /\
  trace (snd (_read parseResponse (VStr "3011")
                (interval_sensor
                   [Fail (Error "Disconnected"); Answer interval_300] [])))
  = [EvRead "3011"] /\
  read_script "3011"
    (snd (_read parseResponse (VStr "3011")
            (interval_sensor
               [Fail (Error "Disconnected"); Answer interval_300] [])))
  = [Answer interval_300].
Proof. vm_compute. repeat split. Qed.

(** Two rows read, then the transport fails: no list comes back. *)
Lemma C7_witness :
  exists d',
    _getRecordedDataListFromPages parseResponse createWriteBuffer utc 5
      (VObj [("page", VNum 4); ("row", VNum 12); ("interval", VNum 300)])
      (recorder [Answer (response_data 12); Answer (response_data 11);
                 Fail (Error "Disconnected")])
    = Some (Rejected (Error "Disconnected"), d').
Proof.
  eexists.
  eapply (proj1 (proj2 (proj2 (proj2
            (C7_failure_aborts parseResponse createWriteBuffer utc))))).
  - vm_compute. reflexivity.
  - vm_compute. reflexivity.
  - reflexivity.
  - econstructor; [vm_compute; reflexivity | reflexivity |].
    econstructor; [vm_compute; reflexivity | reflexivity |].
    constructor.
  - vm_compute. reflexivity.
  - simpl. lia.
Defined.

(** The heat stroke setting, asked for in upper and in lower case. *)
(** The manufacturer name read under [2A29], and the measurement interval
    under the number 0x3011. *)
Lemma C8_witness :
  (fst (_read Bench.parseResponse (VStr "2A29") Bench.labelled)
   = Resolved (VObj [("manufacturerName", VStr "OMRON")]) /\
   trace (snd (_read Bench.parseResponse (VStr "2A29") Bench.labelled))
   = [EvRead "2a29"]) /\
  (fst (_read parseResponse (VNum 12305)
          (interval_sensor [Answer interval_300] []))
   = Resolved (VObj [("measurementInterval", VNum 300)]) /\
   trace (snd (_read parseResponse (VNum 12305)
                 (interval_sensor [Answer interval_300] [])))
   = [EvRead "3011"] /\
   read_script "3011"
     (snd (_read parseResponse (VNum 12305)
             (interval_sensor [Answer interval_300] [])))
   = []).
Proof.
  split.
  - pose proof (C8_lookup_normalized Bench.parseResponse createWriteBuffer)
      as (_ & _ & _ & _ & _ & _ & _ & _ & _ & _ & _ & _ & Hfound & _).
    apply (Hfound (VStr "2A29") "2a29" Bench.labelled
             (Bench.ascii_bytes "OMRON") []); vm_compute; reflexivity.
  - pose proof (C8_lookup_normalized parseResponse createWriteBuffer)
      as (_ & _ & _ & _ & _ & _ & _ & _ & _ & _ & _ & Hbase & _).
    apply (Hbase [] [] (stub "3011" [Answer interval_300] []) [] "3011"
             (VNum 12305) interval_300 []).
    + reflexivity.
    + reflexivity.
    + reflexivity.
    + constructor.
    + reflexivity.
    + right. exists 12305. split; [reflexivity | vm_compute; reflexivity].
Defined.

Lemma C9_witness :
  getRecordedDataList parseResponse createWriteBuffer tokyo 0 VUndefined
    idle_sensor
  = Some (Rejected (Error "The data recording mode has not been started."),
          snd (getRecordingStatus parseResponse idle_sensor)) /\
  trace (snd (getRecordingStatus parseResponse idle_sensor))
  = [EvRead "3042"; EvRead "3031"; EvRead "3002"].
Proof.
  split; [|vm_compute; reflexivity].
  edestruct (C9_not_recording_rejects parseResponse createWriteBuffer tokyo
               0%nat VUndefined None idle_sensor) as [H _].
  - reflexivity.
  - vm_compute. reflexivity.
  - reflexivity.
  - rewrite H. vm_compute. reflexivity.
Defined.


(** ** The scenarios of the specification *)

(** The measurement interval reads 300 seconds; the request
    [{ measurementInterval: 600 }] is merged, encoded as [58 02] and written
    once, with response. *)
Example write_measurement_interval :
  let run := setMeasurementInterval parseResponse createWriteBuffer
               (VObj [("measurementInterval", VNum 600)])
               (interval_sensor [Answer interval_300] [Answer tt]) in
  fst run = Resolved tt /\
  trace (snd run)
  = [EvRead "3011"; EvWrite "3011" [Byte.x58; Byte.x02] false].
Proof. vm_compute. split; reflexivity. Qed.

(** A measurement interval of 3601 seconds is refused by the codec after the
    merge, and nothing is written. *)
Example write_measurement_interval_out_of_range :
  let run := setMeasurementInterval parseResponse createWriteBuffer
               (VObj [("measurementInterval", VNum 3601)])
               (interval_sensor [Answer interval_300] [Answer tt]) in
  fst run
  = Rejected (Error "The `measurementInterval` must be an integer in the range of 1 to 3600.") /\
  trace (snd run) = [EvRead "3011"].
Proof. vm_compute. split; reflexivity. Qed.

(** The latest page, page 5 with rows 4 to 0 recorded, read without naming a
    page: the request goes out for page 5, row 4. *)
Example latest_page_retrieval :
  exists r d',
    getRecordedDataList parseResponse createWriteBuffer tokyo 6 VUndefined
      (recorder (map (fun rw => Answer (response_data rw)) [4; 3; 2; 1; 0; 13]))
    = Some (Resolved r, d') /\
    page r = VNum 5 /\ measurementInterval r = VNum 300 /\
    map (fun row => get_prop row "timeStamp") (dataList r)
    = [VStr "2018-06-02T09:00:00+09:00"; VStr "2018-06-02T09:05:00+09:00";
       VStr "2018-06-02T09:10:00+09:00"; VStr "2018-06-02T09:15:00+09:00";
       VStr "2018-06-02T09:20:00+09:00"] /\
    List.filter is_write (trace d')
    = [EvWrite "3003" [Byte.x05; Byte.x00; Byte.x04] false].
Proof.
  eexists _, _. split; [vm_compute; reflexivity|]. repeat split.
Qed.

(** A response flag that is not the ready code ends the retrieval before
    any response data is read. *)
Example flag_not_ready :
  exists d',
    _getRecordedDataListFromPages parseResponse createWriteBuffer utc 14
      (VObj [("page", VNum 4); ("row", VNum 12); ("interval", VNum 300)])
      (connected []
         [ stub "3003" [Answer (request_page 0 0)] [Answer tt];
           stub "3004" [Answer (response_flag 2 anchor)] [];
           stub "3005" full_page [] ])
    = Some (Rejected
              (Error "Failed to set the request page (updateFlag=2)."), d') /\
    List.filter (touches "3005") (trace d') = [].
Proof. eexists. split; vm_compute; reflexivity. Qed.

Example time_stamps :
  _getTimeStampFromUnixTime tokyo (VNum 1709164799)
  = "2024-02-29T08:59:59+09:00" /\
  _getTimeStampFromUnixTime utc (VNum 951782400) = "2000-02-29T00:00:00Z" /\
  _getTimeStampFromUnixTime (fun _ => 330) (VNum 951782400)
  = "2000-02-28T18:30:00-05:30" /\
  _getTimeStampFromUnixTime utc VUndefined = "NaN-aN-aNTaN:aN:aN+aN:aN".
Proof. vm_compute. repeat split. Qed.

(** A nested request: [max] is overridden inside [range]; [unit] and [name],
    which the current value does not have, are passed over. *)
Example nested_merge :
  overrideObject
    (VObj [("range", VObj [("max", VNum 9); ("unit", VStr "C")]);
           ("name", VStr "n")])
    (VObj [("range", VObj [("min", VNum 1); ("max", VNum 5)]);
           ("flag", VBool true)])
    0
  = Some (VObj [("range", VObj [("min", VNum 1); ("max", VNum 9)]);
                ("flag", VBool true)], 1%nat).
Proof. reflexivity. Qed.

(** ** The further theorems at scripted peripherals *)

(** A characteristic found without a name takes the name of its key. *)
Lemma X1_witness :
  name (filed (stub "3011" [] [])) = Some "Measurement interval".
Proof.
  apply (proj1 (proj2 (proj2 (proj2 X1_init_files_last)))
           (stub "3011" [] []) "Measurement interval").
  - left. reflexivity.
  - vm_compute. reflexivity.
  - discriminate.
Defined.

(** The ADV setting, and the name [constructor], asked of a sensor that
    has the measurement interval only. *)
Lemma X2_witness :
  (_read parseResponse (VStr "3042") (interval_sensor [Answer interval_300] [])
   = (Rejected (Error "Unknown characteristic"),
      interval_sensor [Answer interval_300] []) /\
   forall data wr,
     _write createWriteBuffer (VStr "3042") data wr
       (interval_sensor [Answer interval_300] [])
     = (Rejected (Error "Unknown characteristic"),
        interval_sensor [Answer interval_300] [])) /\
  _read parseResponse (VStr "constructor")
    (interval_sensor [Answer interval_300] [])
  = (Rejected TypeError, interval_sensor [Answer interval_300] []).
Proof.
  pose proof (X2_fail_fast parseResponse createWriteBuffer)
    as (_ & Hplain & Hmember & _).
  split.
  - apply (Hplain (VStr "3042") "3042"); vm_compute; reflexivity.
  - apply (Hmember (VStr "constructor") "constructor"); vm_compute; reflexivity.
Defined.

(** A stalled read, then a buffer of one byte where the measurement
    interval has two. *)
Lemma X3_witness :
  fst (_read parseResponse (VStr "3011")
         (interval_sensor [Stall; Answer (bytes [1]); Answer interval_300] []))
  = Rejected (Error "Unknown Response Data") /\
  trace (snd (_read parseResponse (VStr "3011")
                (interval_sensor
                   [Stall; Answer (bytes [1]); Answer interval_300] [])))
  = [EvRead "3011"; EvRead "3011"] /\
  read_script "3011"
    (snd (_read parseResponse (VStr "3011")
            (interval_sensor
               [Stall; Answer (bytes [1]); Answer interval_300] [])))
  = [Answer interval_300].
Proof.
  apply (X3_undecodable_answer parseResponse createWriteBuffer
           (VStr "3011") "3011"
           (interval_sensor [Stall; Answer (bytes [1]); Answer interval_300] [])
           1%nat (bytes [1]) [Answer interval_300]).
  - reflexivity.
  - vm_compute. eexists. reflexivity.
  - vm_compute. reflexivity.
  - unfold _REQUEST_RETRY_MAX. lia.
  - reflexivity.
Defined.



(** A sensor in beacon mode 7 whose clock runs. *)
Lemma X7_witness :
  getRecordingStatus parseResponse Bench.recording
  = (Resolved (Bench.status 7 true),
     snd (getRecordingStatus parseResponse Bench.recording)) /\
  get_prop (Bench.status 7 true) "isRecording" = VBool (true && recording_mode 7).
Proof.
  split; [vm_compute; reflexivity|].
  edestruct (proj1 (X7_recording_flag parseResponse) Bench.recording
               (Bench.status 7 true)
               (snd (getRecordingStatus parseResponse Bench.recording)))
    as (adv & tm & Ha & Ht & _ & _ & Hm).
  - vm_compute. reflexivity.
  - vm_compute in Ha, Ht. injection Ha as <-. injection Ht as <-.
    apply (Hm 7). reflexivity.
Defined.

(** The host clock stands a second and a half after [anchor]: the time
    written is [anchor + 2]. *)
Lemma X8_witness :
  fst (startRecording parseResponse Bench.createWriteBuffer Bench.host_clock
         Bench.recording)
  = Resolved tt /\
  exists calls,
    (1 <= calls <= 3)%nat /\
    trace (snd (startRecording parseResponse Bench.createWriteBuffer
                  Bench.host_clock Bench.recording))
    = trace (snd (getRecordingStatus parseResponse Bench.recording))
      ++ replicate calls (EvWrite "3031" (bytes (le32 (anchor + 2))) false).
Proof.
  destruct (X8_startRecording_again parseResponse Bench.createWriteBuffer
              Bench.host_clock Bench.recording (Bench.status 7 true)
              (snd (getRecordingStatus parseResponse Bench.recording)))
    as (H1 & t & Hb & _ & Hw).
  - vm_compute. reflexivity.
  - reflexivity.
  - split; [exact H1|].
    replace (Bench.host_clock
               (snd (getRecordingStatus parseResponse Bench.recording)))
      with (anchor * 1000 + 1500) in Hb by (vm_compute; reflexivity).
    assert (Ht : t = anchor + 2) by (unfold anchor in *; lia).
    rewrite Ht in Hw.
    apply (Hw (bytes (le32 (anchor + 2)))). vm_compute. reflexivity.
Defined.

(** A sensor at rest in beacon mode 2 is asked for mode 8. *)
Lemma X9_witness :
  exists m',
    recording_mode m' = true /\ m' = 8 /\
    startRecording parseResponse Bench.createWriteBuffer Bench.host_clock
      Bench.idle
    = (let* _ := setAdvSetting parseResponse Bench.createWriteBuffer
                   (VObj [("beaconMode", VNum m')]) in
       setTime_now Bench.createWriteBuffer Bench.host_clock)
        (snd (getRecordingStatus parseResponse Bench.idle)).
Proof.
  destruct (X9_startRecording_mode parseResponse Bench.createWriteBuffer
              Bench.host_clock Bench.idle (Bench.status 2 false)
              (snd (getRecordingStatus parseResponse Bench.idle)) 2)
    as (m' & H1 & _ & H3 & H4 & _).
  - vm_compute. reflexivity.
  - reflexivity.
  - reflexivity.
  - exists m'. split; [exact H1|]. split; [apply H3; reflexivity | exact H4].
Defined.



(** Page 2048. *)
Lemma X13_witness :
  getRecordedDataList parseResponse createWriteBuffer tokyo 0
    (VObj [("page", VNum 2048)]) (recorder full_page)
  = Some (Rejected
            (Error "The page must be an integer in the range of 0 to 2047."),
          recorder full_page).
Proof.
  apply (proj1 (X13_page_checked_first parseResponse createWriteBuffer tokyo)
           0%nat [("page", VNum 2048)] (VNum 2048)).
  - reflexivity.
  - intros n [= <-]. right. lia.
Defined.

(** A string where the settings are expected. *)
Lemma X14_witness :
  List.filter is_write
    (trace (snd (setBasicConfigurations Bench.parseResponse
                   Bench.createWriteBuffer (VStr "fast") Bench.configured)))
  = List.filter is_write (trace Bench.configured) /\
  setBasicConfigurations Bench.parseResponse Bench.createWriteBuffer
    (VStr "fast") Bench.configured
  = (Rejected TypeError,
     snd (getBasicConfigurations Bench.parseResponse Bench.configured)).
Proof.
  destruct (proj1 (proj2 (X14_setBasicConfigurations_params
                            Bench.parseResponse Bench.createWriteBuffer))
              (VStr "fast") Bench.configured) as [H1 H2].
  - discriminate.
  - split; [exact H1|].
    apply (H2 (VObj [("measurementInterval", VNum 300);
                     ("beaconMode", VNum 8); ("txPowerLevel", VNum 0);
                     ("uuid", VStr "id")])).
    vm_compute. reflexivity.
Defined.

(** A number where the time is expected. *)
Lemma X15_witness :
  setTime createWriteBuffer Bench.host_clock (VNum 5) = None.
Proof.
  apply (proj2 (proj1 (X15_direct_writes parseResponse createWriteBuffer)
                  Bench.host_clock (VNum 5))).
  split; reflexivity.
Defined.

(** Four peripherals in reach: one that is no sensor, two sensors, and the
    second of them once more under another id. *)
Lemma X16_witness :
  exists l e',
    Scan.discover Bench.parse VUndefined
      [Bench.other; Bench.env2; Bench.env1; Bench.env1_again]
      (Bench.ready false)
    = inr (l, e') /\
    l = [Bench.env2; Bench.env1] /\
    NoDup (map Scan.address l) /\
    forall q, q ∈ l -> q ∈ [Bench.other; Bench.env2; Bench.env1; Bench.env1_again].
Proof.
  eexists _, _. split; [vm_compute; reflexivity|]. split; [reflexivity|].
  edestruct (X16_discover_first_wins Bench.parse VUndefined
               [Bench.other; Bench.env2; Bench.env1; Bench.env1_again]
               (Bench.ready false))
    as (H1 & _ & _ & H4 & _).
  - reflexivity.
  - vm_compute. reflexivity.
  - split; [exact H1|]. intros q Hq. apply (H4 q Hq).
Defined.

(** While [startScan()] is at work, [discover()] throws; [stopScan()] ends
    it. *)
Lemma X17_witness :
  Scan.discover Bench.parse VUndefined [Bench.env1] Bench.scanning
  = inl (Error "The `discover()` or the `startScan()` method is in progress.")
  /\
  Scan._checkInitialized (Scan.stopScan Bench.scanning) = None.
Proof.
  destruct (proj1 (proj2 (X17_scan_guard Bench.parse))
              VUndefined (Bench.ready false) Bench.scanning)
    as (H1 & _ & H3 & _).
  - reflexivity.
  - split; [apply H1 | exact H3].
Defined.


(** [startMonitoringData()] called twice: a notification comes in twice. *)
Lemma X19_witness :
  Monitor.sensordata
    (data_event Bench.parseResponse (response_data 3)
       (monitored (connected [] [stub "3001" [] []]) 2
          (Monitor.quiet true false)))
  = [VObj [("row", VNum 3)]; VObj [("row", VNum 3)]].
Proof.
  apply (proj1 (proj2 (X19_monitoring_listeners Bench.parseResponse))
           (connected [] [stub "3001" [] []]) 2%nat
           (Monitor.quiet true false) (response_data 3)).
  - vm_compute. eexists. reflexivity.
  - reflexivity.
  - reflexivity.
  - reflexivity.
Defined.

(** Page 4 asked from row 12, and the sensor hands out rows 3, 3 and 9
    before the index 13. *)
Lemma X20_witness :
  exists l d',
    _getRecordedDataListFromPages parseResponse createWriteBuffer tokyo 4
      (VObj [("page", VNum 4); ("row", VNum 12); ("interval", VNum 300)])
      (recorder (map (fun rw => Answer (response_data rw)) [3; 3; 9; 13]))
    = Some (Resolved l, d') /\
    map (fun row => get_prop row "row") l = [VNum 9; VNum 3; VNum 3].
Proof.
  edestruct (X20_rows_as_read parseResponse createWriteBuffer tokyo 4
               (VObj [("page", VNum 4); ("row", VNum 12); ("interval", VNum 300)])
               (recorder (map (fun rw => Answer (response_data rw)) [3; 3; 9; 13])))
    with (bufs := map response_data [3; 3; 9]) (rs := [3; 3; 9])
         (sentinel := response_data 13) (rest := @nil (reply buffer))
         (t0 := anchor) (iv := 300)
    as (l & d' & H1 & H2 & _).
  - vm_compute. reflexivity.
  - vm_compute. reflexivity.
  - reflexivity.
  - reflexivity.
  - reflexivity.
  - vm_compute. eexists. reflexivity.
  - vm_compute. reflexivity.
  - cbn [map].
    repeat (constructor;
            [eexists; split; [vm_compute; reflexivity | split; [reflexivity | lia]]|]).
    constructor.
  - reflexivity.
  - reflexivity.
  - simpl. lia.
  - exists l, d'. split; [exact H1 | exact H2].
Defined.

(** ** Further scenarios *)

(** Every read of the device information answered, the model number after
    one stalled call. *)
Example device_information :
  let run := getDeviceInfo Bench.parseResponse Bench.labelled in
  fst run
  = Resolved (VObj [("deviceName", VStr "Env");
                    ("modelNumber", VStr "2JCIE-BL01");
                    ("serialNumber", VStr "0000");
                    ("firmwareRevision", VStr "01.09");
                    ("hardwareRevision", VStr "01.01");
                    ("manufacturerName", VStr "OMRON")]) /\
  trace (snd run)
  = [EvRead "2a00"; EvRead "2a24"; EvRead "2a24"; EvRead "2a25";
     EvRead "2a26"; EvRead "2a27"; EvRead "2a29"] /\
  clock (snd run) = 5000.
Proof. vm_compute. repeat split. Qed.

(** A sensor at rest is started: beacon mode 8 goes out, then the time. *)
Example start_recording :
  let run := startRecording parseResponse Bench.createWriteBuffer
               Bench.host_clock Bench.idle in
  fst run = Resolved tt /\
  trace (snd run)
  = [EvRead "3042"; EvRead "3031"; EvRead "3002"; EvRead "3042";
     EvWrite "3042" (adv_setting 8) false;
     EvWrite "3031" (time_information (anchor + 2)) false].
Proof. vm_compute. split; reflexivity. Qed.

(** Options without a duration: the discovery hears the events of five
    seconds, and the sensor seen at the end of them is not on its list. *)
Example discover_five_seconds :
  Scan.discover_timed Bench.parse (VObj [("quick", VBool false)])
    [(10, Bench.env1); (4999, Bench.other); (5000, Bench.env2)]
    (Bench.ready false)
  = inr ([Bench.env1],
         {| Scan._initialized := true; Scan._discover_status := false;
            Scan._devices := [("c1:a2:b3:00:00:01", Bench.env1)];
            Scan.ondiscover := false;
            Scan.noble_calls := [Scan.StartScanning false; Scan.StopScanning];
            Scan.reported := [] |}).
Proof. reflexivity. Qed.

(** A filter that is a number is matched against the ids as a string, and
    [quick] ends the discovery at the first sensor. *)
Example discover_quick :
  Scan.discover Bench.parse (VObj [("idFilter", VStr "c1"); ("quick", VNum 1)])
    [Bench.other; Bench.env2; Bench.env1_again; Bench.env1]
    (Bench.ready true)
  = inr ([Bench.env1_again],
         {| Scan._initialized := true; Scan._discover_status := false;
            Scan._devices := [("c1:a2:b3:00:00:01", Bench.env1_again)];
            Scan.ondiscover := true;
            Scan.noble_calls := [Scan.StartScanning false; Scan.StopScanning];
            Scan.reported := [Bench.env1_again] |}).
Proof. reflexivity. Qed.
